(** * wazo-agid: the FastAGI protocol engine and the dial-plan objects

    A shallow embedding of [wazo_agid/fastagi.py] and of the parts of
    [wazo_agid/objects.py] that decide how a call is routed: the caller-ID
    parser and rewriter, the dial-action resolver, the schedule mapper and
    the toggles of [User] and [VMBox]; with them what a queue and an
    incoming call apply to the call leg, the modules [callerid_extend]
    and [check_diversion], and the client of the integration tests, whose
    requests the daemon reads.

    Python byte strings are [string]; dictionaries are [gmap]; exceptions
    are values of [exn] carried by the [outcome] of a call; the mutable
    objects the code works on (the two files of a connection, the database
    cursor, [self]) are threaded explicitly. *)

From Stdlib Require Import ZArith Lia Bool List.
From Stdlib Require Import Strings.String Strings.Ascii Numbers.DecimalString.
From Stdlib Require Import Numbers.DecimalZ Numbers.DecimalPos.
From stdpp Require Import gmap strings.

Local Open Scope string_scope.
Local Open Scope Z_scope.

(** ** Python values and built-ins used by the code *)

Module Py.

(** The values that reach [str()] and [_quote]: [None], a byte string or
    an integer. *)
Inductive pyval : Type :=
| PNone
| PStr (s : string)
| PInt (z : Z).

(** [str(v)] *)
Definition str (v : pyval) : string :=
  match v with
  | PNone => "None"
  | PStr s => s
  | PInt z => NilZero.string_of_int (Z.to_int z)
  end.

(** Truth value of an optional string: [None] and [''] are false. *)
Definition truthy (o : option string) : bool :=
  match o with
  | None => false
  | Some s => negb (String.eqb s "")
  end.

Definition nl : ascii := "010"%char.
Definition dquote : ascii := "034"%char.
Definition backslash : ascii := "092"%char.

Definition in_range (lo hi c : ascii) : bool :=
  ((nat_of_ascii lo <=? nat_of_ascii c) && (nat_of_ascii c <=? nat_of_ascii hi))%nat.

Definition is_digit (c : ascii) : bool := in_range "0" "9" c.
Definition is_lower (c : ascii) : bool := in_range "a" "z" c.
Definition is_upper (c : ascii) : bool := in_range "A" "Z" c.

(** [\s] and the characters removed by [str.strip()]: space, \t, \n,
    \v, \f, \r. *)
Definition is_space (c : ascii) : bool :=
  Ascii.eqb c " " || in_range "009" "013" c.

(** [\w] without flags on a byte string. *)
Definition is_word (c : ascii) : bool :=
  is_digit c || is_lower c || is_upper c || Ascii.eqb c "_".

Fixpoint lstrip (s : string) : string :=
  match s with
  | String c s' => if is_space c then lstrip s' else s
  | EmptyString => s
  end.

Fixpoint rstrip (s : string) : string :=
  match s with
  | String c s' =>
      match rstrip s' with
      | EmptyString => if is_space c then EmptyString else String c EmptyString
      | r => String c r
      end
  | EmptyString => EmptyString
  end.

(** [s.strip()] *)
Definition strip (s : string) : string := rstrip (lstrip s).

(** [sep.join(l)] *)
Fixpoint join (sep : string) (l : list string) : string :=
  match l with
  | [] => ""
  | [x] => x
  | x :: l' => x ++ sep ++ join sep l'
  end.

(** [s.replace(old, new)] for a pattern [old] of one character, which is
    how every call in the code uses it. *)
Fixpoint replace (old : ascii) (new : string) (s : string) : string :=
  match s with
  | String c s' =>
      (if Ascii.eqb c old then new else String c EmptyString) ++ replace old new s'
  | EmptyString => EmptyString
  end.

Definition upper_char (c : ascii) : ascii :=
  if is_lower c then ascii_of_nat (nat_of_ascii c - 32) else c.

(** [s.upper()] *)
Fixpoint upper (s : string) : string :=
  match s with
  | String c s' => String (upper_char c) (upper s')
  | EmptyString => EmptyString
  end.

(** [int(s)] for a string of decimal digits, as the groups of [\d*] are;
    [int('')] raises ValueError, here [None]. *)
Definition digit_val (c : ascii) : Z := Z.of_nat (nat_of_ascii c - 48).

Fixpoint int_digits (acc : Z) (s : string) : option Z :=
  match s with
  | String c s' => if is_digit c then int_digits (10 * acc + digit_val c) s' else None
  | EmptyString => Some acc
  end.

Definition int (s : string) : option Z :=
  match s with
  | EmptyString => None
  | _ => int_digits 0 s
  end.

(** [s[:n]] *)
Definition take (n : nat) (s : string) : string := substring 0 n s.

(** [s[0]] and [s[-1]] of a string that is not empty. *)
Definition first_char (s : string) : option ascii := String.get 0 s.

Fixpoint last_char (s : string) : option ascii :=
  match s with
  | EmptyString => None
  | String c EmptyString => Some c
  | String _ s' => last_char s'
  end.

(** [s[1:-1]] *)
Definition strip_ends (s : string) : string :=
  substring 1 (String.length s - 2) s.

End Py.

(** ** The subset of Python's [re] the code needs

    A backtracking matcher in continuation-passing style: alternatives are
    tried left to right and repetition is greedy, as in [re].  Groups are
    numbered; a group that did not take part in the match has no entry. *)

Module Re.

Inductive regex : Type :=
| Eps
| Chr (p : ascii -> bool)
| Seq (a b : regex)
| Alt (a b : regex)
| Star (a : regex)
| Group (n : nat) (a : regex)
| Bol
| Eol.

Definition Plus (a : regex) : regex := Seq a (Star a).
Definition Opt (a : regex) : regex := Alt a Eps.
Definition Lit (c : ascii) : regex := Chr (Ascii.eqb c).

(** [.] does not match a newline. *)
Definition Dot : regex := Chr (fun c => negb (Ascii.eqb c Py.nl)).

Definition captures : Type := list (nat * string).

Fixpoint group (n : nat) (c : captures) : option string :=
  match c with
  | [] => None
  | (m, s) :: c' => if (m =? n)%nat then Some s else group n c'
  end.

Section Run.
Context {A : Type}.

(** [run r pos s c k]: match [r] at offset [pos], where [s] is what is
    left of the subject, then go on with [k]. *)
Fixpoint run (r : regex) (pos : nat) (s : string) (c : captures)
    (k : nat -> string -> captures -> option A) {struct r} : option A :=
  match r with
  | Eps => k pos s c
  | Chr p =>
      match s with
      | String a s' => if p a then k (S pos) s' c else None
      | EmptyString => None
      end
  | Seq a b => run a pos s c (fun pos' s' c' => run b pos' s' c' k)
  | Alt a b =>
      match run a pos s c k with
      | Some x => Some x
      | None => run b pos s c k
      end
  | Star a =>
      (fix star (fuel : nat) (pos : nat) (s : string) (c : captures) : option A :=
         match fuel with
         | O => k pos s c
         | S fuel' =>
             match run a pos s c
                     (fun pos' s' c' =>
                        if (pos <? pos')%nat then star fuel' pos' s' c' else None) with
             | Some x => Some x
             | None => k pos s c
             end
         end) (S (String.length s)) pos s c
  | Group n a =>
      run a pos s c
        (fun pos' s' c' => k pos' s' ((n, substring 0 (pos' - pos) s) :: c'))
  | Bol => if (pos =? 0)%nat then k pos s c else None
  | Eol =>
      match s with
      | EmptyString => k pos s c
      | String a EmptyString => if Ascii.eqb a Py.nl then k pos s c else None
      | _ => None
      end
  end.
End Run.

(** What a successful match reports: where it ends, what is left of the
    subject there, and the groups. *)
Record found : Type := Found { f_end : nat; f_rest : string; f_groups : captures }.

Definition match_at (r : regex) (pos : nat) (s : string) : option found :=
  run r pos s [] (fun pos' s' c' => Some (Found pos' s' c')).

(** [re.compile(r).match(s)] *)
Definition match_ (r : regex) (s : string) : option found := match_at r 0 s.

(** [re.compile(r).search(s)], from offset [pos]: the leftmost match. *)
Fixpoint search_from (r : regex) (pos : nat) (s : string) : option found :=
  match match_at r pos s with
  | Some f => Some f
  | None =>
      match s with
      | String _ s' => search_from r (S pos) s'
      | EmptyString => None
      end
  end.

Definition search (r : regex) (s : string) : option found := search_from r 0 s.

(** [re.compile(r).findall(s)]: the groups of the successive matches that
    do not overlap; the scan resumes where the last match ended, one
    character further after an empty match. *)
Fixpoint findall_from (fuel : nat) (r : regex) (pos : nat) (s : string)
    : list captures :=
  match fuel with
  | O => []
  | S fuel' =>
      match search_from r pos s with
      | None => []
      | Some f =>
          f_groups f ::
            (if (String.length (f_rest f) <? String.length s)%nat
             then findall_from fuel' r (f_end f) (f_rest f)
             else match f_rest f with
                  | String _ s' => findall_from fuel' r (S (f_end f)) s'
                  | EmptyString => []
                  end)
      end
  end.

Definition findall (r : regex) (s : string) : list captures :=
  findall_from (S (String.length s)) r 0 s.

(** A group in a tuple of [findall] is [''] when it took no part. *)
Definition group_or_empty (n : nat) (c : captures) : string :=
  default "" (group n c).

End Re.

(** ** Exceptions and outcomes *)

Inductive exn : Type :=
| FastAGIError (msg : string)
| FastAGIUnknownError (code : Z) (msg : string)
| FastAGIAppError (msg : string)
| FastAGISIGPIPEHangup (msg : string)
| FastAGIResultHangup (msg : string)
| FastAGIDBError (msg : string)
| FastAGIUsageError (msg : string)
| FastAGIInvalidCommand (msg : string)
| FastAGIDialPlanBreak (msg : string)
| IOError (errno : Z)
| ValueError (msg : string)
| TypeError (msg : string)
| RuntimeError (msg : string)
| KeyError (key : string)
| AttributeError (msg : string)
| DBUpdateException (msg : string)
| UnicodeDecodeError (encoding object : string) (start stop : nat) (reason : string).

(** A call returns, raises, or never comes back. *)
Inductive outcome (A : Type) : Type :=
| Ok (a : A)
| Raise (e : exn)
| Loops.

Arguments Ok {A} a.
Arguments Raise {A} e.
Arguments Loops {A}.

(** Code that works on a mutable object of type [W]. *)
Definition M (W A : Type) : Type := W -> outcome A * W.

Definition ret {W A} (a : A) : M W A := fun w => (Ok a, w).

Definition bind {W A B} (m : M W A) (f : A -> M W B) : M W B :=
  fun w =>
    match m w with
    | (Ok a, w') => f a w'
    | (Raise e, w') => (Raise e, w')
    | (Loops, w') => (Loops, w')
    end.

Definition raise {W A} (e : exn) : M W A := fun w => (Raise e, w).

(** [try: m except <handler>]: [h e] is [Some] for the exceptions the
    handler catches. *)
Definition try_except {W A} (m : M W A) (h : exn -> option (M W A)) : M W A :=
  fun w =>
    match m w with
    | (Raise e, w') =>
        match h e with
        | Some m' => m' w'
        | None => (Raise e, w')
        end
    | r => r
    end.

Notation "'let*' x ':=' m 'in' k" := (bind m (fun x => k))
  (at level 10, x name, m at level 100, k at level 200, only parsing).

(** ** What Python makes of a byte string: [repr] and [encode] *)

Module PyText.

Definition hex_digit (n : nat) : ascii :=
  match n with
  | 0 => "0" | 1 => "1" | 2 => "2" | 3 => "3" | 4 => "4" | 5 => "5" | 6 => "6" | 7 => "7"
  | 8 => "8" | 9 => "9" | 10 => "a" | 11 => "b" | 12 => "c" | 13 => "d" | 14 => "e"
  | _ => "f"
  end%char%nat.

Fixpoint contains (c : ascii) (s : string) : bool :=
  match s with
  | String a s' => Ascii.eqb a c || contains c s'
  | EmptyString => false
  end.

(** The quote [repr] puts around a byte string: a single quote, or a
    double quote when the string holds a single quote and no double
    quote. *)
Definition repr_quote (s : string) : ascii :=
  if contains "'" s && negb (contains Py.dquote s) then Py.dquote else "'"%char.

(** One byte in a [repr]: the quote and the backslash get a backslash in
    front; tab, newline and carriage return are written with their
    letter; a byte below the blank or from 127 on is written as
    backslash, x and two hexadecimal digits in lower case. *)
Definition repr_char (quote c : ascii) : string :=
  let n := nat_of_ascii c in
  if Ascii.eqb c quote || Ascii.eqb c Py.backslash then String Py.backslash (String c "")
  else if Ascii.eqb c "009" then String Py.backslash "t"
  else if Ascii.eqb c "010" then String Py.backslash "n"
  else if Ascii.eqb c "013" then String Py.backslash "r"
  else if (n <? 32)%nat || (127 <=? n)%nat
  then String Py.backslash
         (String "x" (String (hex_digit (n / 16)) (String (hex_digit (n mod 16)) "")))
  else String c "".

Fixpoint repr_body (quote : ascii) (s : string) : string :=
  match s with
  | String c s' => repr_char quote c ++ repr_body quote s'
  | EmptyString => EmptyString
  end.

(** [repr(s)] for a byte string [s] *)
Definition repr (s : string) : string :=
  let quote := repr_quote s in
  String quote (repr_body quote s ++ String quote "").

(** [repr(v)] for a byte string or [None] *)
Definition repr_opt (o : option string) : string :=
  match o with
  | Some s => repr s
  | None => "None"
  end.

(** Where the first byte from 128 on is. *)
Fixpoint first_non_ascii (s : string) : option nat :=
  match s with
  | String c s' =>
      if (128 <=? nat_of_ascii c)%nat then Some 0%nat
      else option_map S (first_non_ascii s')
  | EmptyString => None
  end.

(** [s.encode('UTF-8')] for a byte string [s]: the string is first
    decoded with the default codec, ascii, which raises
    UnicodeDecodeError at the first byte from 128 on; what is decoded is
    encoded to the same bytes. *)
Definition encode_utf8 (s : string) : outcome string :=
  match first_non_ascii s with
  | None => Ok s
  | Some i => Raise (UnicodeDecodeError "ascii" s i (S i) "ordinal not in range(128)")
  end.

End PyText.

(** ** objects.py: the caller-ID grammar *)

Module CallerIDGrammar.
Import Re.

(** The class [[a-zA-Z0-9\-\.\!%\*_\+`\'\~]] of an unquoted name. *)
Definition name_char (c : ascii) : bool :=
  Py.is_lower c || Py.is_upper c || Py.is_digit c ||
  existsb (Ascii.eqb c)
    ["-"; "."; "!"; "%"; "*"; "_"; "+"; "`"; "'"; "~"]%char.

(** The class [[0-9\*#]]. *)
Definition num_char (c : ascii) : bool :=
  Py.is_digit c || Ascii.eqb c "*" || Ascii.eqb c "#".

(** [\+?[0-9\*#]+] *)
Definition number : regex := Seq (Opt (Lit "+")) (Plus (Chr num_char)).

(** [^(?:"(.+)"|([a-zA-Z0-9\-\.\!%\*_\+`\'\~]+)) ?(?:<(\+?[0-9\*#]+)>)?$] *)
Definition CALLERID_RE : regex :=
  Seq Bol
    (Seq (Alt (Seq (Lit Py.dquote) (Seq (Group 1 (Plus Dot)) (Lit Py.dquote)))
              (Group 2 (Plus (Chr name_char))))
       (Seq (Opt (Lit " "))
          (Seq (Opt (Seq (Lit "<") (Seq (Group 3 number) (Lit ">"))))
             Eol))).

(** [^\+?[0-9\*#]+$] *)
Definition CALLERIDNUM_RE : regex := Seq Bol (Seq number Eol).

Definition CALLERID_MATCHER (s : string) : option found := match_ CALLERID_RE s.
Definition CALLERIDNUM_MATCHER (s : string) : option found := match_ CALLERIDNUM_RE s.

End CallerIDGrammar.

Module CallerIDParse.
Import Re CallerIDGrammar.

(** [CallerID.parse]: [None] when the display string does not match,
    else the pair (name, number) where either may be [None]. *)
Definition parse (callerid : string) : option (option string * option string) :=
  match CALLERID_MATCHER callerid with
  | None => None
  | Some m =>
      let calleridname := group 1 (f_groups m) in
      let calleridnum := group 3 (f_groups m) in
      match calleridname with
      | Some _ => Some (calleridname, calleridnum)
      | None =>
          let calleridname := group 2 (f_groups m) in
          match calleridnum, calleridname with
          | None, Some n =>
              match CALLERIDNUM_MATCHER n with
              | Some _ => Some (calleridname, group 2 (f_groups m))
              | None => Some (calleridname, calleridnum)
              end
          | _, _ => Some (calleridname, calleridnum)
          end
      end
  end.

End CallerIDParse.

(** ** fastagi.py: the protocol engine *)

Module FastAGI.
Import Re.

(** What one [readline()] on the input file gives: a line, or an
    [IOError].  At the end of the list the peer has closed and
    [readline()] returns [''] for ever. *)
Inductive rd : Type :=
| Line (s : string)
| ReadError (errno : Z).

(** The two files of a connection: what is still to be read from [inf],
    what has been written to [outf], and the [IOError] a write to [outf]
    raises, if it does. *)
Record conn : Type := Conn {
  inf : list rd;
  outf : list string;
  outf_errno : option Z
}.

Definition readline : M conn string :=
  fun w =>
    match inf w with
    | [] => (Ok "", w)
    | Line s :: rest => (Ok s, Conn rest (outf w) (outf_errno w))
    | ReadError e :: rest => (Raise (IOError e), Conn rest (outf w) (outf_errno w))
    end.

(** [outf.write(s); outf.flush()] *)
Definition write_flush (s : string) : M conn unit :=
  fun w =>
    match outf_errno w with
    | Some e => (Raise (IOError e), w)
    | None => (Ok tt, Conn (inf w) (outf w ++ [s])%list (outf_errno w))
    end.

(** [re_code]: the group [^\d*], then [\s*], then the group [.*]. *)
Definition re_code : regex :=
  Seq (Group 1 (Seq Bol (Star (Chr Py.is_digit))))
    (Seq (Star (Chr Py.is_space)) (Group 2 (Star Dot))).

(** [re_kv]: the group key [\w+], [=], the group value [[^\s]+], [\s*],
    then any number of times an opening parenthesis, the group data [.*]
    and a closing parenthesis.  Key, value and data are groups 1, 2, 3. *)
Definition re_kv : regex :=
  Seq (Group 1 (Plus (Chr Py.is_word)))
    (Seq (Lit "=")
       (Seq (Group 2 (Plus (Chr (fun c => negb (Py.is_space c)))))
          (Seq (Star (Chr Py.is_space))
             (Star (Seq (Lit "(") (Seq (Group 3 (Star Dot)) (Lit ")"))))))).

(** The tuples [re_kv.findall(response)] yields. *)
Definition kv_tokens (response : string) : list (string * string * string) :=
  map (fun c => (group_or_empty 1 c, group_or_empty 2 c, group_or_empty 3 c))
      (findall re_kv response).

(** [_quote] *)
Definition _quote (v : Py.pyval) : string :=
  let string :=
    match v with
    | Py.PNone => ""
    | _ => Py.str v
    end in
  String Py.dquote
    (Py.replace Py.nl " "
       (Py.replace Py.dquote (String Py.backslash (String Py.dquote ""))
          (Py.replace Py.backslash (String Py.backslash (String Py.backslash "")) string))
     ++ String Py.dquote "").

Definition send_command (command : string) (args : list Py.pyval) : M conn unit :=
  let command :=
    Py.strip (Py.join " " (Py.strip command :: map Py.str args)) ++ String Py.nl "" in
  write_flush command.

(** The dictionary a result line is parsed to: key to (value, data). *)
Abbreviation result := (gmap string (string * string)).

(** The body of the [for] loop over the tokens of a 200 line. *)
Fixpoint scan_tokens (toks : list (string * string * string)) (res : result)
    : outcome result :=
  match toks with
  | [] => Ok res
  | (key, value, data) :: toks' =>
      let res := <[key := (value, data)]> res in
      if String.eqb data "hangup" then
        Raise (FastAGIResultHangup "User hungup during execution")
      else if String.eqb key "result" && String.eqb value "-1" then
        Raise (FastAGIAppError "Error executing application, or hangup")
      else scan_tokens toks' res
  end.

(** The [while] loop of the 520 case: lines are collected up to and
    including the next one that starts with 520.  When the input ends
    first, [readline()] keeps returning [''] and the loop never ends. *)
Fixpoint read_usage (usage : list string) (lines : list rd)
    : outcome (list string) * list rd :=
  match lines with
  | [] => (Loops, [])
  | ReadError e :: rest => (Raise (IOError e), rest)
  | Line l :: rest =>
      let line := Py.strip l in
      if String.eqb (Py.take 3 line) "520"
      then (Ok (usage ++ [line])%list, rest)
      else read_usage (usage ++ [line])%list rest
  end.

Definition get_result : M conn result :=
  let result : result := {[ "result" := ("", "") ]} in
  let* line := readline in
  let line := Py.strip line in
  match search re_code line with
  | Some m =>
      match Py.int (group_or_empty 1 (f_groups m)) with
      | None => raise (ValueError "invalid literal for int() with base 10: ''")
      | Some code =>
          let response := group_or_empty 2 (f_groups m) in
          if code =? 200 then
            fun w => (scan_tokens (kv_tokens response) result, w)
          else if code =? 510 then
            raise (FastAGIInvalidCommand response)
          else if code =? 520 then
            let* usage := (fun w =>
                             let '(o, rest) := read_usage [line] (inf w) in
                             (o, Conn rest (outf w) (outf_errno w))) in
            raise (FastAGIUsageError (Py.join (String Py.nl "") usage ++ String Py.nl ""))
          else
            raise (FastAGIUnknownError code "Unhandled code or undefined response")
      end
  | None => raise (FastAGIUnknownError 0 "Unhandled code or undefined response")
  end.

Definition execute (command : string) (args : list Py.pyval) : M conn result :=
  try_except
    (let* _ := send_command command args in get_result)
    (fun e =>
       match e with
       | IOError errno =>
           if errno =? 32
           then Some (raise (FastAGISIGPIPEHangup "Received SIGPIPE"))
           else None
       | _ => None
       end).

Definition set_variable (name : string) (value : Py.pyval) : M conn unit :=
  let* _ := execute "SET VARIABLE"
              [Py.PStr (_quote (Py.PStr name)); Py.PStr (_quote value)] in
  ret tt.

(** [_, value = result['result']] *)
Definition result_data (res : result) : M conn string :=
  match res !! "result" with
  | Some (_, value) => ret value
  | None => raise (KeyError "result")
  end.

Definition hangup_result : result := {[ "result" := ("1", "hangup") ]}.

Definition get_variable (name : string) : M conn string :=
  let* result :=
    try_except
      (execute "GET VARIABLE" [Py.PStr (_quote (Py.PStr name))])
      (fun e =>
         match e with
         | FastAGIResultHangup _ => Some (ret hangup_result)
         | _ => None
         end) in
  result_data result.

Definition get_full_variable (name : string) (channel : option string) : M conn string :=
  let* result :=
    try_except
      (if Py.truthy channel
       then execute "GET FULL VARIABLE"
              [Py.PStr (_quote (Py.PStr name));
               Py.PStr (_quote (from_option Py.PStr Py.PNone channel))]
       else execute "GET FULL VARIABLE" [Py.PStr (_quote (Py.PStr name))])
      (fun e =>
         match e with
         | FastAGIResultHangup _ => Some (ret hangup_result)
         | _ => None
         end) in
  result_data result.

End FastAGI.

(** ** The [agi] object as objects.py uses it

    objects.py only calls [agi.get_variable] and [agi.set_variable]; any
    object with these two methods will do. *)

Class Agi (W : Type) : Type := {
  agi_get_variable : string -> M W string;
  agi_set_variable : string -> Py.pyval -> M W unit
}.

(** The protocol engine is one such object. *)
#[export] Instance FastAGI_Agi : Agi FastAGI.conn := {|
  agi_get_variable := FastAGI.get_variable;
  agi_set_variable := FastAGI.set_variable
|}.

(** The other one is the call leg itself, as the switch keeps it: its
    channel variables, and the requests it has served so far.  A variable
    that is not set reads as the empty string, as the docstring of
    [get_variable] says; a value is stored as [str()] makes it. *)
Module Channel.

Inductive call : Type :=
| GetVariable (name : string)
| SetVariable (name value : string).

Record channel : Type := Chan {
  vars : gmap string string;
  served : list call
}.

Definition read (name : string) (ch : channel) : string :=
  default "" (vars ch !! name).

Definition get_variable (name : string) : M channel string :=
  fun ch => (Ok (read name ch), Chan (vars ch) (served ch ++ [GetVariable name])%list).

Definition set_variable (name : string) (value : Py.pyval) : M channel unit :=
  fun ch =>
    (Ok tt, Chan (<[name := Py.str value]> (vars ch))
                 (served ch ++ [SetVariable name (Py.str value)])%list).

(** The [set_variable] requests among the served ones. *)
Definition is_set (c : call) : bool :=
  match c with
  | SetVariable _ _ => true
  | GetVariable _ => false
  end.

Definition mutations (ch : channel) : list call := List.filter is_set (served ch).

End Channel.

#[export] Instance Channel_Agi : Agi Channel.channel := {|
  agi_get_variable := Channel.get_variable;
  agi_set_variable := Channel.set_variable
|}.

(** ** The database behind the cursor

    The tables the modelled queries read, as lists of rows in stored
    order, and the [rowcount] of the last statement. *)

Module DB.

Record dialaction_row : Type := {
  da_event : string;
  da_category : string;
  da_categoryval : Z;
  da_action : string;
  da_actionarg1 : option string;
  da_actionarg2 : option string
}.

Record callerid_row : Type := {
  cid_type : string;
  cid_typeval : Z;
  cid_mode : option string;
  cid_callerdisplay : string
}.

Record userfeatures_row : Type := {
  uf_id : Z;
  uf_enablevoicemail : Z;
  uf_call_record_outgoing_external_enabled : bool;
  uf_call_record_outgoing_internal_enabled : bool;
  uf_call_record_incoming_external_enabled : bool;
  uf_call_record_incoming_internal_enabled : bool
}.

Record voicemail_row : Type := {
  vm_uniqueid : Z;
  vm_commented : Z
}.

Record schedule_path_row : Type := {
  sp_path : string;
  sp_pathid : Z;
  sp_schedule_id : Z
}.

Record schedule_row : Type := {
  s_id : Z;
  s_timezone : option string;
  s_fallback_action : option string;
  s_fallback_actionid : option string;
  s_fallback_actionargs : option string;
  s_commented : Z
}.

Record schedule_time_row : Type := {
  st_schedule_id : Z;
  st_mode : string;
  st_hours : option string;
  st_weekdays : option string;
  st_monthdays : option string;
  st_months : option string;
  st_action : option string;
  st_actionid : option string;
  st_actionargs : option string
}.

Record cursor : Type := Cursor {
  dialaction : list dialaction_row;
  callerid : list callerid_row;
  userfeatures : list userfeatures_row;
  voicemail : list voicemail_row;
  schedule_path : list schedule_path_row;
  schedule : list schedule_row;
  schedule_time : list schedule_time_row;
  infos : list (option string);
  rowcount : Z
}.

(** [UPDATE table SET ... WHERE key = id]: every row the condition holds
    for is rewritten, and their number is the [rowcount]. *)
Definition update_where {R : Type} (cond : R -> bool) (set : R -> R) (rows : list R)
    : list R * Z :=
  (map (fun r => if cond r then set r else r) rows,
   Z.of_nat (List.length (List.filter cond rows))).

Definition update_userfeatures (cond : userfeatures_row -> bool)
    (set : userfeatures_row -> userfeatures_row) (c : cursor) : cursor :=
  let '(rows, n) := update_where cond set (userfeatures c) in
  Cursor (dialaction c) (callerid c) rows (voicemail c) (schedule_path c)
         (schedule c) (schedule_time c) (infos c) n.

Definition update_voicemail (cond : voicemail_row -> bool)
    (set : voicemail_row -> voicemail_row) (c : cursor) : cursor :=
  let '(rows, n) := update_where cond set (voicemail c) in
  Cursor (dialaction c) (callerid c) (userfeatures c) rows (schedule_path c)
         (schedule c) (schedule_time c) (infos c) n.

(** A database with no row in any table. *)
Definition no_rows : cursor := Cursor [] [] [] [] [] [] [] [] 0.

End DB.

(** ** objects.py: the dial-action resolver *)

Module DialAction.
Import DB.

Record t : Type := Build {
  event : string;
  category : string;
  action : string;
  actionarg1 : option string;
  actionarg2 : option string
}.

(** The row [fetchone()] gives for the query of [__init__]. *)
Definition fetch (c : cursor) (event category : string) (categoryval : Z)
    : option dialaction_row :=
  head (List.filter
          (fun r => String.eqb (da_event r) event
                    && String.eqb (da_category r) category
                    && (da_categoryval r =? categoryval))
          (dialaction c)).

(** [DialAction.__init__] *)
Definition init (c : cursor) (event category : string) (categoryval : Z) : t :=
  match fetch c event category categoryval with
  | None => Build event category "none" None None
  | Some res => Build event category (da_action res) (da_actionarg1 res) (da_actionarg2 res)
  end.

Section WithAgi.
Context {W : Type} `{Agi W}.

(** [DialAction.set_agi_variables] *)
Definition set_agi_variables (event category action : string)
    (actionarg1 actionarg2 : option string) (isda : bool) : M W unit :=
  let xtype := Py.upper (category ++ "_" ++ event) in
  let* _ := agi_set_variable ("XIVO_FWD_" ++ xtype ++ "_ACTION") (Py.PStr action) in
  let* _ := (if isda
             then agi_set_variable ("XIVO_FWD_" ++ xtype ++ "_ISDA") (Py.PStr "1")
             else ret tt) in
  let actionarg1 :=
    if Py.truthy actionarg1
    then Py.replace "|" ";" (default "" actionarg1)
    else "" in
  let actionarg2 :=
    if Py.truthy actionarg2
    then default "" actionarg2
    else "" in
  let* _ := agi_set_variable ("XIVO_FWD_" ++ xtype ++ "_ACTIONARG1") (Py.PStr actionarg1) in
  agi_set_variable ("XIVO_FWD_" ++ xtype ++ "_ACTIONARG2") (Py.PStr actionarg2).

Definition category_no_isda : list string :=
  ["none"; "endcall:busy"; "endcall:congestion"; "endcall:hangup"].

(** [DialAction.set_variables] *)
Definition set_variables (self : t) : M W unit :=
  set_agi_variables (event self) (category self) (action self)
    (actionarg1 self) (actionarg2 self)
    (negb (existsb (String.eqb (category self)) category_no_isda)).
End WithAgi.

End DialAction.

(** ** objects.py: the caller-ID object *)

Module CallerID.
Import DB.

Definition parse := CallerIDParse.parse.

Record t : Type := Build {
  mode : option string;
  calleridname : option string;
  calleridnum : option string
}.

(** The row [fetchone()] gives for the query of [__init__]. *)
Definition fetch (c : cursor) (xtype : string) (typeval : Z) : option callerid_row :=
  head (List.filter
          (fun r => String.eqb (cid_type r) xtype
                    && (cid_typeval r =? typeval)
                    && bool_decide (is_Some (cid_mode r)))
          (callerid c)).

(** [CallerID.__init__]; [None.encode] is an AttributeError, and the
    [encode] of a name raises on a byte from 128 on. *)
Definition init (c : cursor) (xtype : string) (typeval : Z) : outcome t :=
  match fetch c xtype typeval with
  | None => Ok (Build None None None)
  | Some res =>
      match parse (cid_callerdisplay res) with
      | None => Ok (Build None None None)
      | Some (Some name, num) =>
          match PyText.encode_utf8 name with
          | Ok name => Ok (Build (cid_mode res) (Some name) num)
          | Raise e => Raise e
          | Loops => Loops
          end
      | Some (None, _) =>
          Raise (AttributeError "'NoneType' object has no attribute 'encode'")
      end
  end.

(** [self.calleridname] and [self.calleridnum], for where a local
    variable of [rewrite] has the same name. *)
Definition self_calleridname (self : t) : option string := calleridname self.
Definition self_calleridnum (self : t) : option string := calleridnum self.

(** ['"%s" <%s>' % (name, num)] *)
Definition format_all (name num : Py.pyval) : string :=
  String Py.dquote (Py.str name ++ String Py.dquote (" <" ++ Py.str num ++ ">")).

(** ["%s - %s" % (a, b)] *)
Definition format_dash (a b : Py.pyval) : string :=
  Py.str a ++ " - " ++ Py.str b.

Definition opt_val (o : option string) : Py.pyval := from_option Py.PStr Py.PNone o.

(** The name the switch gives for an empty quoted name: two double
    quotes and nothing between them. *)
Definition empty_quotes : string := String Py.dquote (String Py.dquote "").

(** [calleridname[0] == '"' and calleridname[-1] == '"'] *)
Definition quote_wrapped (s : string) : bool :=
  bool_decide (Py.first_char s = Some Py.dquote)
  && bool_decide (Py.last_char s = Some Py.dquote).

Section WithAgi.
Context {W : Type} `{Agi W}.

(** [CallerID.set] *)
Definition set (callerid : string) : M W (option bool) :=
  match parse callerid with
  | None => ret None
  | Some (calleridname, calleridnum) =>
      let calleridname :=
        match calleridname, calleridnum with
        | None, Some n => Some n
        | _, _ => calleridname
        end in
      let* _ :=
        match calleridname, calleridnum with
        | Some n, None => agi_set_variable "CALLERID(name)" (Py.PStr n)
        | _, _ =>
            agi_set_variable "CALLERID(all)"
              (Py.PStr (format_all (opt_val calleridname) (opt_val calleridnum)))
        end in
      ret (Some true)
  end.

(** The name [rewrite] gives the caller, from the mode of the rule,
    the name of the rule and the name and number resolved so far. *)
Definition combine (self : t) (calleridname calleridnum : string) : outcome string :=
  let mode_is m := bool_decide (mode self = Some m) in
  if (mode_is "prepend" || mode_is "append")
     && bool_decide (self_calleridname self = Some calleridname)
     && String.eqb calleridnum calleridname
  then Ok calleridname
  else if mode_is "prepend"
  then Ok (format_dash (opt_val (self_calleridname self)) (Py.PStr calleridname))
  else if mode_is "overwrite"
  then Ok (Py.str (opt_val (self_calleridname self)))
  else if mode_is "append"
  then Ok (format_dash (Py.PStr calleridname) (opt_val (self_calleridname self)))
  else Raise (RuntimeError ("Unknown callerid mode: " ++ PyText.repr_opt (mode self))).

(** [CallerID.rewrite] *)
Definition rewrite (self : t) (force_rewrite : bool) : M W unit :=
  if negb (Py.truthy (mode self)) then ret tt
  else
    let* cidrewritten := agi_get_variable "XIVO_CID_REWRITTEN" in
    if force_rewrite || negb (Py.truthy (Some cidrewritten)) then
      let* calleridname := agi_get_variable "CALLERID(name)" in
      let* calleridnum := agi_get_variable "CALLERID(num)" in
      let calleridnum :=
        match self_calleridnum self with
        | Some n => n
        | None => if String.eqb calleridnum "" then "unknown" else calleridnum
        end in
      let calleridname :=
        if String.eqb calleridname "" || String.eqb calleridname empty_quotes
        then calleridnum
        else if quote_wrapped calleridname
        then Py.strip_ends calleridname
        else calleridname in
      match combine self calleridname calleridnum with
      | Raise e => raise e
      | Loops => fun w => (Loops, w)
      | Ok name =>
          let* _ := agi_set_variable "CALLERID(name-pres)" (Py.PStr "allowed") in
          let* _ := agi_set_variable "CALLERID(num-pres)" (Py.PStr "allowed") in
          let* _ := agi_set_variable "CALLERID(all)"
                      (Py.PStr (format_all (Py.PStr name) (Py.PStr calleridnum))) in
          if negb force_rewrite
          then agi_set_variable "XIVO_CID_REWRITTEN" (Py.PInt 1)
          else ret tt
      end
    else ret tt.
End WithAgi.

End CallerID.

(** ** objects.py: the toggles of [VMBox] and [User]

    A method works on [self] and on the cursor [self] holds. *)

Module VMBox.
Import DB.

Record t : Type := Build {
  id : Z;
  commented : Z
}.

(** [int(not x)] for an integer [x] *)
Definition int_not (x : Z) : Z := if x =? 0 then 1 else 0.

(** [VMBox.toggle_enable]; [enabled] is the truth value of the argument
    when one is given. *)
Definition toggle_enable (enabled : option bool) : M (t * cursor) unit :=
  fun '(self, c) =>
    let enabled :=
      match enabled with
      | None => int_not (commented self)
      | Some b => if b then 0 else 1
      end in
    let c := update_voicemail (fun r => vm_uniqueid r =? id self)
               (fun r => {| vm_uniqueid := vm_uniqueid r; vm_commented := enabled |}) c in
    if negb (rowcount c =? 1)
    then (Raise (DBUpdateException "Unable to perform the requested update"), (self, c))
    else (Ok tt, (Build (id self) enabled, c)).

End VMBox.

Module User.
Import DB.

Record t : Type := Build {
  id : Z;
  enablevoicemail : Z;
  call_record_enabled : bool
}.

Definition set_enablevoicemail (enabled : Z) (r : userfeatures_row) : userfeatures_row :=
  {| uf_id := uf_id r;
     uf_enablevoicemail := enabled;
     uf_call_record_outgoing_external_enabled := uf_call_record_outgoing_external_enabled r;
     uf_call_record_outgoing_internal_enabled := uf_call_record_outgoing_internal_enabled r;
     uf_call_record_incoming_external_enabled := uf_call_record_incoming_external_enabled r;
     uf_call_record_incoming_internal_enabled := uf_call_record_incoming_internal_enabled r |}.

Definition set_call_record (enabled : bool) (r : userfeatures_row) : userfeatures_row :=
  {| uf_id := uf_id r;
     uf_enablevoicemail := uf_enablevoicemail r;
     uf_call_record_outgoing_external_enabled := enabled;
     uf_call_record_outgoing_internal_enabled := enabled;
     uf_call_record_incoming_external_enabled := enabled;
     uf_call_record_incoming_internal_enabled := enabled |}.

(** [User.toggle_feature] *)
Definition toggle_feature (feature : string) : M (t * cursor) unit :=
  let* _ :=
    (if String.eqb feature "enablevoicemail" then
       fun '(self, c) =>
         let enabled := VMBox.int_not (enablevoicemail self) in
         let c := update_userfeatures (fun r => uf_id r =? id self)
                    (set_enablevoicemail enabled) c in
         (Ok tt, (Build (id self) enabled (call_record_enabled self), c))
     else if String.eqb feature "callrecord" then
       fun '(self, c) =>
         let enabled := negb (call_record_enabled self) in
         let c := update_userfeatures (fun r => uf_id r =? id self)
                    (set_call_record enabled) c in
         (Ok tt, (Build (id self) (enablevoicemail self) enabled, c))
     else raise (ValueError "invalid feature")) in
  fun '(self, c) =>
    if negb (rowcount c =? 1)
    then (Raise (DBUpdateException "Unable to perform the requested update"), (self, c))
    else (Ok tt, (self, c)).

End User.

(** ** objects.py: the schedule mapper *)

Module ScheduleDataMapper.
Import DB.

(** Modelled from the spec: [wazo_agid/schedule.py], which declares
    [ScheduleAction], [SchedulePeriodBuilder], [Schedule] and
    [AlwaysOpenedSchedule], is not among the sources.  An action is the
    triple (kind, target-id, arguments) that is only transported. *)
Record ScheduleAction : Type := Action {
  a_action : option string;
  a_actionid : option string;
  a_actionargs : option string
}.

(** An outcome, then what is done with its value. *)
Definition and_then {A B : Type} (o : outcome A) (f : A -> outcome B) : outcome B :=
  match o with
  | Ok a => f a
  | Raise e => Raise e
  | Loops => Loops
  end.

Section WithBuilder.
(** Modelled from the spec: [SchedulePeriodBuilder] is not among the
    sources.  By sections 3 and 4.2 a period is a predicate over four
    dimensions (hours, weekdays, days of month, months), each held as a
    normalized set or range decoded from the stored string; by section 9
    the grammar of the strings belongs to the absent module; by section 7
    malformed period data is a fatal error.  The types of the four
    decoded dimensions and the four decoders, which raise on a malformed
    string, are parameters, called in the order the mapper calls the
    builder. *)
Variables hours_t weekdays_t days_t months_t : Type.
Variable decode_hours : option string -> outcome hours_t.
Variable decode_weekdays : option string -> outcome weekdays_t.
Variable decode_days : option string -> outcome days_t.
Variable decode_months : option string -> outcome months_t.

(** Modelled from the spec: a period is its four decoded dimensions and,
    for a closed period, its action. *)
Record SchedulePeriod : Type := Period {
  p_hours : hours_t;
  p_weekdays : weekdays_t;
  p_days : days_t;
  p_months : months_t;
  p_action : option ScheduleAction
}.

(** Modelled from the spec: [Schedule] and [AlwaysOpenedSchedule] are not
    among the sources.  A schedule is either the distinguished always-open
    object or the opened periods, the closed periods, the default action
    and the timezone the constructor was given. *)
Inductive schedule_obj : Type :=
| AlwaysOpenedSchedule
| Schedule (opened_periods closed_periods : list SchedulePeriod)
    (default_action : ScheduleAction) (timezone : option string).

(** The rows of the first query: [schedule_path] joined with [schedule]
    on the schedule id, for the path, where the schedule is not
    commented. *)
Definition select_schedule (c : cursor) (path : string) (path_id : Z)
    : list schedule_row :=
  flat_map
    (fun p =>
       if String.eqb (sp_path p) path && (sp_pathid p =? path_id)
       then List.filter (fun s => (s_id s =? sp_schedule_id p) && (s_commented s =? 0))
              (schedule c)
       else [])
    (schedule_path c).

(** The rows of [schedule_time] of one schedule. *)
Definition select_periods (c : cursor) (schedule_id : Z) : list schedule_time_row :=
  List.filter (fun r => st_schedule_id r =? schedule_id) (schedule_time c).

(** The builder calls of one turn of the loop, up to [build()]: hours,
    weekdays, days, months, and the action when there is one. *)
Definition build_period (res_period : schedule_time_row) (action : option ScheduleAction)
    : outcome SchedulePeriod :=
  and_then (decode_hours (st_hours res_period)) (fun hours =>
  and_then (decode_weekdays (st_weekdays res_period)) (fun weekdays =>
  and_then (decode_days (st_monthdays res_period)) (fun days =>
  and_then (decode_months (st_months res_period)) (fun months =>
  Ok (Period hours weekdays days months action))))).

(** The loop over the period rows: the two lists it fills, or the error
    of the first row the builder refuses. *)
Fixpoint split_periods (res : list schedule_time_row)
    : outcome (list SchedulePeriod * list SchedulePeriod) :=
  match res with
  | [] => Ok ([], [])
  | res_period :: res' =>
      if String.eqb (st_mode res_period) "opened"
      then
        and_then (build_period res_period None) (fun period =>
        and_then (split_periods res') (fun lists =>
        Ok (period :: fst lists, snd lists)))
      else
        let action := Action (st_action res_period) (st_actionid res_period)
                             (st_actionargs res_period) in
        and_then (build_period res_period (Some action)) (fun period =>
        and_then (split_periods res') (fun lists =>
        Ok (fst lists, period :: snd lists)))
  end.

(** [ScheduleDataMapper.get_from_path] *)
Definition get_from_path (c : cursor) (path : string) (path_id : Z)
    : outcome schedule_obj :=
  match head (select_schedule c path path_id) with
  | None => Ok AlwaysOpenedSchedule
  | Some res =>
      let schedule_id := s_id res in
      let timezone :=
        if Py.truthy (s_timezone res) then Ok (s_timezone res)
        else match head (infos c) with
             | Some tz => Ok tz
             | None => Raise (TypeError "'NoneType' object has no attribute '__getitem__'")
             end in
      and_then timezone (fun timezone =>
        let default_action :=
          Action (s_fallback_action res) (s_fallback_actionid res)
                 (s_fallback_actionargs res) in
        and_then (split_periods (select_periods c schedule_id)) (fun lists =>
        Ok (Schedule (fst lists) (snd lists) default_action timezone)))
  end.

End WithBuilder.

Arguments Period {hours_t weekdays_t days_t months_t} _ _ _ _ _.
Arguments p_action {hours_t weekdays_t days_t months_t} _.
Arguments AlwaysOpenedSchedule {hours_t weekdays_t days_t months_t}.
Arguments Schedule {hours_t weekdays_t days_t months_t} _ _ _ _.
Arguments build_period {hours_t weekdays_t days_t months_t} _ _ _ _ _ _.
Arguments split_periods {hours_t weekdays_t days_t months_t} _ _ _ _ _.
Arguments get_from_path {hours_t weekdays_t days_t months_t} _ _ _ _ _ _ _.

End ScheduleDataMapper.

(** ** fastagi.py: the environment and the arguments of a session *)

Module FastAGIInit.
Import FastAGI.

(** [line.split(':', 1)]: what is before the first colon and, when there
    is a colon, what is after it. *)
Fixpoint split_colon (line : string) : string * option string :=
  match line with
  | EmptyString => (EmptyString, None)
  | String c line' =>
      if Ascii.eqb c ":" then (EmptyString, Some line')
      else let '(a, b) := split_colon line' in (String c a, b)
  end.

(** The body of the loop of [_get_agi_env] for a line that is not blank. *)
Definition add_env (env : gmap string string) (line : string) : gmap string string :=
  let key_data := split_colon line in
  let key := Py.strip (fst key_data) in
  if String.eqb key "" then env
  else match snd key_data with
       | Some data => <[key := Py.strip data]> env
       | None => <[key := ""]> env
       end.

(** [_get_agi_env]: lines are read up to the first blank one; at the end
    of the input [readline()] gives [''], which is blank. *)
Fixpoint _get_agi_env (lines : list rd) (env : gmap string string)
    : outcome (gmap string string) * list rd :=
  match lines with
  | [] => (Ok env, [])
  | ReadError e :: rest => (Raise (IOError e), rest)
  | Line l :: rest =>
      let line := Py.strip l in
      if String.eqb line "" then (Ok env, rest)
      else _get_agi_env rest (add_env env line)
  end.

(** ["agi_arg_%d" % i] *)
Definition arg_key (i : Z) : string := "agi_arg_" ++ Py.str (Py.PInt i).

(** The loop of [_get_agi_args]; it ends at the first key that is
    missing, after at most as many turns as the environment has keys. *)
Fixpoint args_from (fuel : nat) (env : gmap string string) (i : Z) : list string :=
  match fuel with
  | O => []
  | S fuel' =>
      match env !! arg_key i with
      | Some v => v :: args_from fuel' env (i + 1)
      | None => []
      end
  end.

Definition _get_agi_args (env : gmap string string) : list string :=
  args_from (S (size env)) env 1.

(** What [__init__] leaves in the object. *)
Record session : Type := Session {
  env : gmap string string;
  args : list string
}.

(** [FastAGI.__init__] *)
Definition init : M conn session :=
  fun w =>
    match _get_agi_env (inf w) ∅ with
    | (Ok env, rest) =>
        (Ok (Session env (_get_agi_args env)), Conn rest (outf w) (outf_errno w))
    | (Raise e, rest) => (Raise e, Conn rest (outf w) (outf_errno w))
    | (Loops, rest) => (Loops, Conn rest (outf w) (outf_errno w))
    end.

End FastAGIInit.

(** ** fastagi.py: operations built on [execute] *)

Module FastAGIOps.
Import FastAGI.

(** [isinstance(e, FastAGIHangup)] and [isinstance(e, FastAGIAppError)],
    by the classes declared at the top of the file. *)
Definition is_hangup (e : exn) : bool :=
  match e with
  | FastAGISIGPIPEHangup _ | FastAGIResultHangup _ => true
  | _ => false
  end.

Definition is_app_error (e : exn) : bool :=
  match e with
  | FastAGIAppError _ | FastAGIDBError _ => true
  | _ => is_hangup e
  end.

(** [result['result'][0]] *)
Definition result_value (res : result) : M conn string :=
  match res !! "result" with
  | Some (value, _) => ret value
  | None => raise (KeyError "result")
  end.

(** [res, value = result['result']] *)
Definition result_pair (res : result) : M conn (string * string) :=
  match res !! "result" with
  | Some p => ret p
  | None => raise (KeyError "result")
  end.

(** [int(s)] for a string without blanks, as the value of a token is:
    decimal digits after an optional sign. *)
Definition int_signed (s : string) : option Z :=
  match s with
  | String "-" d => option_map Z.opp (Py.int d)
  | String "+" d => Py.int d
  | _ => Py.int s
  end.

(** The strings [int] shows whole in the text of its error: those with
    no blank in front, no NUL byte and at most 200 bytes. *)
Definition shown_whole (s : string) : bool :=
  String.eqb (Py.lstrip s) s && negb (PyText.contains "000" s)
  && (String.length s <=? 200)%nat.

(** The text of the ValueError of [int(s)] for a string that is shown
    whole: it ends with the [repr] of the string. *)
Definition int_error_text (s : string) : string :=
  "invalid literal for int() with base 10: " ++ PyText.repr s.

Definition int_error (s : string) : exn := ValueError (int_error_text s).

(** [fail] *)
Definition fail : M conn unit :=
  try_except (send_command "failure to have pure code" [])
    (fun e =>
       match e with
       | IOError errno => if negb (errno =? 32) then None else Some (ret tt)
       | _ => None
       end).

(** [channel_status] *)
Definition channel_status (channel : string) : M conn Z :=
  let* result :=
    try_except (execute "CHANNEL STATUS" [Py.PStr channel])
      (fun e =>
         if is_hangup e then None
         else if is_app_error e then Some (ret ({[ "result" := ("-1", "") ]} : result))
         else None) in
  let* value := result_value result in
  match int_signed value with
  | Some n => ret n
  | None => raise (int_error value)
  end.

Section WithPformat.
(** [pprint.pformat], of the standard library, on the dictionary of a
    result. *)
Variable pformat : result -> string.

(** [database_get] *)
Definition database_get (family key : string) : M conn string :=
  let* result := execute "DATABASE GET"
                   [Py.PStr (_quote (Py.PStr family)); Py.PStr (_quote (Py.PStr key))] in
  let* p := result_pair result in
  let '(res, value) := p in
  if String.eqb res "0" then
    raise (FastAGIDBError ("Key not found in database: family=" ++ family ++ ", key=" ++ key))
  else if String.eqb res "1" then ret value
  else raise (FastAGIError ("Unknown exception for : family=" ++ family ++ ", key=" ++ key
                            ++ ", result=" ++ pformat result)).
End WithPformat.

(** [database_put] *)
Definition database_put (family key value : string) : M conn unit :=
  let* result := execute "DATABASE PUT"
                   [Py.PStr (_quote (Py.PStr family)); Py.PStr (_quote (Py.PStr key));
                    Py.PStr (_quote (Py.PStr value))] in
  let* p := result_pair result in
  let '(res, value) := p in
  if String.eqb res "0" then
    raise (FastAGIDBError ("Unable to put vaule in databale: family=" ++ family
                           ++ ", key=" ++ key ++ ", value=" ++ value))
  else ret tt.

(** [database_del] *)
Definition database_del (family key : string) : M conn unit :=
  let* result := execute "DATABASE DEL"
                   [Py.PStr (_quote (Py.PStr family)); Py.PStr (_quote (Py.PStr key))] in
  let* p := result_pair result in
  if String.eqb (fst p) "0" then
    raise (FastAGIDBError ("Unable to delete from database: family=" ++ family
                           ++ ", key=" ++ key))
  else ret tt.

(** [appexec] *)
Definition appexec (application options : string) : M conn string :=
  let* result := execute "EXEC" [Py.PStr application; Py.PStr (_quote (Py.PStr options))] in
  let* res := result_value result in
  if String.eqb res "-2" then
    raise (FastAGIAppError ("Unable to find application: " ++ application))
  else ret res.

End FastAGIOps.

(** ** objects.py: what a queue and an incoming call apply to the call leg

    Of a [Queue] and of a [DID] the methods below use the [id] and the
    cursor only. *)

(** An outcome computed without the object [W], inside code that works on
    it. *)
Definition lift {W A : Type} (o : outcome A) : M W A := fun w => (o, w).

(** [for x in l: body(x)] *)
Fixpoint for_each {W A : Type} (l : list A) (body : A -> M W unit) : M W unit :=
  match l with
  | [] => ret tt
  | x :: l' => let* _ := body x in for_each l' body
  end.

Module Queue.
Import DB.

Record t : Type := Build {
  id : Z
}.

Section WithAgi.
Context {W : Type} `{Agi W}.

(** [Queue.set_dial_actions] *)
Definition set_dial_actions (c : cursor) (self : t) : M W unit :=
  let* _ :=
    for_each ["congestion"; "busy"; "chanunavail"; "qwaittime"; "qwaitratio"]
      (fun event => DialAction.set_variables (DialAction.init c event "queue" (id self))) in
  let action := DialAction.init c "noanswer" "queue" (id self) in
  let* _ := DialAction.set_variables action in
  if existsb (String.eqb (DialAction.action action)) ["voicemail"; "sound"]
  then agi_set_variable "XIVO_QUEUELOG_EVENT" (Py.PStr "REROUTEGUIDE")
  else ret tt.

(** [Queue.rewrite_cid] *)
Definition rewrite_cid (c : cursor) (self : t) : M W unit :=
  let* cid := lift (CallerID.init c "queue" (id self)) in
  CallerID.rewrite cid false.
End WithAgi.

End Queue.

Module DID.
Import DB.

Record t : Type := Build {
  id : Z
}.

Section WithAgi.
Context {W : Type} `{Agi W}.

(** [DID.set_dial_actions] *)
Definition set_dial_actions (c : cursor) (self : t) : M W unit :=
  DialAction.set_variables (DialAction.init c "answer" "incall" (id self)).

(** [DID.rewrite_cid] *)
Definition rewrite_cid (c : cursor) (self : t) : M W unit :=
  let* cid := lift (CallerID.init c "incall" (id self)) in
  CallerID.rewrite cid true.
End WithAgi.

End DID.

(** ** modules/callerid_extend.py *)

Module CalleridExtend.

Section WithAgi.
Context {W : Type} `{Agi W}.

(** [callerid_extend]; [env] is [agi.env]. *)
Definition callerid_extend (env : gmap string string) : M W unit :=
  match env !! "agi_callington" with
  | Some callington => agi_set_variable "XIVO_SRCTON" (Py.PStr callington)
  | None => ret tt
  end.
End WithAgi.

End CalleridExtend.

(** ** modules/check_diversion.py *)

Module CheckDiversion.

(** [int(s)] for a byte string: blanks around it are skipped, then come
    an optional sign and decimal digits. *)
Definition py_int (s : string) : option Z := FastAGIOps.int_signed (Py.strip s).

Section WithQueue.
(** The module takes its queue from [xivo_agid.objects], which is not
    among the sources, and compares a ratio in floating point.  Of the
    queue it uses the name, the wait time and the wait ratio.  [ratio] is
    the type of the stored ratio, [exceeds waiting_calls agents r] the
    test [(waiting_calls + 1.0) / agents > r], and [find_queue xid] what
    [objects.Queue(agi, cursor, xid=xid)] gives: the queue, or the text of
    its LookupError or ValueError. *)
Variable ratio : Type.
Variable exceeds : Z -> Z -> ratio -> bool.

Record queue : Type := Queue {
  name : string;
  waittime : option Z;
  waitratio : option ratio
}.

Variable find_queue : Z -> queue + string.

Context {W : Type} `{Agi W}.

(** [int(agi.get_variable(name))] *)
Definition int_variable (variable : string) : M W Z :=
  let* value := agi_get_variable variable in
  match py_int value with
  | Some n => ret n
  | None => raise (FastAGIOps.int_error value)
  end.

(** [_is_hold_time_overrun] *)
Definition _is_hold_time_overrun (queue : queue) (waiting_calls : Z) : M W bool :=
  match waittime queue with
  | None => ret false
  | Some queue_waittime =>
      if waiting_calls =? 0 then ret false
      else
        let* holdtime := int_variable "QUEUEHOLDTIME" in
        ret (queue_waittime <? holdtime)
  end.

(** [_is_agent_ratio_overrun] *)
Definition _is_agent_ratio_overrun (queue : queue) (waiting_calls : Z) : M W bool :=
  match waitratio queue with
  | None => ret false
  | Some queue_waitratio =>
      if waiting_calls =? 0 then ret false
      else
        let* agents := int_variable ("QUEUE_MEMBER(" ++ name queue ++ ",logged)") in
        if agents =? 0 then ret true
        else ret (exceeds waiting_calls agents queue_waitratio)
  end.

(** [_set_diversion] *)
Definition _set_diversion (event dialaction : string) : M W unit :=
  let* _ := agi_set_variable "XIVO_DIVERT_EVENT" (Py.PStr event) in
  agi_set_variable "XIVO_FWD_TYPE" (Py.PStr ("QUEUE_" ++ dialaction)).

(** [check_diversion]; [agi.dp_break] raises FastAGIDialPlanBreak with
    the text of the error caught. *)
Definition check_diversion : M W unit :=
  let* queueid := agi_get_variable "XIVO_DSTID" in
  let* queue :=
    match py_int queueid with
    | None => raise (FastAGIDialPlanBreak (FastAGIOps.int_error_text queueid))
    | Some xid =>
        match find_queue xid with
        | inl queue => ret queue
        | inr e => raise (FastAGIDialPlanBreak e)
        end
    end in
  let* waiting_calls := int_variable ("QUEUE_WAITING_COUNT(" ++ name queue ++ ")") in
  let* hold := _is_hold_time_overrun queue waiting_calls in
  if hold then _set_diversion "DIVERT_HOLDTIME" "QWAITTIME"
  else
    let* agent_ratio := _is_agent_ratio_overrun queue waiting_calls in
    if agent_ratio then _set_diversion "DIVERT_CA_RATIO" "QWAITRATIO"
    else _set_diversion "" "".

End WithQueue.

End CheckDiversion.

(** ** helpers/agid.py: the client of the integration tests

    What the client sends is what the daemon reads: the fragments, put
    end to end, are cut into lines by [readline()]. *)

Module AgidClient.

(** [_send_fragment]: the bytes sent. *)
Definition _send_fragment (fragment : string) : string := fragment ++ String Py.nl "".

(** The options [f'agi_arg_{x}: {arg}'] for [x, arg] in
    [enumerate(args, start=x)]. *)
Fixpoint arg_options (x : Z) (args : list string) : list string :=
  match args with
  | [] => []
  | arg :: args' =>
      ("agi_arg_" ++ Py.str (Py.PInt x) ++ ": " ++ arg) :: arg_options (x + 1) args'
  end.

(** The options [f'{key}: {value}'] of the keyword arguments, in the
    order they were given. *)
Definition kw_options (kwargs : list (string * string)) : list string :=
  map (fun kv => fst kv ++ ": " ++ snd kv) kwargs.

(** [_send_handler]: the fragments sent, in order. *)
Definition _send_handler (command : string) (args : list string)
    (kwargs : list (string * string)) : list string :=
  ([_send_fragment "agi_network: yes";
    _send_fragment ("agi_network_script: " ++ command);
    _send_fragment ("agi_request: agi://localhost/" ++ command)]
   ++ match args with
      | [] => []
      | _ => [_send_fragment (Py.join (String Py.nl "") (arg_options 1 args))]
      end
   ++ match kwargs with
      | [] => []
      | _ => [_send_fragment (Py.join (String Py.nl "") (kw_options kwargs))]
      end
   ++ [_send_fragment ""])%list.

(** [_send_result] *)
Definition _send_result (result : Z) (data : option string) : string :=
  let message :=
    if Py.truthy data
    then "200 result=" ++ Py.str (Py.PInt result) ++ " (" ++ default "" data ++ ")"
    else "200 result=" ++ Py.str (Py.PInt result) in
  _send_fragment message.

(** The lines [readline()] gives, call after call, on the bytes [s]: each
    ends with its newline, the last one apart when the bytes do not end
    with one. *)
Fixpoint readlines (s : string) : list string :=
  match s with
  | EmptyString => []
  | String c s' =>
      if Ascii.eqb c Py.nl then String c "" :: readlines s'
      else match readlines s' with
           | [] => [String c ""]
           | l :: ls => String c l :: ls
           end
  end.

(** What the daemon has to read once the fragments are sent. *)
Definition received (fragments : list string) : list FastAGI.rd :=
  map FastAGI.Line (readlines (String.concat "" fragments)).

End AgidClient.

(** * Properties *)

(** ** Strings *)

Module StringFacts.

Lemma append_cons (x : ascii) (a b : string) : String x a ++ b = String x (a ++ b).
Proof. reflexivity. Qed.

Lemma append_assoc (a b c : string) : (a ++ b) ++ c = a ++ (b ++ c).
Proof.
  induction a as [|x a IH]; [reflexivity|].
  rewrite !append_cons. now rewrite IH.
Qed.

Lemma length_append (a b : string) :
  String.length (a ++ b) = (String.length a + String.length b)%nat.
Proof.
  induction a as [|c a IH]; [reflexivity|].
  rewrite append_cons. cbn [String.length Nat.add]. now rewrite IH.
Qed.

Lemma substring_prefix (a b : string) : substring 0 (String.length a) (a ++ b) = a.
Proof.
  induction a as [|c a IH]; [destruct b; reflexivity|].
  rewrite append_cons. cbn [String.length substring]. now rewrite IH.
Qed.

End StringFacts.

(** ** The caller-ID parser *)

Module CallerIDParseFacts.
Import CallerIDParse.

(** The display string of a quoted name followed by a number in angle
    brackets. *)
Definition quoted_display (name num : string) : string :=
  String Py.dquote (name ++ String Py.dquote (" <" ++ num ++ ">")).

(** An unquoted name of two words is not in the grammar: [parse] does not
    return it as a name without a number. *)
Lemma parse_two_words_not_a_name :
  parse "John Doe" <> Some (Some "John Doe", None).
Proof. vm_compute. discriminate. Qed.

(** C1, as the code has it: a quoted name with a number in angle brackets
    gives both; an unquoted string of digits is name and number at once;
    an unquoted word that is not a number is a name without a number; and
    an unquoted name of two words does not match the grammar, the space
    being outside the class of an unquoted name, so [parse] returns
    nothing. *)
Theorem parse_examples :
  parse (quoted_display "John Doe" "5551234") = Some (Some "John Doe", Some "5551234")
  /\ parse "5551234" = Some (Some "5551234", Some "5551234")
  /\ parse "John" = Some (Some "John", None)
  /\ parse "John Doe" = None.
Proof. repeat split; vm_compute; reflexivity. Qed.

End CallerIDParseFacts.

(** ** Quoting *)

Module QuoteFacts.
Import FastAGI StringFacts.

(** What [_quote] makes of one character, in the words of the
    specification: a backslash and a double quote get a backslash in
    front, a newline becomes a space. *)
Definition escape_char (c : ascii) : string :=
  if Ascii.eqb c Py.backslash then String Py.backslash (String Py.backslash "")
  else if Ascii.eqb c Py.dquote then String Py.backslash (String Py.dquote "")
  else if Ascii.eqb c Py.nl then " "
  else String c "".

Fixpoint escape (s : string) : string :=
  match s with
  | String c s' => escape_char c ++ escape s'
  | EmptyString => EmptyString
  end.

(** Newlines collapsed to spaces. *)
Definition collapse (s : string) : string := Py.replace Py.nl " " s.

(** The reader of a quoted argument, in the words of the specification:
    after the opening quote, a backslash stands for the character that
    follows it, and the first quote without a backslash closes the
    argument, which must end there. *)
Fixpoint unquote_body (s : string) : option string :=
  match s with
  | EmptyString => None
  | String c s' =>
      if Ascii.eqb c Py.dquote then
        match s' with
        | EmptyString => Some EmptyString
        | _ => None
        end
      else if Ascii.eqb c Py.backslash then
        match s' with
        | String d s'' => option_map (String d) (unquote_body s'')
        | EmptyString => None
        end
      else option_map (String c) (unquote_body s')
  end.

Definition unquote (q : string) : option string :=
  match q with
  | String c s => if Ascii.eqb c Py.dquote then unquote_body s else None
  | EmptyString => None
  end.

Definition newline_free (s : string) : Prop := collapse s = s.

Lemma replace_app old new a b :
  Py.replace old new (a ++ b) = Py.replace old new a ++ Py.replace old new b.
Proof.
  induction a as [|c a IH]; [reflexivity|].
  rewrite append_cons. cbn [Py.replace]. rewrite IH.
  symmetry. apply append_assoc.
Qed.

Ltac each_char c := destruct c as [[] [] [] [] [] [] [] []].

(** The three replacements of [_quote], on one character. *)
Lemma replaces_escape_char c :
  Py.replace Py.nl " "
    (Py.replace Py.dquote (String Py.backslash (String Py.dquote ""))
       (Py.replace Py.backslash (String Py.backslash (String Py.backslash ""))
          (String c "")))
  = escape_char c.
Proof. each_char c; vm_compute; reflexivity. Qed.

Lemma replaces_escape s :
  Py.replace Py.nl " "
    (Py.replace Py.dquote (String Py.backslash (String Py.dquote ""))
       (Py.replace Py.backslash (String Py.backslash (String Py.backslash "")) s))
  = escape s.
Proof.
  induction s as [|c s IH]; [reflexivity|].
  change (String c s) with (String c "" ++ s) at 1.
  rewrite !replace_app, IH, replaces_escape_char. reflexivity.
Qed.

Definition collapse_char (c : ascii) : ascii :=
  if Ascii.eqb c Py.nl then " "%char else c.

Lemma collapse_cons c s : collapse (String c s) = String (collapse_char c) (collapse s).
Proof.
  unfold collapse, collapse_char. cbn [Py.replace].
  destruct (Ascii.eqb c Py.nl); reflexivity.
Qed.

Lemma unquote_body_escape_char c rest :
  unquote_body (escape_char c ++ rest)
  = option_map (String (collapse_char c)) (unquote_body rest).
Proof. each_char c; reflexivity. Qed.

Lemma unquote_body_escape s :
  unquote_body (escape s ++ String Py.dquote "") = Some (collapse s).
Proof.
  induction s as [|c s IH]; [reflexivity|].
  cbn [escape]. rewrite append_assoc, unquote_body_escape_char, IH, collapse_cons.
  reflexivity.
Qed.

(** C7: [_quote] wraps in double quotes the string where every backslash
    is doubled, every double quote has a backslash in front and every
    newline is a space; reading the quoted form back, a backslash standing
    for the character after it, gives the string with its newlines
    collapsed, which is the string itself when it has no newline. *)
Theorem quote_escapes_and_reads_back (s : string) :
  _quote (Py.PStr s) = String Py.dquote (escape s ++ String Py.dquote "")
  /\ unquote (_quote (Py.PStr s)) = Some (collapse s)
  /\ (newline_free s -> unquote (_quote (Py.PStr s)) = Some s).
Proof.
  assert (Hq : _quote (Py.PStr s) = String Py.dquote (escape s ++ String Py.dquote "")).
  { unfold _quote. cbn [Py.str]. now rewrite replaces_escape. }
  assert (Hu : unquote (_quote (Py.PStr s)) = Some (collapse s)).
  { rewrite Hq. cbn [unquote]. rewrite Ascii.eqb_refl. apply unquote_body_escape. }
  repeat split; [exact Hq | exact Hu |].
  intros Hs. rewrite Hu. now rewrite Hs.
Qed.

Definition sample : string :=
  String "a" (String Py.backslash (String Py.dquote "b c")).

Lemma quote_escapes_and_reads_back_witness :
  newline_free sample /\ unquote (_quote (Py.PStr sample)) = Some sample.
Proof.
  split.
  - reflexivity.
  - apply (quote_escapes_and_reads_back sample). reflexivity.
Defined.

End QuoteFacts.

(** ** The protocol engine *)

Module FastAGIFacts.
Import FastAGI.

(** What [execute] makes of an outcome of the two calls it wraps. *)
Definition reclassify {A} (r : outcome A * conn) : outcome A * conn :=
  match r with
  | (Raise (IOError errno), w) =>
      if errno =? 32 then (Raise (FastAGISIGPIPEHangup "Received SIGPIPE"), w) else r
  | _ => r
  end.

Lemma execute_unfold command args w :
  execute command args w
  = reclassify (bind (send_command command args) (fun _ => get_result) w).
Proof.
  unfold execute, try_except, reclassify.
  destruct (bind _ _ w) as [[a|e|] w']; try reflexivity.
  destruct e; try reflexivity.
  destruct (errno =? 32); reflexivity.
Qed.

Definition is_broken_pipe {A} (o : outcome A) : bool :=
  match o with
  | Raise (IOError errno) => errno =? 32
  | _ => false
  end.

(** C6: [execute] is [send_command] followed by [get_result]: when the
    write goes through, it ends as [get_result] ends on the connection the
    write leaves (a broken pipe met while reading being reported as the
    SIGPIPE hangup too); when the write fails with errno 32 it raises the
    SIGPIPE hangup; when the write fails with any other errno, that
    IOError comes out as it is.  In both failures nothing is read. *)
Theorem execute_send_then_receive (command : string) (args : list Py.pyval) (w : conn) :
  (forall w1, send_command command args w = (Ok tt, w1) ->
     execute command args w = reclassify (get_result w1)
     /\ (is_broken_pipe (fst (get_result w1)) = false ->
         execute command args w = get_result w1))
  /\ (send_command command args w = (Raise (IOError 32), w) ->
      execute command args w = (Raise (FastAGISIGPIPEHangup "Received SIGPIPE"), w))
  /\ (forall errno, errno <> 32 ->
      send_command command args w = (Raise (IOError errno), w) ->
      execute command args w = (Raise (IOError errno), w)).
Proof.
  rewrite execute_unfold. unfold bind. repeat split.
  - rewrite H. reflexivity.
  - intros Hb. rewrite H. unfold reclassify.
    destruct (get_result w1) as [[a|e|] w2]; try reflexivity.
    destruct e; try reflexivity. cbn in Hb. now rewrite Hb.
  - intros ->. reflexivity.
  - intros errno Hne ->. cbn. apply Z.eqb_neq in Hne. now rewrite Hne.
Qed.

Definition ok_line : string := "200 result=1".

Lemma execute_send_then_receive_witness :
  execute "NOOP" [] (Conn [Line ok_line] [] None)
    = get_result (Conn [Line ok_line] ["NOOP" ++ String Py.nl ""] None)
  /\ execute "NOOP" [] (Conn [] [] (Some 32))
     = (Raise (FastAGISIGPIPEHangup "Received SIGPIPE"), Conn [] [] (Some 32))
  /\ execute "NOOP" [] (Conn [] [] (Some 5))
     = (Raise (IOError 5), Conn [] [] (Some 5)).
Proof.
  split; [|split].
  - apply (execute_send_then_receive "NOOP" [] (Conn [Line ok_line] [] None));
      vm_compute; reflexivity.
  - apply (execute_send_then_receive "NOOP" [] (Conn [] [] (Some 32))). reflexivity.
  - apply (execute_send_then_receive "NOOP" [] (Conn [] [] (Some 5))); [lia | reflexivity].
Defined.

(** *** Reading a variable while the caller hangs up *)

Definition on_result_hangup (e : exn) : option (M conn result) :=
  match e with
  | FastAGIResultHangup _ => Some (ret hangup_result)
  | _ => None
  end.

Definition caught (m : M conn result) : M conn string :=
  let* result := try_except m on_result_hangup in result_data result.

Lemma result_data_hangup w : result_data hangup_result w = (Ok "hangup", w).
Proof. reflexivity. Qed.

Lemma caught_hangup (m : M conn result) w msg w' :
  m w = (Raise (FastAGIResultHangup msg), w') -> caught m w = (Ok "hangup", w').
Proof.
  intros Hm. unfold caught, bind, try_except. rewrite Hm. reflexivity.
Qed.

Lemma caught_never_hangup (m : M conn result) w msg :
  fst (caught m w) <> Raise (FastAGIResultHangup msg).
Proof.
  unfold caught, bind, try_except.
  destruct (m w) as [[res|e|] w'].
  - unfold result_data. destruct (res !! "result") as [[? ?]|]; discriminate.
  - destruct e; discriminate.
  - discriminate.
Qed.

(** The reply of the switch to a read of a variable whose value is the
    word hangup. *)
Definition value_hangup_line : string := "200 result=1 (hangup)".

(** A reply that reports an error and a hangup at once. *)
Definition error_hangup_line : string := "200 result=-1 (hangup)".

(** C9: [get_variable] and [get_full_variable] never let the result
    hangup out: whenever the command they execute raises it, they return
    the string hangup as the value of the variable, and in no case is
    their outcome that exception.  So the reply to a read of a variable
    whose value is hangup, and a reply that reports a hangup, end the
    same way for the caller. *)
Theorem get_variable_returns_hangup (name : string) (channel : option string) (w : conn) :
  (forall msg w',
     execute "GET VARIABLE" [Py.PStr (_quote (Py.PStr name))] w
       = (Raise (FastAGIResultHangup msg), w') ->
     get_variable name w = (Ok "hangup", w'))
  /\ (forall msg, fst (get_variable name w) <> Raise (FastAGIResultHangup msg))
  /\ (forall msg w',
        (if Py.truthy channel
         then execute "GET FULL VARIABLE"
                [Py.PStr (_quote (Py.PStr name));
                 Py.PStr (_quote (from_option Py.PStr Py.PNone channel))]
         else execute "GET FULL VARIABLE" [Py.PStr (_quote (Py.PStr name))]) w
          = (Raise (FastAGIResultHangup msg), w') ->
        get_full_variable name channel w = (Ok "hangup", w'))
  /\ (forall msg, fst (get_full_variable name channel w) <> Raise (FastAGIResultHangup msg))
  /\ (forall out,
        fst (get_variable name (Conn [Line value_hangup_line] out None)) = Ok "hangup"
        /\ fst (get_variable name (Conn [Line error_hangup_line] out None)) = Ok "hangup").
Proof.
  repeat split.
  - intros msg w' He. exact (caught_hangup _ w msg w' He).
  - intros msg. exact (caught_never_hangup _ w msg).
  - intros msg w' He. exact (caught_hangup _ w msg w' He).
  - intros msg. exact (caught_never_hangup _ w msg).
Qed.

Lemma get_variable_returns_hangup_witness :
  get_variable "XIVO_USERID" (Conn [Line value_hangup_line] [] None)
  = (Ok "hangup",
     Conn [] ["GET VARIABLE " ++ _quote (Py.PStr "XIVO_USERID") ++ String Py.nl ""] None).
Proof.
  apply (get_variable_returns_hangup "XIVO_USERID" None
           (Conn [Line value_hangup_line] [] None)
         ) with (msg := "User hungup during execution").
  vm_compute. reflexivity.
Defined.


(** *** Result lines *)

Abbreviation token := (string * string * string)%type.

(** A token that ends the scan of a 200 line: its data is the word
    hangup, or it is [result=-1]. *)
Definition says_hangup (t : token) : bool := String.eqb (snd t) "hangup".

Definition says_error (t : token) : bool :=
  String.eqb (fst (fst t)) "result" && String.eqb (snd (fst t)) "-1".

Definition quiet (t : token) : bool := negb (says_hangup t || says_error t).

Definition store (res : result) (t : token) : result :=
  <[fst (fst t) := (snd (fst t), snd t)]> res.

Definition empty_result : result := {[ "result" := ("", "") ]}.

Lemma scan_tokens_quiet toks res :
  forallb quiet toks = true -> scan_tokens toks res = Ok (fold_left store toks res).
Proof.
  revert res. induction toks as [|[[k v] d] toks IH]; intros res Hq; [reflexivity|].
  cbn [forallb] in Hq. apply andb_prop in Hq as [Ht Hq].
  unfold quiet, says_hangup, says_error in Ht. cbn [fst snd] in Ht.
  apply negb_true_iff, orb_false_iff in Ht as [Hh He].
  cbn [scan_tokens fold_left]. rewrite Hh, He. now apply IH.
Qed.

Lemma scan_tokens_first pre t post res :
  forallb quiet pre = true -> quiet t = false ->
  scan_tokens (pre ++ t :: post)%list res
  = if says_hangup t
    then Raise (FastAGIResultHangup "User hungup during execution")
    else Raise (FastAGIAppError "Error executing application, or hangup").
Proof.
  revert res. induction pre as [|[[k v] d] pre IH]; intros res Hq Ht.
  - destruct t as [[k v] d]. unfold quiet, says_hangup, says_error in *.
    cbn [fst snd] in *. cbn [app scan_tokens].
    destruct (String.eqb d "hangup"); [reflexivity|].
    cbn in Ht. apply negb_false_iff in Ht. now rewrite Ht.
  - cbn [forallb] in Hq. apply andb_prop in Hq as [Hp Hq].
    unfold quiet, says_hangup, says_error in Hp. cbn [fst snd] in Hp.
    apply negb_true_iff, orb_false_iff in Hp as [Hh He].
    cbn [app scan_tokens]. rewrite Hh, He. now apply IH.
Qed.

Example kv_tokens_examples :
  kv_tokens "result=1 (hangup)" = [("result", "1", "hangup")]
  /\ kv_tokens "result=0 endpos=1234" = [("result", "0", ""); ("endpos", "1234", "")]
  /\ kv_tokens "result=1 (a) x=2 (b)" = [("result", "1", "a) x=2 (b")].
Proof. repeat split. Qed.

(** The code and the response [get_result] reads off a line. *)
Definition code_of (l : string) : option (Z * string) :=
  match Re.search re_code (Py.strip l) with
  | Some m =>
      match Py.int (Re.group_or_empty 1 (Re.f_groups m)) with
      | Some code => Some (code, Re.group_or_empty 2 (Re.f_groups m))
      | None => None
      end
  | None => None
  end.

Definition starts_520 (l : string) : bool := String.eqb (Py.take 3 (Py.strip l)) "520".

Lemma read_usage_closed usage mid last rest :
  forallb (fun l => negb (starts_520 l)) mid = true -> starts_520 last = true ->
  read_usage usage (map Line mid ++ Line last :: rest)%list
  = (Ok (usage ++ map Py.strip mid ++ [Py.strip last])%list, rest).
Proof.
  revert usage. induction mid as [|l mid IH]; intros usage Hm Hl.
  - cbn. unfold starts_520 in Hl. rewrite Hl. reflexivity.
  - cbn [forallb] in Hm. apply andb_prop in Hm as [H1 Hm].
    apply negb_true_iff in H1. unfold starts_520 in H1.
    cbn [map app read_usage]. rewrite H1, IH by assumption.
    now rewrite <- app_assoc.
Qed.

Lemma read_usage_open usage mid :
  forallb (fun l => negb (starts_520 l)) mid = true ->
  read_usage usage (map Line mid) = (Loops, []).
Proof.
  revert usage. induction mid as [|l mid IH]; intros usage Hm; [reflexivity|].
  cbn [forallb] in Hm. apply andb_prop in Hm as [H1 Hm].
  apply negb_true_iff in H1. unfold starts_520 in H1.
  cbn [map read_usage]. rewrite H1. now apply IH.
Qed.

Lemma get_result_unfold l rest out err code response :
  code_of l = Some (code, response) ->
  get_result (Conn (Line l :: rest) out err)
  = if code =? 200 then
      (scan_tokens (kv_tokens response) empty_result, Conn rest out err)
    else if code =? 510 then
      (Raise (FastAGIInvalidCommand response), Conn rest out err)
    else if code =? 520 then
      match read_usage [Py.strip l] rest with
      | (Ok usage, rest') =>
          (Raise (FastAGIUsageError (Py.join (String Py.nl "") usage ++ String Py.nl "")),
           Conn rest' out err)
      | (Raise e, rest') => (Raise e, Conn rest' out err)
      | (Loops, rest') => (Loops, Conn rest' out err)
      end
    else
      (Raise (FastAGIUnknownError code "Unhandled code or undefined response"),
       Conn rest out err).
Proof.
  unfold code_of, get_result, bind, readline. cbn [inf outf outf_errno].
  destruct (Re.search re_code (Py.strip l)) as [m|]; [|discriminate].
  destruct (Py.int _) as [c|]; [|discriminate].
  intros [= -> ->].
  destruct (code =? 200); [reflexivity|].
  destruct (code =? 510); [reflexivity|].
  destruct (code =? 520); [|reflexivity].
  cbn [inf outf outf_errno].
  destruct (read_usage _ rest) as [[u|e|] rest']; reflexivity.
Qed.

(** A 200 line where a later token carries the data hangup, and
    [get_result] raises the application error all the same, because the
    token [result=-1] comes first. *)
Lemma get_result_error_before_hangup :
  In ("endpos", "0", "hangup") (kv_tokens "result=-1 endpos=0 (hangup)")
  /\ code_of "200 result=-1 endpos=0 (hangup)"
     = Some (200, "result=-1 endpos=0 (hangup)")
  /\ fst (get_result (Conn [Line "200 result=-1 endpos=0 (hangup)"] [] None))
     = Raise (FastAGIAppError "Error executing application, or hangup")
  /\ fst (get_result (Conn [Line "200 result=-1 endpos=0 (hangup)"] [] None))
     <> Raise (FastAGIResultHangup "User hungup during execution").
Proof.
  split; [|split; [|split]].
  - vm_compute. right. left. reflexivity.
  - vm_compute. reflexivity.
  - vm_compute. reflexivity.
  - vm_compute. discriminate.
Qed.

(** C3, as the code has it.  A line is read and its leading code parsed.
    With code 200 the tokens are scanned in order, and the first token
    whose data is hangup or that is [result=-1] decides: the result hangup
    when its data is hangup, the application error otherwise; when no
    token is of that kind the mapping of the tokens is returned.  With
    code 520 the lines up to and including the next one that starts with
    520 are joined by newlines, a newline appended, as the detail of the
    usage error, and when the input ends before such a line the call never
    returns.  With a code other than 200, 510 and 520 the unknown-result
    error is raised with that code. *)
Theorem get_result_by_code (l : string) (rest : list rd) (out : list string)
    (err : option Z) (code : Z) (response : string) :
  code_of l = Some (code, response) ->
  let w := Conn (Line l :: rest) out err in
  (code = 200 ->
     (forallb quiet (kv_tokens response) = true ->
      get_result w
      = (Ok (fold_left store (kv_tokens response) empty_result), Conn rest out err))
     /\ (forall pre t post,
           kv_tokens response = (pre ++ t :: post)%list ->
           forallb quiet pre = true -> says_hangup t = true ->
           get_result w
           = (Raise (FastAGIResultHangup "User hungup during execution"),
              Conn rest out err))
     /\ (forall pre t post,
           kv_tokens response = (pre ++ t :: post)%list ->
           forallb quiet pre = true -> says_hangup t = false -> says_error t = true ->
           get_result w
           = (Raise (FastAGIAppError "Error executing application, or hangup"),
              Conn rest out err)))
  /\ (code = 520 ->
      (forall mid last rest',
         rest = (map Line mid ++ Line last :: rest')%list ->
         forallb (fun l => negb (starts_520 l)) mid = true -> starts_520 last = true ->
         get_result w
         = (Raise (FastAGIUsageError
                     (Py.join (String Py.nl "")
                        (Py.strip l :: map Py.strip mid ++ [Py.strip last])
                      ++ String Py.nl "")),
            Conn rest' out err))
      /\ (forall mid,
            rest = map Line mid ->
            forallb (fun l => negb (starts_520 l)) mid = true ->
            fst (get_result w) = Loops))
  /\ (code <> 200 -> code <> 510 -> code <> 520 ->
      get_result w
      = (Raise (FastAGIUnknownError code "Unhandled code or undefined response"),
         Conn rest out err)).
Proof.
  intros Hc w. subst w. rewrite (get_result_unfold _ _ _ _ _ _ Hc).
  split; [|split].
  - intros ->. cbn [Z.eqb Pos.eqb]. split; [|split].
    + intros Hq. now rewrite scan_tokens_quiet.
    + intros pre t post -> Hq Ht.
      rewrite scan_tokens_first; [now rewrite Ht | assumption |].
      unfold quiet. now rewrite Ht.
    + intros pre t post -> Hq Hh He.
      rewrite scan_tokens_first; [now rewrite Hh | assumption |].
      unfold quiet. now rewrite He, orb_true_r.
  - intros ->. cbn [Z.eqb Pos.eqb]. split.
    + intros mid last rest' -> Hm Hl.
      now rewrite read_usage_closed.
    + intros mid -> Hm. now rewrite read_usage_open.
  - intros H2 H5 H52.
    apply Z.eqb_neq in H2, H5, H52. now rewrite H2, H5, H52.
Qed.

Lemma get_result_by_code_witness :
  get_result (Conn [Line "200 result=1 (hangup)"] [] None)
  = (Raise (FastAGIResultHangup "User hungup during execution"), Conn [] [] None)
  /\ get_result (Conn [Line "520 bad"; Line "usage"; Line "520 end"; Line "200 result=0"] [] None)
     = (Raise (FastAGIUsageError
                 (Py.join (String Py.nl "") ["520 bad"; "usage"; "520 end"]
                  ++ String Py.nl "")),
        Conn [Line "200 result=0"] [] None)
  /\ get_result (Conn [Line "404 gone"] [] None)
     = (Raise (FastAGIUnknownError 404 "Unhandled code or undefined response"),
        Conn [] [] None).
Proof.
  split; [|split].
  - refine (proj1 (proj2 (proj1 (get_result_by_code "200 result=1 (hangup)" [] [] None
                                   200 "result=1 (hangup)" _) _))
                  [] ("result", "1", "hangup") [] _ _ _); reflexivity.
  - refine (proj1 (proj1 (proj2 (get_result_by_code "520 bad"
                                   [Line "usage"; Line "520 end"; Line "200 result=0"]
                                   [] None 520 "bad" _)) _)
                  ["usage"] "520 end" [Line "200 result=0"] _ _ _); reflexivity.
  - refine (proj2 (proj2 (get_result_by_code "404 gone" [] [] None 404 "gone" _)) _ _ _);
      [reflexivity | lia | lia | lia].
Defined.


(** *** Writing a variable on a connection that answers *)

(** The reply of the switch to a command it has carried out. *)
Definition acknowledged : rd := Line ("200 result=1" ++ String Py.nl "").

(** The line [send_command] writes for [set_variable]. *)
Definition set_command (name : string) (value : Py.pyval) : string :=
  Py.strip (Py.join " " [Py.strip "SET VARIABLE"; _quote (Py.PStr name); _quote value])
  ++ String Py.nl "".

Lemma set_variable_acknowledged name value rest out :
  set_variable name value (Conn (acknowledged :: rest) out None)
  = (Ok tt, Conn rest (out ++ [set_command name value]) None).
Proof. reflexivity. Qed.

End FastAGIFacts.

(** ** The dial-action resolver, on a call leg *)

Module DialActionFacts.
Import DB DialAction Channel.

Lemma truthy_replace (o : option string) :
  (if Py.truthy o then Py.replace "|" ";" (default "" o) else "")
  = Py.replace "|" ";" (default "" o).
Proof. destruct o as [[|c s]|]; reflexivity. Qed.

Lemma truthy_default (o : option string) :
  (if Py.truthy o then default "" o else "") = default "" o.
Proof. destruct o as [[|c s]|]; reflexivity. Qed.

Lemma in_no_isda (category : string) :
  existsb (String.eqb category) category_no_isda = true <-> In category category_no_isda.
Proof.
  rewrite existsb_exists. split.
  - intros (x & Hx & He). apply String.eqb_eq in He. now subst.
  - intros Hc. exists category. split; [assumption | apply String.eqb_refl].
Qed.

(** With no row stored for (busy, queue, 1), the variables written are not
    those of the naming scheme that starts at FWD_: the names start with
    XIVO_FWD_. *)
Lemma set_variables_names_not_bare_fwd :
  let ch := snd (set_variables (init no_rows "busy" "queue" 1) (Chan ∅ [])) in
  ~ In (SetVariable "FWD_QUEUE_BUSY_ACTION" "none") (served ch)
  /\ vars ch !! "FWD_QUEUE_BUSY_ACTION" = None
  /\ vars ch !! "XIVO_FWD_QUEUE_BUSY_ACTION" = Some "none".
Proof.
  split; [|split].
  - vm_compute. intros [H|[H|[H|[H|[]]]]]; discriminate.
  - vm_compute. reflexivity.
  - vm_compute. reflexivity.
Qed.

(** C2, as the code has it: the variables are named
    XIVO_FWD_<CATEGORY>_<EVENT>_ACTION, _ISDA, _ACTIONARG1 and _ACTIONARG2.
    With no row stored for the triple the action is none and both
    arguments are empty strings; with a row, the action is the stored one,
    the first argument is the stored one with every vertical bar turned
    into a semicolon, the second is the stored one as it is, and an absent
    argument is written as the empty string.  The marker _ISDA is written
    with value 1 after the action when the category is not one of none,
    endcall:busy, endcall:congestion, endcall:hangup, and is not written
    when it is one of them. *)
Theorem set_variables_emits (c : cursor) (event category : string) (categoryval : Z)
    (ch : channel) :
  let self := init c event category categoryval in
  let x := "XIVO_FWD_" ++ Py.upper (category ++ "_" ++ event) in
  let arg1 := Py.replace "|" ";" (default "" (actionarg1 self)) in
  let arg2 := default "" (actionarg2 self) in
  (fetch c event category categoryval = None ->
     action self = "none" /\ arg1 = "" /\ arg2 = "")
  /\ (forall row, fetch c event category categoryval = Some row ->
        action self = da_action row
        /\ arg1 = Py.replace "|" ";" (default "" (da_actionarg1 row))
        /\ arg2 = default "" (da_actionarg2 row))
  /\ (In category category_no_isda ->
      set_variables self ch
      = (Ok tt,
         Chan (<[x ++ "_ACTIONARG2" := arg2]>
                 (<[x ++ "_ACTIONARG1" := arg1]>
                    (<[x ++ "_ACTION" := action self]> (vars ch))))
              (served ch ++ [SetVariable (x ++ "_ACTION") (action self);
                             SetVariable (x ++ "_ACTIONARG1") arg1;
                             SetVariable (x ++ "_ACTIONARG2") arg2])))
  /\ (~ In category category_no_isda ->
      set_variables self ch
      = (Ok tt,
         Chan (<[x ++ "_ACTIONARG2" := arg2]>
                 (<[x ++ "_ACTIONARG1" := arg1]>
                    (<[x ++ "_ISDA" := "1"]>
                       (<[x ++ "_ACTION" := action self]> (vars ch)))))
              (served ch ++ [SetVariable (x ++ "_ACTION") (action self);
                             SetVariable (x ++ "_ISDA") "1";
                             SetVariable (x ++ "_ACTIONARG1") arg1;
                             SetVariable (x ++ "_ACTIONARG2") arg2]))).
Proof.
  intros self x arg1 arg2.
  assert (Hcat : DialAction.category self = category /\ DialAction.event self = event).
  { subst self. unfold init. destruct (fetch _ _ _ _); split; reflexivity. }
  destruct Hcat as [Hcat Hev].
  split; [|split; [|split]].
  - intros Hf. subst self arg1 arg2. unfold init. rewrite Hf. repeat split.
  - intros row Hf. subst self arg1 arg2. unfold init. rewrite Hf. repeat split.
  - intros Hin. apply in_no_isda in Hin.
    unfold set_variables, set_agi_variables, bind. rewrite Hcat, Hev, Hin.
    rewrite truthy_replace, truthy_default.
    unfold agi_set_variable, Channel_Agi, Channel.set_variable, ret.
    cbn [negb vars served Py.str]. rewrite <- !app_assoc. reflexivity.
  - intros Hin. rewrite <- in_no_isda in Hin. apply not_true_is_false in Hin.
    unfold set_variables, set_agi_variables, bind. rewrite Hcat, Hev, Hin.
    rewrite truthy_replace, truthy_default.
    unfold agi_set_variable, Channel_Agi, Channel.set_variable, ret.
    cbn [negb vars served Py.str]. rewrite <- !app_assoc. reflexivity.
Qed.

Definition sample_rows : cursor :=
  Cursor [ {| da_event := "noanswer"; da_category := "user"; da_categoryval := 7;
              da_action := "extension"; da_actionarg1 := Some "1001|default";
              da_actionarg2 := None |} ]
         [] [] [] [] [] [] [] 0.

Lemma set_variables_emits_witness :
  served (snd (set_variables (init sample_rows "noanswer" "user" 7) (Chan ∅ [])))
  = [SetVariable "XIVO_FWD_USER_NOANSWER_ACTION" "extension";
     SetVariable "XIVO_FWD_USER_NOANSWER_ISDA" "1";
     SetVariable "XIVO_FWD_USER_NOANSWER_ACTIONARG1" "1001;default";
     SetVariable "XIVO_FWD_USER_NOANSWER_ACTIONARG2" ""]
  /\ served (snd (set_variables (init sample_rows "busy" "none" 7) (Chan ∅ [])))
     = [SetVariable "XIVO_FWD_NONE_BUSY_ACTION" "none";
        SetVariable "XIVO_FWD_NONE_BUSY_ACTIONARG1" "";
        SetVariable "XIVO_FWD_NONE_BUSY_ACTIONARG2" ""].
Proof.
  split.
  - rewrite (proj2 (proj2 (proj2
               (set_variables_emits sample_rows "noanswer" "user" 7 (Chan ∅ []))))).
    + reflexivity.
    + vm_compute. intros [H|[H|[H|[H|[]]]]]; discriminate.
  - rewrite (proj1 (proj2 (proj2
               (set_variables_emits sample_rows "busy" "none" 7 (Chan ∅ []))))).
    + reflexivity.
    + left. reflexivity.
Defined.

(** The same on a connection to a switch that acknowledges every
    command: the four SET VARIABLE lines are written in that order. *)
Lemma set_variables_on_the_wire (c : cursor) (event category : string) (categoryval : Z)
    (rest : list FastAGI.rd) (out : list string) :
  ~ In category category_no_isda ->
  let self := init c event category categoryval in
  let x := "XIVO_FWD_" ++ Py.upper (category ++ "_" ++ event) in
  set_variables self
    (FastAGI.Conn
       (FastAGIFacts.acknowledged :: FastAGIFacts.acknowledged
        :: FastAGIFacts.acknowledged :: FastAGIFacts.acknowledged :: rest)
       out None)
  = (Ok tt,
     FastAGI.Conn rest
       (out ++ [FastAGIFacts.set_command (x ++ "_ACTION") (Py.PStr (action self));
                FastAGIFacts.set_command (x ++ "_ISDA") (Py.PStr "1");
                FastAGIFacts.set_command (x ++ "_ACTIONARG1")
                  (Py.PStr (Py.replace "|" ";" (default "" (actionarg1 self))));
                FastAGIFacts.set_command (x ++ "_ACTIONARG2")
                  (Py.PStr (default "" (actionarg2 self)))])
       None).
Proof.
  intros Hin self x. rewrite <- in_no_isda in Hin. apply not_true_is_false in Hin.
  assert (Hcat : DialAction.category self = category /\ DialAction.event self = event).
  { subst self. unfold init. destruct (fetch _ _ _ _); split; reflexivity. }
  destruct Hcat as [Hcat Hev].
  unfold set_variables, set_agi_variables, bind. rewrite Hcat, Hev, Hin.
  rewrite truthy_replace, truthy_default. cbn [negb].
  unfold agi_set_variable, FastAGI_Agi.
  rewrite !FastAGIFacts.set_variable_acknowledged, <- !app_assoc. reflexivity.
Qed.

End DialActionFacts.

(** ** The caller-ID rewrite, on a call leg *)

Module CallerIDFacts.
Import CallerID Channel StringFacts.

Definition marker : string := "XIVO_CID_REWRITTEN".

(** The number and the name [rewrite] works with, as it computes them
    from the rule and from what the call leg holds. *)
Definition number_of (self : t) (ch : channel) : string :=
  match calleridnum self with
  | Some n => n
  | None =>
      if String.eqb (read "CALLERID(num)" ch) "" then "unknown"
      else read "CALLERID(num)" ch
  end.

Definition name_of (self : t) (ch : channel) : string :=
  let calleridname := read "CALLERID(name)" ch in
  if String.eqb calleridname "" || String.eqb calleridname empty_quotes
  then number_of self ch
  else if quote_wrapped calleridname
  then Py.strip_ends calleridname
  else calleridname.

(** What [rewrite] asks of the call leg before it writes, and what it
    writes. *)
Definition reads : list call :=
  [GetVariable marker; GetVariable "CALLERID(name)"; GetVariable "CALLERID(num)"].

Definition writes (name num : string) (force_rewrite : bool) : list call :=
  [SetVariable "CALLERID(name-pres)" "allowed";
   SetVariable "CALLERID(num-pres)" "allowed";
   SetVariable "CALLERID(all)" (format_all (Py.PStr name) (Py.PStr num))]
  ++ (if force_rewrite then [] else [SetVariable marker "1"]).

Definition written (name num : string) (force_rewrite : bool)
    (m : gmap string string) : gmap string string :=
  let m := <["CALLERID(all)" := format_all (Py.PStr name) (Py.PStr num)]>
             (<["CALLERID(num-pres)" := "allowed"]>
                (<["CALLERID(name-pres)" := "allowed"]> m)) in
  if force_rewrite then m else <[marker := "1"]> m.

(** [rewrite] on a call leg, step by step. *)
Lemma rewrite_channel (self : t) (force_rewrite : bool) (ch : channel) :
  Py.truthy (mode self) = true ->
  rewrite self force_rewrite ch
  = if force_rewrite || String.eqb (read marker ch) "" then
      match combine self (name_of self ch) (number_of self ch) with
      | Ok name =>
          (Ok tt, Chan (written name (number_of self ch) force_rewrite (vars ch))
                       (served ch ++ reads ++ writes name (number_of self ch) force_rewrite))
      | Raise e => (Raise e, Chan (vars ch) (served ch ++ reads))
      | Loops => (Loops, Chan (vars ch) (served ch ++ reads))
      end
    else (Ok tt, Chan (vars ch) (served ch ++ [GetVariable marker])).
Proof.
  intros Hm.
  unfold rewrite, number_of, name_of, self_calleridnum, read, bind, agi_get_variable,
    agi_set_variable, Channel_Agi, Channel.get_variable, Channel.set_variable, ret,
    raise, written, writes, reads, marker.
  rewrite Hm. cbn [negb vars served Py.truthy Py.str]. rewrite negb_involutive.
  destruct (force_rewrite || _); [|reflexivity].
  destruct (combine self _ _) as [name|e|]; destruct force_rewrite;
    cbn [negb vars served]; rewrite <- ?app_assoc; reflexivity.
Qed.


(** *** The rule of the rewrite, in the words of the specification *)

(** A name between two double quotes. *)
Definition wrapped (s : string) : string := String Py.dquote (s ++ String Py.dquote "").

(** The number: the one of the rule when it has one; else the current
    one, or the word unknown when there is none. *)
Inductive resolves_number (rule_num : option string) (current : string)
    : string -> Prop :=
| number_of_rule n :
    rule_num = Some n -> resolves_number rule_num current n
| number_unknown :
    rule_num = None -> current = "" -> resolves_number rule_num current "unknown"
| number_current :
    rule_num = None -> current <> "" -> resolves_number rule_num current current.

(** The current name: the number when the name is absent, empty or two
    quotes with nothing between; the name without its quotes when it is
    wrapped in quotes; nothing when it is one double quote, which begins
    and ends with a quote and is all there is to strip; else the name as
    it is. *)
Inductive resolves_name (current num : string) : string -> Prop :=
| name_is_number :
    current = "" \/ current = empty_quotes -> resolves_name current num num
| name_unwrapped s :
    current = wrapped s -> s <> "" -> resolves_name current num s
| name_lone_quote :
    current = String Py.dquote "" -> resolves_name current num ""
| name_as_is :
    current <> "" -> quote_wrapped current = false -> resolves_name current num current.

(** The name written, by mode. *)
Inductive combines (m rule_name cur num : string) : string -> Prop :=
| combines_overwrite :
    m = "overwrite" -> combines m rule_name cur num rule_name
| combines_prepend :
    m = "prepend" -> ~ (rule_name = cur /\ num = cur) ->
    combines m rule_name cur num (rule_name ++ " - " ++ cur)
| combines_append :
    m = "append" -> ~ (rule_name = cur /\ num = cur) ->
    combines m rule_name cur num (cur ++ " - " ++ rule_name)
| combines_same :
    m = "prepend" \/ m = "append" -> rule_name = cur -> num = cur ->
    combines m rule_name cur num cur.

Lemma last_char_wrapped c s : Py.last_char (String c (s ++ String Py.dquote "")) = Some Py.dquote.
Proof.
  revert c. induction s as [|d s IH]; intros c; [reflexivity|].
  change (Py.last_char (String c (String d (s ++ String Py.dquote ""))))
    with (Py.last_char (String d (s ++ String Py.dquote ""))).
  apply IH.
Qed.

Lemma quote_wrapped_wrapped s : quote_wrapped (wrapped s) = true.
Proof.
  unfold quote_wrapped, wrapped. rewrite last_char_wrapped.
  reflexivity.
Qed.

Lemma strip_ends_wrapped s : Py.strip_ends (wrapped s) = s.
Proof.
  unfold Py.strip_ends, wrapped.
  change (String.length (String Py.dquote (s ++ String Py.dquote "")))
    with (S (String.length (s ++ String Py.dquote ""))).
  rewrite length_append. cbn [String.length].
  replace (S (String.length s + 1) - 2)%nat with (String.length s) by lia.
  change (substring 1 (String.length s) (String Py.dquote (s ++ String Py.dquote "")))
    with (substring 0 (String.length s) (s ++ String Py.dquote "")).
  apply substring_prefix.
Qed.

Lemma wrapped_not_empty s : s <> "" ->
  String.eqb (wrapped s) "" || String.eqb (wrapped s) empty_quotes = false.
Proof.
  intros Hs. destruct s as [|c s]; [congruence|].
  unfold wrapped, empty_quotes. rewrite append_cons.
  cbn [String.eqb orb]. rewrite Ascii.eqb_refl.
  destruct (Ascii.eqb c Py.dquote); [|reflexivity].
  destruct s; reflexivity.
Qed.

Lemma number_of_resolves self ch num :
  resolves_number (calleridnum self) (read "CALLERID(num)" ch) num ->
  number_of self ch = num.
Proof.
  unfold number_of. intros [n Hn | Hn Hc | Hn Hc]; rewrite Hn.
  - reflexivity.
  - now rewrite Hc.
  - apply String.eqb_neq in Hc. now rewrite Hc.
Qed.

Lemma name_of_resolves self ch cur :
  resolves_name (read "CALLERID(name)" ch) (number_of self ch) cur ->
  name_of self ch = cur.
Proof.
  unfold name_of. intros [[Hc | Hc] | s Hc Hs | Hc | Hc Hw].
  - now rewrite Hc.
  - rewrite Hc. now rewrite String.eqb_refl, orb_true_r.
  - rewrite Hc, (wrapped_not_empty s Hs), quote_wrapped_wrapped.
    apply strip_ends_wrapped.
  - rewrite Hc. reflexivity.
  - rewrite Hw. apply String.eqb_neq in Hc. rewrite Hc. cbn [orb].
    destruct (String.eqb_spec (read "CALLERID(name)" ch) empty_quotes) as [He|He];
      [|reflexivity].
    rewrite He in Hw. discriminate.
Qed.

Lemma combine_combines self m rule_name cur num name :
  mode self = Some m -> calleridname self = Some rule_name ->
  combines m rule_name cur num name ->
  combine self cur num = Ok name.
Proof.
  intros Hm Hn Hc. unfold combine, self_calleridname. rewrite Hm, Hn.
  destruct Hc as [-> | -> Hne | -> Hne | Hm' -> ->].
  - reflexivity.
  - cbn [bool_decide orb andb opt_val from_option].
    destruct (bool_decide_reflect (Some rule_name = Some cur)) as [[= ->]|_].
    + destruct (String.eqb_spec num cur) as [->|_]; [exfalso; now apply Hne|].
      reflexivity.
    + reflexivity.
  - change (bool_decide (Some "append" = Some "prepend")) with false.
    change (bool_decide (Some "append" = Some "append")) with true.
    change (bool_decide (Some "append" = Some "overwrite")) with false.
    cbn [orb andb opt_val from_option].
    destruct (bool_decide_reflect (Some rule_name = Some cur)) as [[= ->]|_].
    + destruct (String.eqb_spec num cur) as [->|_]; [exfalso; now apply Hne|].
      reflexivity.
    + reflexivity.
  - rewrite String.eqb_refl, (bool_decide_eq_true_2 _ eq_refl), andb_true_r.
    destruct Hm' as [-> | ->]; reflexivity.
Qed.

Lemma format_all_wrapped name num :
  format_all (Py.PStr name) (Py.PStr num) = wrapped name ++ " <" ++ num ++ ">".
Proof.
  unfold format_all, wrapped. cbn [Py.str].
  rewrite !append_cons, append_assoc. reflexivity.
Qed.

Lemma truthy_mode self m :
  mode self = Some m -> m = "prepend" \/ m = "append" \/ m = "overwrite" ->
  Py.truthy (mode self) = true.
Proof. intros -> [-> | [-> | ->]]; reflexivity. Qed.

Lemma combines_mode m rule_name cur num name :
  combines m rule_name cur num name ->
  m = "prepend" \/ m = "append" \/ m = "overwrite".
Proof. intros [H | H _ | H _ | [H | H] _ _]; auto. Qed.

(** Every call leg is one the rules speak of. *)
Lemma resolves_number_total rule_num current :
  exists num, resolves_number rule_num current num.
Proof.
  destruct rule_num as [n|].
  - exists n. now apply number_of_rule.
  - destruct (String.eqb_spec current "") as [He|He].
    + exists "unknown". now apply number_unknown.
    + exists current. now apply number_current.
Qed.

Lemma last_char_is c r :
  Py.last_char r = Some c -> exists s, r = s ++ String c "".
Proof.
  induction r as [|a r IH]; [discriminate|].
  destruct r as [|b r].
  - intros [= ->]. now exists "".
  - intros Hl. destruct (IH Hl) as [s Hs]. exists (String a s).
    rewrite append_cons. now rewrite <- Hs.
Qed.

Lemma quote_wrapped_shape current :
  quote_wrapped current = true ->
  current = String Py.dquote "" \/ exists s, current = wrapped s.
Proof.
  unfold quote_wrapped. intros H. apply andb_prop in H as [Hf Hl].
  apply bool_decide_eq_true_1 in Hf. apply bool_decide_eq_true_1 in Hl.
  destruct current as [|c r]; [discriminate|].
  cbn in Hf. injection Hf as ->.
  destruct r as [|b r]; [now left|].
  right. destruct (last_char_is Py.dquote (String b r) Hl) as [s Hs].
  exists s. unfold wrapped. now rewrite Hs.
Qed.

Lemma resolves_name_total current num :
  exists cur, resolves_name current num cur.
Proof.
  destruct (String.eqb_spec current "") as [He|He].
  { exists num. apply name_is_number. now left. }
  destruct (quote_wrapped current) eqn:Hw.
  - destruct (quote_wrapped_shape current Hw) as [Hl | [s Hs]].
    + exists "". now apply name_lone_quote.
    + destruct s as [|c s].
      * exists num. apply name_is_number. now right.
      * exists (String c s). now apply name_unwrapped.
  - exists current. now apply name_as_is.
Qed.

Lemma combines_total m rule_name cur num :
  m = "prepend" \/ m = "append" \/ m = "overwrite" ->
  exists name, combines m rule_name cur num name.
Proof.
  intros Hm.
  destruct (String.eqb_spec rule_name cur) as [Hr|Hr];
    [destruct (String.eqb_spec num cur) as [Hn|Hn]|].
  - destruct Hm as [Hm | [Hm | Hm]].
    + exists cur. apply combines_same; auto.
    + exists cur. apply combines_same; auto.
    + exists rule_name. now apply combines_overwrite.
  - destruct Hm as [Hm | [Hm | Hm]].
    + eexists. apply combines_prepend; [exact Hm | now intros [_ H]].
    + eexists. apply combines_append; [exact Hm | now intros [_ H]].
    + exists rule_name. now apply combines_overwrite.
  - destruct Hm as [Hm | [Hm | Hm]].
    + eexists. apply combines_prepend; [exact Hm | now intros [H _]].
    + eexists. apply combines_append; [exact Hm | now intros [H _]].
    + exists rule_name. now apply combines_overwrite.
Qed.

(** C4: with a rule matched and the rewrite allowed (forced, or the
    marker not set yet), the number is the one of the rule if it has one,
    else the current number, or unknown if there is none; the current name
    is that number if it is absent, empty or a pair of quotes, and loses
    its quotes if it is wrapped in them, a name of one double quote
    leaving nothing; the name written is the name of the rule
    (overwrite), the name of the rule, a dash, the current name (prepend)
    or the reverse (append), or the current name alone when the mode is
    prepend or append and the name of the rule, the current name and the
    number are all the same; and both presentation variables are set to
    allowed before the caller ID is written.  The rules leave no call leg
    out: whatever the current name and number are, they give a number, a
    name and, for each of the three modes, a name to write. *)
Theorem rewrite_applies_rule (self : t) (force_rewrite : bool) (ch : channel)
    (m rule_name : string) :
  mode self = Some m ->
  calleridname self = Some rule_name ->
  force_rewrite = true \/ read marker ch = "" ->
  (forall num cur name,
     resolves_number (calleridnum self) (read "CALLERID(num)" ch) num ->
     resolves_name (read "CALLERID(name)" ch) num cur ->
     combines m rule_name cur num name ->
     rewrite self force_rewrite ch
     = (Ok tt,
        Chan (written name num force_rewrite (vars ch))
             (served ch ++ reads
                ++ [SetVariable "CALLERID(name-pres)" "allowed";
                    SetVariable "CALLERID(num-pres)" "allowed";
                    SetVariable "CALLERID(all)" (wrapped name ++ " <" ++ num ++ ">")]
                ++ (if force_rewrite then [] else [SetVariable marker "1"]))))
  /\ (m = "prepend" \/ m = "append" \/ m = "overwrite" ->
      exists num cur name,
        resolves_number (calleridnum self) (read "CALLERID(num)" ch) num
        /\ resolves_name (read "CALLERID(name)" ch) num cur
        /\ combines m rule_name cur num name).
Proof.
  intros Hm Hn Hgo. split.
  - intros num cur name Hnum Hcur Hname.
    rewrite rewrite_channel by (eapply truthy_mode; eauto using combines_mode).
    apply number_of_resolves in Hnum. rewrite <- Hnum in Hcur.
    apply name_of_resolves in Hcur. rewrite Hnum, Hcur.
    rewrite (combine_combines _ _ _ _ _ _ Hm Hn Hname).
    assert (Hif : force_rewrite || String.eqb (read marker ch) "" = true).
    { destruct Hgo as [-> | ->]; [reflexivity | apply orb_true_r]. }
    rewrite Hif. unfold writes. rewrite format_all_wrapped. reflexivity.
  - intros Hmode.
    destruct (resolves_number_total (calleridnum self) (read "CALLERID(num)" ch))
      as [num Hnum].
    destruct (resolves_name_total (read "CALLERID(name)" ch) num) as [cur Hcur].
    destruct (combines_total m rule_name cur num Hmode) as [name Hname].
    now exists num, cur, name.
Qed.

Definition sample_rule : t := Build (Some "prepend") (Some "Sales") None.

Definition sample_leg : channel :=
  Chan (<["CALLERID(name)" := wrapped "Alice"]> (<["CALLERID(num)" := "1001"]> ∅)) [].

(** A call leg whose name is one double quote. *)
Definition lone_quote_leg : channel :=
  Chan (<["CALLERID(name)" := String Py.dquote ""]> (<["CALLERID(num)" := "1001"]> ∅)) [].

Lemma rewrite_applies_rule_witness :
  mutations (snd (rewrite sample_rule false sample_leg))
  = [SetVariable "CALLERID(name-pres)" "allowed";
     SetVariable "CALLERID(num-pres)" "allowed";
     SetVariable "CALLERID(all)" (wrapped "Sales - Alice" ++ " <1001>");
     SetVariable marker "1"]
  /\ mutations (snd (rewrite sample_rule false lone_quote_leg))
     = [SetVariable "CALLERID(name-pres)" "allowed";
        SetVariable "CALLERID(num-pres)" "allowed";
        SetVariable "CALLERID(all)" (wrapped "Sales - " ++ " <1001>");
        SetVariable marker "1"].
Proof.
  split.
  - rewrite (proj1 (rewrite_applies_rule sample_rule false sample_leg "prepend" "Sales"
                      eq_refl eq_refl (or_intror eq_refl))
               "1001" "Alice" "Sales - Alice").
    + reflexivity.
    + apply number_current; [reflexivity | discriminate].
    + apply name_unwrapped; [reflexivity | discriminate].
    + apply combines_prepend; [reflexivity|]. intros [H _]. discriminate.
  - rewrite (proj1 (rewrite_applies_rule sample_rule false lone_quote_leg "prepend" "Sales"
                      eq_refl eq_refl (or_intror eq_refl))
               "1001" "" "Sales - ").
    + reflexivity.
    + apply number_current; [reflexivity | discriminate].
    + apply name_lone_quote. reflexivity.
    + apply combines_prepend; [reflexivity|]. intros [H _]. discriminate.
Defined.


(** *** One rewrite per call leg *)

Lemma combine_total self m cur num :
  mode self = Some m -> m = "prepend" \/ m = "append" \/ m = "overwrite" ->
  exists name, combine self cur num = Ok name.
Proof.
  intros Hm Hv. unfold combine. rewrite Hm.
  destruct (_ && _); [eauto|].
  destruct Hv as [-> | [-> | ->]]; eauto.
Qed.

Lemma mutations_app ch l :
  mutations (Chan (vars ch) (served ch ++ l)) = (mutations ch ++ List.filter is_set l)%list.
Proof. unfold mutations. cbn [served]. apply List.filter_app. Qed.

Lemma mutations_after vars' ch name num force_rewrite :
  mutations (Chan vars' (served ch ++ reads ++ writes name num force_rewrite))
  = (mutations ch ++ writes name num force_rewrite)%list.
Proof.
  unfold mutations. cbn [served]. rewrite !List.filter_app.
  destruct force_rewrite; reflexivity.
Qed.

Lemma read_marker_written name num m :
  default "" (written name num false m !! marker) = "1".
Proof. unfold written. now rewrite lookup_insert_eq. Qed.

Lemma marker_kept name num (m : gmap string string) :
  written name num true m !! marker = m !! marker.
Proof. unfold written, marker. now rewrite !lookup_insert_ne by discriminate. Qed.

(** The call leg with the marker set to [v]. *)
Definition with_marker (v : string) (ch : channel) : channel :=
  Chan (<[marker := v]> (vars ch)) (served ch).

Lemma name_number_with_marker self v ch :
  number_of self (with_marker v ch) = number_of self ch
  /\ name_of self (with_marker v ch) = name_of self ch.
Proof.
  unfold name_of, number_of, with_marker, read, marker. cbn [vars].
  now rewrite !lookup_insert_ne by discriminate.
Qed.

(** C5, as the code has it: without [force_rewrite], of two calls of
    [rewrite] in a row on a call leg only the first one writes: it sets
    XIVO_CID_REWRITTEN to 1 after the caller ID, and the second one reads
    the marker, finds it set, leaves every variable as it is and writes
    nothing.  With [force_rewrite] the marker is read all the same, first
    of the three variables read, but what is written does not depend on
    what it holds, and it is not written: it keeps the value it had. *)
Theorem rewrite_once_per_leg (self : t) (ch : channel) (m : string) :
  mode self = Some m ->
  m = "prepend" \/ m = "append" \/ m = "overwrite" ->
  (exists ch1 ch2,
     rewrite self false ch = (Ok tt, ch1)
     /\ rewrite self false ch1 = (Ok tt, ch2)
     /\ vars ch2 = vars ch1
     /\ mutations ch2 = mutations ch1
     /\ served ch2 = (served ch1 ++ [GetVariable marker])%list
     /\ (read marker ch = "" ->
         read marker ch1 = "1"
         /\ exists name num,
             mutations ch1
             = (mutations ch
                ++ [SetVariable "CALLERID(name-pres)" "allowed";
                    SetVariable "CALLERID(num-pres)" "allowed";
                    SetVariable "CALLERID(all)" (wrapped name ++ " <" ++ num ++ ">");
                    SetVariable marker "1"])%list))
  /\ (forall v, exists name num ch1 chv,
        rewrite self true ch = (Ok tt, ch1)
        /\ rewrite self true (with_marker v ch) = (Ok tt, chv)
        /\ mutations ch1
           = (mutations ch
              ++ [SetVariable "CALLERID(name-pres)" "allowed";
                  SetVariable "CALLERID(num-pres)" "allowed";
                  SetVariable "CALLERID(all)" (wrapped name ++ " <" ++ num ++ ">")])%list
        /\ mutations chv
           = (mutations ch
              ++ [SetVariable "CALLERID(name-pres)" "allowed";
                  SetVariable "CALLERID(num-pres)" "allowed";
                  SetVariable "CALLERID(all)" (wrapped name ++ " <" ++ num ++ ">")])%list
        /\ served ch1
           = (served ch
              ++ [GetVariable marker; GetVariable "CALLERID(name)";
                  GetVariable "CALLERID(num)";
                  SetVariable "CALLERID(name-pres)" "allowed";
                  SetVariable "CALLERID(num-pres)" "allowed";
                  SetVariable "CALLERID(all)" (wrapped name ++ " <" ++ num ++ ">")])%list
        /\ served chv = served ch1
        /\ vars ch1 !! marker = vars ch !! marker
        /\ vars chv !! marker = Some v).
Proof.
  intros Hm Hv. pose proof (truthy_mode self m Hm Hv) as Ht.
  destruct (combine_total self m (name_of self ch) (number_of self ch) Hm Hv)
    as [name Hname].
  split.
  - rewrite (rewrite_channel self false ch Ht). cbn [orb].
    destruct (String.eqb_spec (read marker ch) "") as [He|He].
    + rewrite Hname. eexists _, _. split; [reflexivity|].
      assert (Hr : read marker
                     (Chan (written name (number_of self ch) false (vars ch))
                        (served ch ++ reads ++ writes name (number_of self ch) false))
                   = "1").
      { unfold read. cbn [vars]. apply read_marker_written. }
      rewrite (rewrite_channel self false _ Ht). cbn [orb]. rewrite Hr.
      cbn [String.eqb Ascii.eqb]. cbn [vars served].
      split; [reflexivity|]. split; [reflexivity|]. split.
      { unfold mutations. cbn [served]. rewrite (List.filter_app _ _ [_]).
        cbn [List.filter is_set]. apply app_nil_r. }
      split; [reflexivity|].
      intros _. split; [reflexivity|].
      exists name, (number_of self ch). rewrite mutations_after.
      unfold writes. now rewrite format_all_wrapped.
    + eexists _, _. split; [reflexivity|].
      rewrite (rewrite_channel self false _ Ht). cbn [orb].
      change (read marker (Chan (vars ch) (served ch ++ [GetVariable marker])))
        with (read marker ch).
      apply String.eqb_neq in He. rewrite He. cbn [vars served].
      split; [reflexivity|]. split; [reflexivity|]. split.
      { unfold mutations. cbn [served]. rewrite (List.filter_app _ _ [_]).
        cbn [List.filter is_set]. apply app_nil_r. }
      split; [reflexivity|].
      intros Hc. apply String.eqb_neq in He. contradiction.
  - intros v. exists name, (number_of self ch).
    rewrite (rewrite_channel self true ch Ht).
    rewrite (rewrite_channel self true (with_marker v ch) Ht). cbn [orb].
    destruct (name_number_with_marker self v ch) as [-> ->]. rewrite Hname.
    eexists _, _. split; [reflexivity|]. split; [reflexivity|].
    change (served (with_marker v ch)) with (served ch).
    rewrite !mutations_after. unfold writes. rewrite format_all_wrapped.
    split; [reflexivity|]. split; [reflexivity|].
    cbn [vars served]. rewrite app_nil_r.
    split; [reflexivity|]. split; [reflexivity|].
    rewrite !marker_kept. split; [reflexivity|].
    unfold with_marker. cbn [vars]. apply lookup_insert_eq.
Qed.

Lemma rewrite_once_per_leg_witness :
  exists ch1 ch2,
    rewrite sample_rule false sample_leg = (Ok tt, ch1)
    /\ rewrite sample_rule false ch1 = (Ok tt, ch2)
    /\ vars ch2 = vars ch1
    /\ mutations ch2 = mutations ch1.
Proof.
  destruct (rewrite_once_per_leg sample_rule sample_leg "prepend")
    as [(ch1 & ch2 & H1 & H2 & Hv & Hmut & _) _].
  - reflexivity.
  - left. reflexivity.
  - exists ch1, ch2. repeat split; assumption.
Defined.

(** A forced rewrite asks for the marker before anything else: the
    marker is consulted, on the call leg and on the wire. *)
Lemma rewrite_forced_reads_marker :
  hd_error (served (snd (rewrite sample_rule true sample_leg)))
  = Some (GetVariable "XIVO_CID_REWRITTEN")
  /\ In (GetVariable "XIVO_CID_REWRITTEN")
        (served (snd (rewrite sample_rule true sample_leg)))
  /\ hd_error
       (FastAGI.outf
          (snd (rewrite sample_rule true
                  (FastAGI.Conn
                     [FastAGI.Line ("200 result=0" ++ String Py.nl "");
                      FastAGI.Line ("200 result=1 (Alice)" ++ String Py.nl "");
                      FastAGI.Line ("200 result=1 (1001)" ++ String Py.nl "");
                      FastAGIFacts.acknowledged; FastAGIFacts.acknowledged;
                      FastAGIFacts.acknowledged] [] None))))
     = Some ("GET VARIABLE " ++ FastAGI._quote (Py.PStr "XIVO_CID_REWRITTEN")
             ++ String Py.nl "").
Proof.
  split; [|split].
  - vm_compute. reflexivity.
  - vm_compute. left. reflexivity.
  - vm_compute. reflexivity.
Qed.

(** *** The same rewrite through the protocol engine

    [rewrite] run on a connection: the switch answers the three reads and
    acknowledges the four writes. *)

Definition reply (data : string) : FastAGI.rd :=
  FastAGI.Line ("200 result=1 (" ++ data ++ ")" ++ String Py.nl "").

Definition get_line (name : string) : string :=
  "GET VARIABLE " ++ FastAGI._quote (Py.PStr name) ++ String Py.nl "".

Definition set_line (name value : string) : string :=
  "SET VARIABLE " ++ FastAGI._quote (Py.PStr name) ++ " "
    ++ FastAGI._quote (Py.PStr value) ++ String Py.nl "".

Example rewrite_on_the_wire :
  rewrite sample_rule false
    (FastAGI.Conn
       [FastAGI.Line ("200 result=0" ++ String Py.nl ""); reply (wrapped "Alice");
        reply "1001"; FastAGIFacts.acknowledged; FastAGIFacts.acknowledged;
        FastAGIFacts.acknowledged; FastAGIFacts.acknowledged] [] None)
  = (Ok tt,
     FastAGI.Conn []
       [get_line "XIVO_CID_REWRITTEN"; get_line "CALLERID(name)"; get_line "CALLERID(num)";
        set_line "CALLERID(name-pres)" "allowed";
        set_line "CALLERID(num-pres)" "allowed";
        set_line "CALLERID(all)" (wrapped "Sales - Alice" ++ " <1001>");
        set_line "XIVO_CID_REWRITTEN" "1"] None).
Proof. vm_compute. reflexivity. Qed.

End CallerIDFacts.

(** ** The toggles and the row count *)

Module ToggleFacts.
Import DB.

Lemma int_not_flips (x : Z) : VMBox.int_not x <> x.
Proof. unfold VMBox.int_not. destruct (Z.eqb_spec x 0); lia. Qed.

(** The rows of [userfeatures] an update of user [id] touches. *)
Definition user_rows (c : cursor) (id : Z) : Z :=
  Z.of_nat (List.length (List.filter (fun r => uf_id r =? id) (userfeatures c))).

Definition voicemail_rows (c : cursor) (id : Z) : Z :=
  Z.of_nat (List.length (List.filter (fun r => vm_uniqueid r =? id) (voicemail c))).

Lemma rowcount_update_userfeatures cond set c :
  rowcount (update_userfeatures cond set c)
  = Z.of_nat (List.length (List.filter cond (userfeatures c))).
Proof. reflexivity. Qed.

Lemma rowcount_update_voicemail cond set c :
  rowcount (update_voicemail cond set c)
  = Z.of_nat (List.length (List.filter cond (voicemail c))).
Proof. reflexivity. Qed.

Lemma toggle_enablevoicemail self c :
  User.toggle_feature "enablevoicemail" (self, c)
  = let enabled := VMBox.int_not (User.enablevoicemail self) in
    let c' := update_userfeatures (fun r => uf_id r =? User.id self)
                (User.set_enablevoicemail enabled) c in
    let self' := User.Build (User.id self) enabled (User.call_record_enabled self) in
    if negb (rowcount c' =? 1)
    then (Raise (DBUpdateException "Unable to perform the requested update"), (self', c'))
    else (Ok tt, (self', c')).
Proof. reflexivity. Qed.

Lemma toggle_callrecord self c :
  User.toggle_feature "callrecord" (self, c)
  = let enabled := negb (User.call_record_enabled self) in
    let c' := update_userfeatures (fun r => uf_id r =? User.id self)
                (User.set_call_record enabled) c in
    let self' := User.Build (User.id self) (User.enablevoicemail self) enabled in
    if negb (rowcount c' =? 1)
    then (Raise (DBUpdateException "Unable to perform the requested update"), (self', c'))
    else (Ok tt, (self', c')).
Proof. reflexivity. Qed.

Lemma toggle_enable_unfold enabled box c :
  VMBox.toggle_enable enabled (box, c)
  = let enabled :=
      match enabled with
      | None => VMBox.int_not (VMBox.commented box)
      | Some b => if b then 0 else 1
      end in
    let c' := update_voicemail (fun r => vm_uniqueid r =? VMBox.id box)
                (fun r => {| vm_uniqueid := vm_uniqueid r; vm_commented := enabled |}) c in
    if negb (rowcount c' =? 1)
    then (Raise (DBUpdateException "Unable to perform the requested update"), (box, c'))
    else (Ok tt, (VMBox.Build (VMBox.id box) enabled, c')).
Proof. reflexivity. Qed.

(** C10: when the update of [User.toggle_feature] touches a number of
    rows other than one, DBUpdateException is raised and the flag of the
    object is already the toggled one: [enablevoicemail] has changed,
    [call_record_enabled] is the opposite of what it was.  When the
    update of [VMBox.toggle_enable] touches a number of rows other than
    one, DBUpdateException is raised and the object is as it was. *)
Theorem toggle_feature_flips_before_check (self : User.t) (box : VMBox.t)
    (enabled : option bool) (c : cursor) :
  (user_rows c (User.id self) <> 1 ->
     (exists self' c',
        User.toggle_feature "enablevoicemail" (self, c)
        = (Raise (DBUpdateException "Unable to perform the requested update"), (self', c'))
        /\ User.enablevoicemail self' = VMBox.int_not (User.enablevoicemail self)
        /\ User.enablevoicemail self' <> User.enablevoicemail self)
     /\ (exists self' c',
           User.toggle_feature "callrecord" (self, c)
           = (Raise (DBUpdateException "Unable to perform the requested update"), (self', c'))
           /\ User.call_record_enabled self' = negb (User.call_record_enabled self)
           /\ User.call_record_enabled self' <> User.call_record_enabled self))
  /\ (forall feature msg self' c',
        User.toggle_feature feature (self, c)
        = (Raise (DBUpdateException msg), (self', c')) ->
        (feature = "enablevoicemail"
         /\ User.enablevoicemail self' <> User.enablevoicemail self)
        \/ (feature = "callrecord"
            /\ User.call_record_enabled self' <> User.call_record_enabled self))
  /\ (voicemail_rows c (VMBox.id box) <> 1 ->
      exists c',
        VMBox.toggle_enable enabled (box, c)
        = (Raise (DBUpdateException "Unable to perform the requested update"), (box, c')))
  /\ (forall msg box' c',
        VMBox.toggle_enable enabled (box, c)
        = (Raise (DBUpdateException msg), (box', c')) ->
        box' = box).
Proof.
  split; [|split; [|split]].
  - intros Hn. apply Z.eqb_neq in Hn. unfold user_rows in Hn. split.
    + eexists _, _. rewrite toggle_enablevoicemail. cbv zeta.
      rewrite rowcount_update_userfeatures, Hn. cbn [negb].
      split; [reflexivity|]. cbn [User.enablevoicemail].
      split; [reflexivity | apply int_not_flips].
    + eexists _, _. rewrite toggle_callrecord. cbv zeta.
      rewrite rowcount_update_userfeatures, Hn. cbn [negb].
      split; [reflexivity|]. cbn [User.call_record_enabled].
      split; [reflexivity | apply no_fixpoint_negb].
  - intros feature msg self' c'.
    destruct (String.eqb_spec feature "enablevoicemail") as [->|H1].
    { rewrite toggle_enablevoicemail. cbv zeta.
      destruct (negb _); intros [= <- <-]. left. split; [reflexivity|].
      cbn [User.enablevoicemail]. apply int_not_flips. }
    destruct (String.eqb_spec feature "callrecord") as [->|H2].
    { rewrite toggle_callrecord. cbv zeta.
      destruct (negb _); intros [= <- <-]. right. split; [reflexivity|].
      cbn [User.call_record_enabled]. apply no_fixpoint_negb. }
    unfold User.toggle_feature, bind.
    apply String.eqb_neq in H1, H2. rewrite H1, H2. discriminate.
  - intros Hn. apply Z.eqb_neq in Hn. unfold voicemail_rows in Hn.
    eexists. rewrite toggle_enable_unfold. cbv zeta.
    rewrite rowcount_update_voicemail, Hn. reflexivity.
  - intros msg box' c'. rewrite toggle_enable_unfold. cbv zeta.
    destruct (negb _); intros [= <- <-]. reflexivity.
Qed.

Lemma toggle_feature_flips_before_check_witness :
  (exists self' c',
     User.toggle_feature "enablevoicemail" (User.Build 1 0 false, no_rows)
     = (Raise (DBUpdateException "Unable to perform the requested update"), (self', c'))
     /\ User.enablevoicemail self' = 1)
  /\ (exists c',
        VMBox.toggle_enable None (VMBox.Build 1 0, no_rows)
        = (Raise (DBUpdateException "Unable to perform the requested update"),
           (VMBox.Build 1 0, c'))).
Proof.
  destruct (toggle_feature_flips_before_check
              (User.Build 1 0 false) (VMBox.Build 1 0) None no_rows) as (Hu & _ & Hv & _).
  split.
  - destruct Hu as [(self' & c' & He & Hf & _) _]; [vm_compute; discriminate|].
    exists self', c'. split; [exact He | exact Hf].
  - apply Hv. vm_compute. discriminate.
Defined.

End ToggleFacts.

(** ** The schedule mapper *)

Module ScheduleFacts.
Import DB ScheduleDataMapper.

Definition is_opened (r : schedule_time_row) : bool := String.eqb (st_mode r) "opened".

Definition row_action (r : schedule_time_row) : ScheduleAction :=
  Action (st_action r) (st_actionid r) (st_actionargs r).

Section WithBuilder.
Variables hours_t weekdays_t days_t months_t : Type.
Variable decode_hours : option string -> outcome hours_t.
Variable decode_weekdays : option string -> outcome weekdays_t.
Variable decode_days : option string -> outcome days_t.
Variable decode_months : option string -> outcome months_t.

(** A stored period and the period it is decoded to: each dimension
    comes from its own column, and the action is the one given. *)
Definition decoded (action : schedule_time_row -> option ScheduleAction)
    (r : schedule_time_row)
    (p : SchedulePeriod hours_t weekdays_t days_t months_t) : Prop :=
  exists hours weekdays days months,
    decode_hours (st_hours r) = Ok hours
    /\ decode_weekdays (st_weekdays r) = Ok weekdays
    /\ decode_days (st_monthdays r) = Ok days
    /\ decode_months (st_months r) = Ok months
    /\ p = Period hours weekdays days months (action r).

Definition no_action (r : schedule_time_row) : option ScheduleAction := None.
Definition own_action (r : schedule_time_row) : option ScheduleAction := Some (row_action r).

Lemma build_period_decoded r a p :
  build_period decode_hours decode_weekdays decode_days decode_months r a = Ok p
  <-> decoded (fun _ => a) r p.
Proof.
  unfold build_period, decoded, and_then. split.
  - destruct (decode_hours _) as [h| |]; try discriminate.
    destruct (decode_weekdays _) as [w| |]; try discriminate.
    destruct (decode_days _) as [d| |]; try discriminate.
    destruct (decode_months _) as [mo| |]; try discriminate.
    intros [= <-]. now exists h, w, d, mo.
  - intros (h & w & d & mo & -> & -> & -> & -> & ->). reflexivity.
Qed.

Lemma split_periods_by_mode rows opened closed :
  split_periods decode_hours decode_weekdays decode_days decode_months rows
  = Ok (opened, closed)
  <-> Forall2 (decoded no_action) (List.filter is_opened rows) opened
      /\ Forall2 (decoded own_action) (List.filter (fun r => negb (is_opened r)) rows) closed.
Proof.
  revert opened closed. induction rows as [|r rows IH]; intros opened closed.
  - cbn [split_periods List.filter]. split.
    + intros [= <- <-]. split; constructor.
    + intros [Ho Hc]. inversion Ho. inversion Hc. reflexivity.
  - cbn [split_periods List.filter]. fold (is_opened r).
    destruct (is_opened r); cbn [negb]; unfold and_then.
    + split.
      * destruct (build_period _ _ _ _ r None) as [p| |] eqn:Hp; try discriminate.
        destruct (split_periods _ _ _ _ rows) as [[o cl]| |]; try discriminate.
        cbn [fst snd]. intros [= <- <-].
        destruct (proj1 (IH o cl) eq_refl) as [Ho Hc].
        split; [|exact Hc]. constructor; [|exact Ho].
        now apply build_period_decoded in Hp.
      * intros [Ho Hc]. inversion Ho as [|r' p rs ps Hd Hrest]; subst.
        apply (build_period_decoded r None p) in Hd. rewrite Hd.
        now rewrite (proj2 (IH ps closed) (conj Hrest Hc)).
    + split.
      * destruct (build_period _ _ _ _ r _) as [p| |] eqn:Hp; try discriminate.
        destruct (split_periods _ _ _ _ rows) as [[o cl]| |]; try discriminate.
        cbn [fst snd]. intros [= <- <-].
        destruct (proj1 (IH o cl) eq_refl) as [Ho Hc].
        split; [exact Ho|]. constructor; [|exact Hc].
        now apply build_period_decoded in Hp.
      * intros [Ho Hc]. inversion Hc as [|r' p rs ps Hd Hrest]; subst.
        apply (build_period_decoded r (Some (row_action r)) p) in Hd.
        unfold row_action in Hd. rewrite Hd.
        now rewrite (proj2 (IH opened ps) (conj Ho Hrest)).
Qed.

(** Modelled from the spec: the evaluator of [wazo_agid/schedule.py] is
    not among the sources.  By section 4.2 a schedule is open when one of
    its opened periods matches the time taken in its timezone; else the
    first closed period that matches closes it with its own action if it
    has one and with the default action if not; else it is closed with
    the default action.  The always-open object is open at any time.
    How a period matches a time is left to [matches]. *)
Inductive schedule_state : Type :=
| Opened
| Closed (action : ScheduleAction).

Definition compute_state {T : Type}
    (matches : option string -> SchedulePeriod hours_t weekdays_t days_t months_t -> T -> bool)
    (s : schedule_obj hours_t weekdays_t days_t months_t) (now : T) : schedule_state :=
  match s with
  | AlwaysOpenedSchedule => Opened
  | Schedule opened_periods closed_periods default_action timezone =>
      if existsb (fun p => matches timezone p now) opened_periods then Opened
      else match find (fun p => matches timezone p now) closed_periods with
           | Some p => Closed (default default_action (p_action p))
           | None => Closed default_action
           end
  end.

Lemma compute_state_no_match {T : Type} matches opened closed default_action tz (now : T) :
  (forall p, In p opened \/ In p closed -> matches tz p now = false) ->
  compute_state matches (Schedule opened closed default_action tz) now
  = Closed default_action.
Proof.
  intros Hno. cbn [compute_state].
  assert (Ho : existsb (fun p => matches tz p now) opened = false).
  { apply not_true_is_false. rewrite existsb_exists. intros (p & Hp & Hm).
    rewrite Hno in Hm by (left; exact Hp). discriminate. }
  assert (Hc : find (fun p => matches tz p now) closed = None).
  { destruct (find _ closed) as [p|] eqn:Hf; [|reflexivity].
    apply find_some in Hf as [Hp Hm].
    rewrite Hno in Hm by (right; exact Hp). discriminate. }
  now rewrite Ho, Hc.
Qed.

(** C8: the lookup joins the rows of the path with the schedules that
    are not commented.  When it finds none, the mapper returns the
    always-open schedule.  When it finds one, the timezone is the one of
    the schedule, or the global one when the schedule has none (with no
    global one either, TypeError is raised), and the mapper returns a
    schedule exactly when every stored period of that schedule, and of no
    other, decodes: its opened periods are the stored periods of mode
    opened, in stored order and without an action, its closed periods are
    all the other stored periods, each with its own action, its default
    action is the fallback action of the row.  A stored period that does
    not decode is fatal: no schedule is returned.  So at a time no period
    matches, the schedule built is closed with the default action, where
    the always-open one is open. *)
Theorem get_from_path_builds (c : cursor) (path : string) (path_id : Z) :
  let joined :=
    flat_map
      (fun p =>
         if String.eqb (sp_path p) path && (sp_pathid p =? path_id)
         then List.filter (fun s => (s_id s =? sp_schedule_id p) && (s_commented s =? 0))
                (schedule c)
         else [])
      (schedule_path c) in
  let mapped :=
    get_from_path decode_hours decode_weekdays decode_days decode_months c path path_id in
  (head joined = None -> mapped = Ok AlwaysOpenedSchedule)
  /\ (forall res,
        head joined = Some res ->
        let rows := List.filter (fun r => st_schedule_id r =? s_id res) (schedule_time c) in
        let default_action :=
          Action (s_fallback_action res) (s_fallback_actionid res)
                 (s_fallback_actionargs res) in
        (Py.truthy (s_timezone res) = false -> head (infos c) = None ->
         mapped = Raise (TypeError "'NoneType' object has no attribute '__getitem__'"))
        /\ (forall tz,
              (Py.truthy (s_timezone res) = true /\ tz = s_timezone res)
              \/ (Py.truthy (s_timezone res) = false /\ head (infos c) = Some tz) ->
              (forall sch,
                 mapped = Ok sch
                 <-> exists opened closed,
                       sch = Schedule opened closed default_action tz
                       /\ Forall2 (decoded no_action) (List.filter is_opened rows) opened
                       /\ Forall2 (decoded own_action)
                            (List.filter (fun r => negb (is_opened r)) rows) closed)
              /\ forall opened closed (T : Type)
                        (matches : option string
                                   -> SchedulePeriod hours_t weekdays_t days_t months_t
                                   -> T -> bool)
                        (now : T),
                   (forall p, In p opened \/ In p closed -> matches tz p now = false) ->
                   compute_state matches (Schedule opened closed default_action tz) now
                   = Closed default_action
                   /\ compute_state matches AlwaysOpenedSchedule now = Opened)).
Proof.
  intros joined mapped.
  assert (Hj : select_schedule c path path_id = joined) by reflexivity.
  split.
  - intros Hnone. subst mapped. unfold get_from_path. now rewrite Hj, Hnone.
  - intros res Hres rows default_action.
    assert (Hrows : select_periods c (s_id res) = rows) by reflexivity.
    split.
    + intros Ht Hi. subst mapped. unfold get_from_path. rewrite Hj, Hres, Ht, Hi.
      reflexivity.
    + intros tz Htz.
      assert (Hm : mapped
                   = and_then
                       (split_periods decode_hours decode_weekdays decode_days
                          decode_months rows)
                       (fun lists => Ok (Schedule (fst lists) (snd lists) default_action tz))).
      { subst mapped. unfold get_from_path. rewrite Hj, Hres, Hrows.
        destruct Htz as [[Ht ->] | [Ht Hi]]; rewrite Ht; [reflexivity|].
        rewrite Hi. reflexivity. }
      split.
      * intros sch. rewrite Hm. unfold and_then. split.
        -- destruct (split_periods _ _ _ _ rows) as [[o cl]| |] eqn:Hs; try discriminate.
           cbn [fst snd]. intros [= <-].
           apply split_periods_by_mode in Hs as [Ho Hc]. now exists o, cl.
        -- intros (o & cl & -> & Ho & Hc).
           now rewrite (proj2 (split_periods_by_mode rows o cl) (conj Ho Hc)).
      * intros opened closed T matches now Hno. split; [|reflexivity].
        now apply compute_state_no_match.
Qed.

End WithBuilder.

(** A sample decoder: a dimension that is not given is the empty string,
    and no stored string holds a question mark. *)
Definition sample_decode (stored : option string) : outcome string :=
  match stored with
  | None => Ok ""
  | Some text =>
      if PyText.contains "?" text then Raise (ValueError "malformed period") else Ok text
  end.

Definition sample_schedule : schedule_row :=
  {| s_id := 10; s_timezone := None; s_fallback_action := Some "voicemail";
     s_fallback_actionid := Some "V1"; s_fallback_actionargs := None;
     s_commented := 0 |}.

Definition sample_schedules : cursor :=
  Cursor [] [] [] []
    [ {| sp_path := "queue"; sp_pathid := 1; sp_schedule_id := 10 |};
      {| sp_path := "incall"; sp_pathid := 1; sp_schedule_id := 11 |} ]
    [ sample_schedule;
      {| s_id := 11; s_timezone := Some "Europe/Paris"; s_fallback_action := None;
         s_fallback_actionid := None; s_fallback_actionargs := None; s_commented := 0 |} ]
    [ {| st_schedule_id := 10; st_mode := "closed"; st_hours := Some "09:00-17:00";
         st_weekdays := Some "1-5"; st_monthdays := None; st_months := None;
         st_action := Some "sound"; st_actionid := Some "S1"; st_actionargs := None |};
      {| st_schedule_id := 11; st_mode := "opened"; st_hours := Some "10:00-12:00";
         st_weekdays := None; st_monthdays := None; st_months := None;
         st_action := None; st_actionid := None; st_actionargs := None |};
      {| st_schedule_id := 11; st_mode := "closed"; st_hours := Some "??";
         st_weekdays := None; st_monthdays := None; st_months := None;
         st_action := None; st_actionid := None; st_actionargs := None |};
      {| st_schedule_id := 10; st_mode := "opened"; st_hours := Some "00:00-08:59";
         st_weekdays := None; st_monthdays := None; st_months := None;
         st_action := None; st_actionid := None; st_actionargs := None |} ]
    [Some "Europe/Paris"] 0.

Lemma get_from_path_builds_witness :
  get_from_path sample_decode sample_decode sample_decode sample_decode
    sample_schedules "queue" 2 = Ok AlwaysOpenedSchedule
  /\ get_from_path sample_decode sample_decode sample_decode sample_decode
       sample_schedules "queue" 1
     = Ok (Schedule
             [Period "00:00-08:59" "" "" "" None]
             [Period "09:00-17:00" "1-5" "" ""
                     (Some (Action (Some "sound") (Some "S1") None))]
             (Action (Some "voicemail") (Some "V1") None)
             (Some "Europe/Paris")).
Proof.
  split.
  - apply (get_from_path_builds _ _ _ _ sample_decode sample_decode sample_decode
             sample_decode sample_schedules "queue" 2). reflexivity.
  - apply (proj1 (proj2 (proj2 (get_from_path_builds _ _ _ _ sample_decode sample_decode
                                  sample_decode sample_decode sample_schedules "queue" 1)
                           sample_schedule eq_refl)
                    (Some "Europe/Paris") (or_intror (conj eq_refl eq_refl)))).
    eexists _, _. split; [reflexivity|]. split.
    + constructor; [|constructor]. now exists "00:00-08:59", "", "", "".
    + constructor; [|constructor]. now exists "09:00-17:00", "1-5", "", "".
Defined.

End ScheduleFacts.

(** ** The matcher on strings that are not known in full *)

Module ReFacts.
Import Re StringFacts.

(** Every character of [s] satisfies [p]. *)
Fixpoint all_chars (p : ascii -> bool) (s : string) : bool :=
  match s with
  | String c s' => p c && all_chars p s'
  | EmptyString => true
  end.

(** [s] does not start with a character that satisfies [p]. *)
Definition stops (p : ascii -> bool) (s : string) : bool :=
  match s with
  | String c _ => negb (p c)
  | EmptyString => true
  end.

Lemma all_chars_app p a b : all_chars p (a ++ b) = all_chars p a && all_chars p b.
Proof.
  induction a as [|c a IH]; [reflexivity|].
  rewrite append_cons. cbn [all_chars]. now rewrite IH, andb_assoc.
Qed.

Lemma append_nil_r (a : string) : a ++ "" = a.
Proof. induction a as [|c a IH]; [reflexivity|]. now rewrite append_cons, IH. Qed.

(** Repetition of a character class, without the fuel: the longest run
    first, then shorter ones. *)
Fixpoint star_chr {A} (p : ascii -> bool) (k : nat -> string -> captures -> option A)
    (pos : nat) (s : string) (c : captures) : option A :=
  match s with
  | String a s' =>
      if p a then
        match star_chr p k (S pos) s' c with
        | Some x => Some x
        | None => k pos s c
        end
      else k pos s c
  | EmptyString => k pos s c
  end.

(** The loop of [run] on a repetition, by name. *)
Section StarLoop.
Context {A : Type} (a : regex) (k : nat -> string -> captures -> option A).

Fixpoint star_fuel (fuel pos : nat) (s : string) (c : captures) : option A :=
  match fuel with
  | O => k pos s c
  | S fuel' =>
      match run a pos s c
              (fun pos' s' c' =>
                 if (pos <? pos')%nat then star_fuel fuel' pos' s' c' else None) with
      | Some x => Some x
      | None => k pos s c
      end
  end.
End StarLoop.

Lemma run_star {A} a (k : nat -> string -> captures -> option A) pos s c :
  run (Star a) pos s c k = star_fuel a k (S (String.length s)) pos s c.
Proof. reflexivity. Qed.

Lemma star_fuel_chr {A} p (k : nat -> string -> captures -> option A) fuel pos s c :
  (String.length s < fuel)%nat ->
  star_fuel (Chr p) k fuel pos s c = star_chr p k pos s c.
Proof.
  revert pos s. induction fuel as [|fuel IH]; intros pos s Hf; [lia|].
  destruct s as [|a s]; [reflexivity|].
  cbn [star_fuel run star_chr]. destruct (p a); [|reflexivity].
  replace (pos <? S pos)%nat with true by (symmetry; apply Nat.ltb_lt; lia).
  rewrite IH by (cbn [String.length] in Hf; lia). reflexivity.
Qed.

Lemma run_star_chr {A} p (k : nat -> string -> captures -> option A) pos s c :
  run (Star (Chr p)) pos s c k = star_chr p k pos s c.
Proof. rewrite run_star. apply star_fuel_chr. lia. Qed.

(** The equations of [run]. *)
Lemma run_seq {A} a b (k : nat -> string -> captures -> option A) pos s c :
  run (Seq a b) pos s c k = run a pos s c (fun pos' s' c' => run b pos' s' c' k).
Proof. reflexivity. Qed.

Lemma run_group {A} n a (k : nat -> string -> captures -> option A) pos s c :
  run (Group n a) pos s c k
  = run a pos s c (fun pos' s' c' => k pos' s' ((n, substring 0 (pos' - pos) s) :: c')).
Proof. reflexivity. Qed.

Lemma run_alt {A} a b (k : nat -> string -> captures -> option A) pos s c :
  run (Alt a b) pos s c k
  = match run a pos s c k with
    | Some x => Some x
    | None => run b pos s c k
    end.
Proof. reflexivity. Qed.

Lemma run_chr {A} p (k : nat -> string -> captures -> option A) pos s c :
  run (Chr p) pos s c k
  = match s with
    | String a s' => if p a then k (S pos) s' c else None
    | EmptyString => None
    end.
Proof. reflexivity. Qed.

(** A run of [p] in front of [rest] is taken whole when the repetition
    started after it succeeds. *)
Lemma star_chr_prefix {A} p (k : nat -> string -> captures -> option A) pos pre rest c x :
  all_chars p pre = true ->
  star_chr p k (pos + String.length pre) rest c = Some x ->
  star_chr p k pos (pre ++ rest) c = Some x.
Proof.
  revert pos. induction pre as [|a pre IH]; intros pos Hp Hk.
  - cbn [String.length] in Hk. now rewrite Nat.add_0_r in Hk.
  - cbn [all_chars] in Hp. apply andb_prop in Hp as [Ha Hp].
    rewrite append_cons. cbn [star_chr]. rewrite Ha.
    rewrite (IH (S pos) Hp); [reflexivity|].
    cbn [String.length] in Hk. now rewrite Nat.add_succ_r in Hk.
Qed.

Lemma star_chr_stops {A} p (k : nat -> string -> captures -> option A) pos s c :
  stops p s = true -> star_chr p k pos s c = k pos s c.
Proof.
  destruct s as [|a s]; [reflexivity|]. cbn [stops star_chr].
  intros Ha. apply negb_true_iff in Ha. now rewrite Ha.
Qed.

(** The longest run is the one taken when what follows matches there. *)
Lemma star_chr_munch {A} p (k : nat -> string -> captures -> option A) pos pre rest c x :
  all_chars p pre = true -> stops p rest = true ->
  k (pos + String.length pre)%nat rest c = Some x ->
  star_chr p k pos (pre ++ rest) c = Some x.
Proof.
  intros Hp Hs Hk. apply star_chr_prefix; [assumption|].
  now rewrite star_chr_stops.
Qed.

(** One character is given back when what follows fails at the end of
    the run and matches before its last character. *)
Lemma star_chr_back {A} p (k : nat -> string -> captures -> option A) pos pre a c x :
  all_chars p pre = true -> p a = true ->
  k (S (pos + String.length pre)) "" c = None ->
  k (pos + String.length pre)%nat (String a "") c = Some x ->
  star_chr p k pos (pre ++ String a "") c = Some x.
Proof.
  intros Hp Ha Hend Hk. apply star_chr_prefix; [assumption|].
  cbn [star_chr]. now rewrite Ha, Hend.
Qed.

(** The longest prefix of [s] in [p], and what follows it. *)
Fixpoint span (p : ascii -> bool) (s : string) : string * string :=
  match s with
  | String c s' =>
      if p c then let '(a, b) := span p s' in (String c a, b) else (EmptyString, s)
  | EmptyString => (EmptyString, EmptyString)
  end.

Lemma span_spec p s :
  s = fst (span p s) ++ snd (span p s)
  /\ all_chars p (fst (span p s)) = true
  /\ stops p (snd (span p s)) = true.
Proof.
  induction s as [|c s (IH1 & IH2 & IH3)]; [repeat split|].
  cbn [span]. destruct (p c) eqn:Hc.
  - destruct (span p s) as [a b]. cbn [fst snd] in *.
    rewrite append_cons, <- IH1. cbn [all_chars]. now rewrite Hc, IH2.
  - cbn [fst snd stops]. now rewrite Hc.
Qed.

Lemma span_stops p s : stops p s = true -> span p s = ("", s).
Proof.
  destruct s as [|c s]; [reflexivity|]. cbn [stops span].
  intros Hc. apply negb_true_iff in Hc. now rewrite Hc.
Qed.

Lemma span_app p pre rest :
  all_chars p pre = true -> stops p rest = true -> span p (pre ++ rest) = (pre, rest).
Proof.
  intros Hp Hs. induction pre as [|c pre IH]; [now apply span_stops|].
  cbn [all_chars] in Hp. apply andb_prop in Hp as [Hc Hp].
  rewrite append_cons. cbn [span]. now rewrite Hc, IH.
Qed.

Lemma span_all p s : all_chars p s = true -> span p s = (s, "").
Proof.
  intros Hp. rewrite <- (append_nil_r s) at 1. now apply span_app.
Qed.

Definition not_nl (c : ascii) : bool := negb (Ascii.eqb c Py.nl).

Lemma run_bol0 {A} (k : nat -> string -> captures -> option A) s c :
  run Bol 0 s c k = k 0%nat s c.
Proof. reflexivity. Qed.

Lemma substring_taken pos (pre rest : string) :
  substring 0 (pos + String.length pre - pos) (pre ++ rest) = pre.
Proof.
  replace (pos + String.length pre - pos)%nat with (String.length pre) by lia.
  apply substring_prefix.
Qed.

(** What [re_code] finds in a line: the digits in front as group 1, and
    after the blanks that follow them the rest of the line, up to a
    newline, as group 2. *)
Lemma match_re_code code blanks response rest :
  all_chars Py.is_digit code = true -> stops Py.is_digit (blanks ++ response ++ rest) = true ->
  all_chars Py.is_space blanks = true -> stops Py.is_space (response ++ rest) = true ->
  all_chars not_nl response = true -> stops not_nl rest = true ->
  match_at FastAGI.re_code 0 (code ++ blanks ++ response ++ rest)
  = Some (Found (String.length code + String.length blanks + String.length response)
                rest [(2%nat, response); (1%nat, code)]).
Proof.
  intros A1 S1 A2 S2 A3 S3. unfold match_at, FastAGI.re_code.
  change Dot with (Chr not_nl).
  rewrite run_seq, run_group, run_seq, run_bol0. cbv beta.
  rewrite (run_star_chr (A := found) Py.is_digit).
  apply star_chr_munch; [assumption..|]. cbv beta.
  rewrite substring_taken, run_seq, (run_star_chr (A := found) Py.is_space).
  apply star_chr_munch; [assumption..|]. cbv beta.
  rewrite run_group, (run_star_chr (A := found) not_nl).
  apply star_chr_munch; [assumption..|]. cbv beta.
  rewrite substring_taken. reflexivity.
Qed.

Lemma search_re_code s :
  search FastAGI.re_code s
  = Some (Found (String.length (fst (span Py.is_digit s))
                 + String.length (fst (span Py.is_space (snd (span Py.is_digit s))))
                 + String.length
                     (fst (span not_nl (snd (span Py.is_space (snd (span Py.is_digit s)))))))
                (snd (span not_nl (snd (span Py.is_space (snd (span Py.is_digit s))))))
                [(2%nat, fst (span not_nl (snd (span Py.is_space (snd (span Py.is_digit s))))));
                 (1%nat, fst (span Py.is_digit s))]).
Proof.
  destruct (span_spec Py.is_digit s) as (E1 & A1 & S1).
  destruct (span Py.is_digit s) as [code r1]. cbn [fst snd] in *.
  destruct (span_spec Py.is_space r1) as (E2 & A2 & S2).
  destruct (span Py.is_space r1) as [blanks r2]. cbn [fst snd] in *.
  destruct (span_spec not_nl r2) as (E3 & A3 & S3).
  destruct (span not_nl r2) as [response r3]. cbn [fst snd] in *.
  subst r2 r1.
  assert (Hm : match_at FastAGI.re_code 0 s
               = Some (Found (String.length code + String.length blanks
                              + String.length response)
                             r3 [(2%nat, response); (1%nat, code)])).
  { rewrite E1. now apply match_re_code. }
  unfold search. destruct s; cbn [search_from]; now rewrite Hm.
Qed.

Definition not_space (c : ascii) : bool := negb (Py.is_space c).

(** The part of [re_kv] that reads the data in parentheses. *)
Definition data_group : regex :=
  Seq (Lit "(") (Seq (Group 3 (Star (Chr not_nl))) (Lit ")")).

Lemma star_fuel_at_end {A} p b (k : nat -> string -> captures -> option A) fuel pos c :
  star_fuel (Seq (Chr p) b) k fuel pos "" c = k pos "" c.
Proof. destruct fuel; reflexivity. Qed.

(** Data in parentheses at the end of a line: the greedy [.*] first runs
    over the closing parenthesis and gives it back. *)
Lemma run_data_group {A} (k : nat -> string -> captures -> option A) pos c data x :
  all_chars not_nl data = true ->
  k (S (S (pos + String.length data))) "" ((3%nat, data) :: c) = Some x ->
  run (Star data_group) pos (String "(" (data ++ ")")) c k = Some x.
Proof.
  intros Hd Hk. rewrite run_star. cbn [star_fuel].
  unfold data_group at 1, Lit. rewrite run_seq, run_chr. cbn [Ascii.eqb Bool.eqb].
  cbv beta. rewrite run_seq, run_group.
  rewrite (run_star_chr (A := A) not_nl).
  rewrite (star_chr_back not_nl _ (S pos) data ")" c x); [reflexivity|assumption|reflexivity|reflexivity|].
  cbv beta. rewrite run_chr. cbn [Ascii.eqb Bool.eqb].
  replace (pos <? S (S pos + String.length data))%nat with true
    by (symmetry; apply Nat.ltb_lt; lia).
  unfold data_group, Lit. rewrite (star_fuel_at_end (Ascii.eqb "(") _ k).
  rewrite substring_taken. exact Hk.
Qed.

Lemma substring_taken_cons pos a (pre rest : string) :
  substring 0 (S pos + String.length pre - pos) (String a (pre ++ rest)) = String a pre.
Proof.
  replace (S pos + String.length pre - pos)%nat with (S (String.length pre)) by lia.
  cbn [substring]. now rewrite substring_prefix.
Qed.

(** [re_kv] with its classes by name. *)
Definition re_kv' : regex :=
  Seq (Group 1 (Seq (Chr Py.is_word) (Star (Chr Py.is_word))))
    (Seq (Chr (Ascii.eqb "="))
       (Seq (Group 2 (Seq (Chr not_space) (Star (Chr not_space))))
          (Seq (Star (Chr Py.is_space)) (Star data_group)))).

Lemma re_kv_eq : FastAGI.re_kv = re_kv'.
Proof. reflexivity. Qed.

(** A token with data in parentheses, at the end of the response. *)
Lemma match_re_kv_data pos k0 key v0 value data :
  Py.is_word k0 = true -> all_chars Py.is_word key = true ->
  not_space v0 = true -> all_chars not_space value = true ->
  all_chars not_nl data = true ->
  match_at FastAGI.re_kv pos
    (String k0 (key ++ String "=" (String v0 (value ++ String " " (String "(" (data ++ ")"))))))
  = Some (Found (pos + String.length key + String.length value + String.length data + 6)
                "" [(3%nat, data); (2%nat, String v0 value); (1%nat, String k0 key)]).
Proof.
  intros Hk0 Hk Hv0 Hv Hd. rewrite re_kv_eq. unfold match_at, re_kv'.
  rewrite run_seq, run_group, run_seq, run_chr, Hk0. cbv beta.
  rewrite (run_star_chr (A := found) Py.is_word).
  apply star_chr_munch; [assumption | reflexivity |]. cbv beta.
  rewrite substring_taken_cons, run_seq, run_chr. cbn [Ascii.eqb Bool.eqb]. cbv beta.
  rewrite run_seq, run_group, run_seq, run_chr, Hv0. cbv beta.
  rewrite (run_star_chr (A := found) not_space).
  apply star_chr_munch; [assumption | reflexivity |]. cbv beta.
  rewrite substring_taken_cons, run_seq.
  rewrite (run_star_chr (A := found) Py.is_space).
  apply (star_chr_munch _ _ _ " " (String "(" (data ++ ")"))); [reflexivity..|].
  cbv beta. apply run_data_group; [assumption|].
  do 2 f_equal. cbn [String.length]. lia.
Qed.

(** A token without data, at the end of the response. *)
Lemma match_re_kv_plain pos k0 key v0 value :
  Py.is_word k0 = true -> all_chars Py.is_word key = true ->
  not_space v0 = true -> all_chars not_space value = true ->
  match_at FastAGI.re_kv pos (String k0 (key ++ String "=" (String v0 value)))
  = Some (Found (pos + String.length key + String.length value + 3)
                "" [(2%nat, String v0 value); (1%nat, String k0 key)]).
Proof.
  intros Hk0 Hk Hv0 Hv. rewrite re_kv_eq. unfold match_at, re_kv'.
  rewrite run_seq, run_group, run_seq, run_chr, Hk0. cbv beta.
  rewrite (run_star_chr (A := found) Py.is_word).
  apply star_chr_munch; [assumption | reflexivity |]. cbv beta.
  rewrite substring_taken_cons, run_seq, run_chr. cbn [Ascii.eqb Bool.eqb]. cbv beta.
  rewrite run_seq, run_group, run_seq, run_chr, Hv0. cbv beta.
  rewrite (run_star_chr (A := found) not_space).
  rewrite <- (append_nil_r value).
  apply star_chr_munch; [assumption | reflexivity |]. cbv beta.
  rewrite substring_taken_cons, run_seq.
  rewrite (run_star_chr (A := found) Py.is_space). cbn [star_chr].
  rewrite run_star. cbn [star_fuel String.length]. unfold data_group, Lit.
  rewrite run_seq, run_chr, !append_nil_r. do 2 f_equal. lia.
Qed.

Lemma match_re_kv_end pos : match_at FastAGI.re_kv pos "" = None.
Proof. reflexivity. Qed.

(** The tokens of a response that is one token. *)
Lemma findall_one s f :
  s <> "" -> match_at FastAGI.re_kv 0 s = Some f -> f_rest f = "" ->
  findall FastAGI.re_kv s = [f_groups f].
Proof.
  intros Hs Hm Hr. unfold findall. cbn [findall_from].
  assert (Hsearch : search_from FastAGI.re_kv 0 s = Some f).
  { destruct s; cbn [search_from]; now rewrite Hm. }
  rewrite Hsearch, Hr. destruct s as [|a s]; [congruence|].
  cbn [String.length Nat.ltb Nat.leb findall_from search_from].
  rewrite match_re_kv_end. reflexivity.
Qed.

Lemma kv_tokens_data k0 key v0 value data :
  Py.is_word k0 = true -> all_chars Py.is_word key = true ->
  not_space v0 = true -> all_chars not_space value = true ->
  all_chars not_nl data = true ->
  FastAGI.kv_tokens
    (String k0 (key ++ String "=" (String v0 (value ++ String " " (String "(" (data ++ ")"))))))
  = [(String k0 key, String v0 value, data)].
Proof.
  intros Hk0 Hk Hv0 Hv Hd. unfold FastAGI.kv_tokens.
  erewrite findall_one; [| discriminate | now apply match_re_kv_data | reflexivity].
  reflexivity.
Qed.

Lemma kv_tokens_plain k0 key v0 value :
  Py.is_word k0 = true -> all_chars Py.is_word key = true ->
  not_space v0 = true -> all_chars not_space value = true ->
  FastAGI.kv_tokens (String k0 (key ++ String "=" (String v0 value)))
  = [(String k0 key, String v0 value, "")].
Proof.
  intros Hk0 Hk Hv0 Hv. unfold FastAGI.kv_tokens.
  erewrite findall_one; [| discriminate | now apply match_re_kv_plain | reflexivity].
  reflexivity.
Qed.

End ReFacts.

(** ** [str.strip()] *)

Module StripFacts.
Import StringFacts ReFacts.

Lemma lstrip_idem s : Py.lstrip (Py.lstrip s) = Py.lstrip s.
Proof.
  induction s as [|c s IH]; [reflexivity|].
  cbn [Py.lstrip]. destruct (Py.is_space c) eqn:Hc; [exact IH|].
  cbn [Py.lstrip]. now rewrite Hc.
Qed.

Lemma rstrip_cons c s :
  Py.rstrip (String c s)
  = match Py.rstrip s with
    | EmptyString => if Py.is_space c then EmptyString else String c EmptyString
    | r => String c r
    end.
Proof. reflexivity. Qed.

Lemma rstrip_cons_keep c s :
  Py.is_space c = false -> Py.rstrip (String c s) = String c (Py.rstrip s).
Proof.
  intros Hc. rewrite rstrip_cons, Hc. destruct (Py.rstrip s); reflexivity.
Qed.

Lemma rstrip_idem s : Py.rstrip (Py.rstrip s) = Py.rstrip s.
Proof.
  induction s as [|c s IH]; [reflexivity|].
  rewrite rstrip_cons. destruct (Py.rstrip s) as [|x r] eqn:Hr.
  - destruct (Py.is_space c) eqn:Hc; [reflexivity|].
    rewrite rstrip_cons. cbn [Py.rstrip]. now rewrite Hc.
  - rewrite rstrip_cons, IH. reflexivity.
Qed.

Lemma lstrip_rstrip s : Py.lstrip (Py.rstrip s) = Py.rstrip (Py.lstrip s).
Proof.
  induction s as [|c s IH]; [reflexivity|].
  cbn [Py.lstrip]. destruct (Py.is_space c) eqn:Hc.
  - rewrite rstrip_cons, Hc. rewrite <- IH.
    destruct (Py.rstrip s) as [|x r]; [reflexivity|].
    cbn [Py.lstrip]. now rewrite Hc.
  - rewrite rstrip_cons_keep by assumption. cbn [Py.lstrip]. now rewrite Hc.
Qed.

Lemma strip_idem s : Py.strip (Py.strip s) = Py.strip s.
Proof.
  unfold Py.strip. now rewrite lstrip_rstrip, lstrip_idem, rstrip_idem.
Qed.

Lemma strip_lstrip s : Py.strip (Py.lstrip s) = Py.strip s.
Proof. unfold Py.strip. now rewrite lstrip_idem. Qed.

Lemma strip_rstrip s : Py.strip (Py.rstrip s) = Py.strip s.
Proof. unfold Py.strip. now rewrite lstrip_rstrip, rstrip_idem. Qed.

(** Blanks in front of a text that goes on with a character that is not
    blank. *)
Lemma lstrip_app key c rest :
  Py.is_space c = false ->
  Py.lstrip (key ++ String c rest) = Py.lstrip key ++ String c rest.
Proof.
  intros Hc. induction key as [|x key IH].
  - cbn [Py.lstrip]. change ("" ++ String c rest) with (String c rest).
    cbn [Py.lstrip]. now rewrite Hc.
  - rewrite append_cons. cbn [Py.lstrip]. destruct (Py.is_space x); [exact IH|].
    now rewrite append_cons.
Qed.

(** Blanks at the end of a text whose last part does not strip to
    nothing. *)
Lemma rstrip_app a b :
  Py.rstrip b <> "" -> Py.rstrip (a ++ b) = a ++ Py.rstrip b.
Proof.
  intros Hb. induction a as [|x a IH]; [reflexivity|].
  rewrite !append_cons, rstrip_cons, IH.
  destruct a; destruct (Py.rstrip b); try reflexivity. congruence.
Qed.

Lemma all_chars_lstrip p s : all_chars p s = true -> all_chars p (Py.lstrip s) = true.
Proof.
  induction s as [|c s IH]; [reflexivity|]. intros H.
  cbn [Py.lstrip]. destruct (Py.is_space c); [|exact H].
  cbn [all_chars] in H. apply andb_prop in H as [_ H]. now apply IH.
Qed.

Lemma all_chars_rstrip p s : all_chars p s = true -> all_chars p (Py.rstrip s) = true.
Proof.
  induction s as [|c s IH]; [reflexivity|]. intros H.
  cbn [all_chars] in H. apply andb_prop in H as [Hc H].
  rewrite rstrip_cons. specialize (IH H).
  destruct (Py.rstrip s) as [|x r].
  - destruct (Py.is_space c); [reflexivity|]. cbn [all_chars]. now rewrite Hc.
  - cbn [all_chars] in *. now rewrite Hc, IH.
Qed.

(** A text between a character that is not blank and one that is not
    blank loses nothing. *)
Lemma strip_framed c s d :
  Py.is_space c = false -> Py.is_space d = false ->
  Py.strip (String c (s ++ String d "")) = String c (s ++ String d "").
Proof.
  intros Hc Hd. unfold Py.strip. cbn [Py.lstrip]. rewrite Hc.
  rewrite rstrip_cons_keep by assumption. f_equal.
  rewrite rstrip_app; [f_equal; cbn [Py.rstrip]; now rewrite Hd|].
  cbn [Py.rstrip]. now rewrite Hd.
Qed.

(** A text that starts with a character that is not blank and ends with a
    part that has no blank at its end loses nothing. *)
Lemma strip_kept c s t :
  Py.is_space c = false -> Py.rstrip t = t -> t <> "" ->
  Py.strip (String c (s ++ t)) = String c (s ++ t).
Proof.
  intros Hc Ht Hne. unfold Py.strip. cbn [Py.lstrip]. rewrite Hc.
  rewrite rstrip_cons_keep by assumption.
  rewrite rstrip_app; rewrite Ht; [reflexivity | assumption].
Qed.

(** Blanks after a text are removed with those of the text. *)
Lemma rstrip_blanks s ws :
  all_chars Py.is_space ws = true -> Py.rstrip (s ++ ws) = Py.rstrip s.
Proof.
  intros Hw.
  assert (Hnil : Py.rstrip ws = "").
  { induction ws as [|c ws IH]; [reflexivity|].
    cbn [all_chars] in Hw. apply andb_prop in Hw as [Hc Hw].
    rewrite rstrip_cons, (IH Hw), Hc. reflexivity. }
  induction s as [|c s IH]; [exact Hnil|].
  now rewrite append_cons, !rstrip_cons, IH.
Qed.

Lemma strip_blanks_after c s ws :
  Py.is_space c = false -> all_chars Py.is_space ws = true ->
  Py.strip (String c s ++ ws) = Py.strip (String c s).
Proof.
  intros Hc Hw. unfold Py.strip. rewrite append_cons. cbn [Py.lstrip]. rewrite Hc.
  rewrite <- append_cons. now apply rstrip_blanks.
Qed.

End StripFacts.

(** ** The environment and the arguments of a session *)

Module FastAGIInitFacts.
Import FastAGI FastAGIInit StringFacts ReFacts StripFacts.

Definition blank (l : string) : bool := String.eqb (Py.strip l) "".

(** The environment the lines of a block give, one after the other. *)
Definition env_of (block : list string) (env : gmap string string) : gmap string string :=
  fold_left (fun e l => add_env e (Py.strip l)) block env.

Lemma get_agi_env_block block end_line rest env :
  forallb (fun l => negb (blank l)) block = true -> blank end_line = true ->
  _get_agi_env (map Line block ++ Line end_line :: rest) env
  = (Ok (env_of block env), rest).
Proof.
  revert env. induction block as [|l block IH]; intros env Hb He.
  - cbn. unfold blank in He. now rewrite He.
  - cbn [forallb] in Hb. apply andb_prop in Hb as [Hl Hb].
    apply negb_true_iff in Hl. unfold blank in Hl.
    cbn [map app _get_agi_env]. rewrite Hl. now apply IH.
Qed.

Lemma get_agi_env_eof block env :
  forallb (fun l => negb (blank l)) block = true ->
  _get_agi_env (map Line block) env = (Ok (env_of block env), []).
Proof.
  revert env. induction block as [|l block IH]; intros env Hb; [reflexivity|].
  cbn [forallb] in Hb. apply andb_prop in Hb as [Hl Hb].
  apply negb_true_iff in Hl. unfold blank in Hl.
  cbn [map _get_agi_env]. rewrite Hl. now apply IH.
Qed.

(** *** The arguments *)

Lemma to_int_not_nil z :
  Z.to_int z <> Decimal.Pos Decimal.Nil /\ Z.to_int z <> Decimal.Neg Decimal.Nil.
Proof.
  destruct z as [|p|p]; cbn; split; try discriminate;
    intros [= H]; now apply DecimalPos.Unsigned.to_uint_nonnil in H.
Qed.

Lemma arg_key_inj i j : arg_key i = arg_key j -> i = j.
Proof.
  unfold arg_key. intros H. apply String.app_inj in H.
  cbn [Py.str] in H.
  assert (Hi : NilZero.int_of_string (NilZero.string_of_int (Z.to_int i))
               = NilZero.int_of_string (NilZero.string_of_int (Z.to_int j)))
    by now rewrite H.
  rewrite !NilZero.isi in Hi; try apply to_int_not_nil.
  injection Hi as Hi. now apply DecimalZ.to_int_inj.
Qed.

Lemma args_from_values env vs fuel i :
  (forall j v, vs !! j = Some v -> env !! arg_key (i + Z.of_nat j) = Some v) ->
  env !! arg_key (i + Z.of_nat (length vs)) = None ->
  (length vs < fuel)%nat ->
  args_from fuel env i = vs.
Proof.
  revert fuel i. induction vs as [|v vs IH]; intros fuel i Hv Hn Hf.
  - destruct fuel; [reflexivity|]. cbn [args_from].
    cbn [length] in Hn. rewrite Z.add_0_r in Hn. now rewrite Hn.
  - destruct fuel as [|fuel]; [cbn [length] in Hf; lia|]. cbn [args_from].
    specialize (Hv 0%nat v eq_refl) as H0. rewrite Z.add_0_r in H0. rewrite H0.
    f_equal. apply IH.
    + intros j w Hj. specialize (Hv (S j) w Hj).
      now replace (i + 1 + Z.of_nat j) with (i + Z.of_nat (S j)) by lia.
    + cbn [length] in Hn.
      now replace (i + 1 + Z.of_nat (length vs)) with (i + Z.of_nat (S (length vs))) by lia.
    + cbn [length] in Hf. lia.
Qed.

(** As many keys as arguments: the keys of the arguments are distinct
    keys of the environment. *)
Lemma args_fit (env : gmap string string) (vs : list string) i :
  (forall j v, vs !! j = Some v -> env !! arg_key (i + Z.of_nat j) = Some v) ->
  (length vs <= size env)%nat.
Proof.
  intros Hv.
  set (keys := map (fun j => arg_key (i + Z.of_nat j)) (seq 0 (length vs))).
  assert (Hnd : NoDup keys).
  { apply NoDup_fmap_2; [|apply NoDup_seq].
    intros a b Hab. apply arg_key_inj in Hab. lia. }
  assert (Hsub : (list_to_set keys : gset string) ⊆ dom env).
  { intros k Hk. apply elem_of_list_to_set in Hk.
    apply list_elem_of_fmap in Hk as (j & -> & Hj).
    apply elem_of_seq in Hj. apply elem_of_dom.
    destruct (lookup_lt_is_Some_2 vs j) as [v Hjv]; [lia|].
    exists v. now apply Hv. }
  apply subseteq_size in Hsub.
  rewrite size_list_to_set in Hsub by exact Hnd.
  rewrite size_dom in Hsub. unfold keys in Hsub.
  now rewrite length_map, length_seq in Hsub.
Qed.

(** X2: the arguments are the values of agi_arg_1, agi_arg_2, ... up to
    the first number that is missing, in that order; what comes after a
    gap is left out. *)
Theorem get_agi_args_up_to_gap (env : gmap string string) (vs : list string) :
  (forall j v, vs !! j = Some v -> env !! arg_key (Z.of_nat (S j)) = Some v) ->
  env !! arg_key (Z.of_nat (S (length vs))) = None ->
  _get_agi_args env = vs.
Proof.
  intros Hv Hn. unfold _get_agi_args.
  assert (Hv' : forall j v, vs !! j = Some v -> env !! arg_key (1 + Z.of_nat j) = Some v).
  { intros j v Hj. replace (1 + Z.of_nat j) with (Z.of_nat (S j)) by lia. now apply Hv. }
  apply args_from_values.
  - exact Hv'.
  - now replace (1 + Z.of_nat (length vs)) with (Z.of_nat (S (length vs))) by lia.
  - pose proof (args_fit env vs 1 Hv'). lia.
Qed.

Definition sample_env : gmap string string :=
  <["agi_arg_4" := "late"]>
    (<["agi_arg_2" := "default"]>
       (<["agi_arg_1" := "42"]> (<["agi_network_script" := "incoming_user_set_features"]> ∅))).

Lemma get_agi_args_up_to_gap_witness :
  _get_agi_args sample_env = ["42"; "default"].
Proof.
  apply (get_agi_args_up_to_gap sample_env ["42"; "default"]).
  - intros [|[|j]] v; cbn; intros [= <-]; reflexivity.
  - reflexivity.
Defined.

(** X1: [__init__] reads the lines up to the first blank one and no
    further, writes nothing, and leaves what follows the blank line to be
    read as the replies to its commands; the environment is the one the
    lines before the blank line give, the arguments are read off it.
    When the input ends before a blank line it stops there, with the
    environment read so far. *)
Theorem init_reads_the_block (block : list string) (end_line : string)
    (rest : list rd) (out : list string) (err : option Z) :
  forallb (fun l => negb (blank l)) block = true ->
  let session := Session (env_of block ∅) (_get_agi_args (env_of block ∅)) in
  (blank end_line = true ->
   init (Conn (map Line block ++ Line end_line :: rest) out err)
   = (Ok session, Conn rest out err))
  /\ init (Conn (map Line block) out err) = (Ok session, Conn [] out err).
Proof.
  intros Hb session. split.
  - intros He. unfold init. cbn [inf outf outf_errno].
    now rewrite get_agi_env_block.
  - unfold init. cbn [inf outf outf_errno]. now rewrite get_agi_env_eof.
Qed.

Lemma init_reads_the_block_witness :
  init (Conn [Line ("agi_request: agi://localhost/monitoring" ++ String Py.nl "");
              Line ("agi_arg_1: 42" ++ String Py.nl "");
              Line (String Py.nl "");
              Line "200 result=1"] [] None)
  = (Ok (Session (<["agi_arg_1" := "42"]>
                    (<["agi_request" := "agi://localhost/monitoring"]> ∅))
                 ["42"]),
     Conn [Line "200 result=1"] [] None).
Proof.
  refine (eq_trans
            (proj1 (init_reads_the_block
                      ["agi_request: agi://localhost/monitoring" ++ String Py.nl "";
                       "agi_arg_1: 42" ++ String Py.nl ""]
                      (String Py.nl "") [Line "200 result=1"] [] None eq_refl) eq_refl) _).
  reflexivity.
Defined.

(** *** One line of the environment *)

Definition no_colon (s : string) : bool :=
  all_chars (fun c => negb (Ascii.eqb c ":")) s.

Lemma split_colon_at key data :
  no_colon key = true -> split_colon (key ++ String ":" data) = (key, Some data).
Proof.
  unfold no_colon. induction key as [|c key IH]; intros Hk; [reflexivity|].
  cbn [all_chars] in Hk. apply andb_prop in Hk as [Hc Hk].
  apply negb_true_iff in Hc. rewrite append_cons. cbn [split_colon].
  now rewrite Hc, IH.
Qed.

Lemma split_colon_none s : no_colon s = true -> split_colon s = (s, None).
Proof.
  unfold no_colon. induction s as [|c s IH]; intros Hs; [reflexivity|].
  cbn [all_chars] in Hs. apply andb_prop in Hs as [Hc Hs].
  apply negb_true_iff in Hc. cbn [split_colon]. now rewrite Hc, IH.
Qed.

Lemma strip_key_data key data :
  Py.strip (key ++ String ":" data) = Py.lstrip key ++ String ":" (Py.rstrip data).
Proof.
  unfold Py.strip. rewrite lstrip_app by reflexivity.
  rewrite rstrip_app; rewrite rstrip_cons_keep by reflexivity; [reflexivity | discriminate].
Qed.

Lemma add_env_key_data (env : gmap string string) (key data : string) :
  no_colon key = true ->
  add_env env (Py.strip (key ++ String ":" data))
  = (if String.eqb (Py.strip key) "" then env
     else <[Py.strip key := Py.strip data]> env).
Proof.
  intros Hk. rewrite strip_key_data. unfold add_env.
  rewrite split_colon_at by (now apply all_chars_lstrip).
  cbn [fst snd]. now rewrite strip_lstrip, strip_rstrip.
Qed.

(** X3: a line [key: value] of the environment sets the key, stripped of
    blanks, to the value, stripped of blanks, whatever the key held
    before; a line with nothing but blanks before the colon changes
    nothing; a line without a colon sets the key to the empty string. *)
Theorem env_line_sets_key (env : gmap string string) (key data : string) :
  no_colon key = true ->
  add_env env (Py.strip (key ++ String ":" data))
  = (if String.eqb (Py.strip key) "" then env
     else <[Py.strip key := Py.strip data]> env)
  /\ (Py.strip key <> "" ->
      add_env env (Py.strip key) = <[Py.strip key := ""]> env).
Proof.
  intros Hk. split.
  - now apply add_env_key_data.
  - intros Hne. unfold add_env.
    rewrite split_colon_none
      by (unfold Py.strip; now apply all_chars_rstrip, all_chars_lstrip).
    cbn [fst snd]. rewrite strip_idem.
    apply String.eqb_neq in Hne. now rewrite Hne.
Qed.

Lemma env_line_sets_key_witness :
  add_env (<["agi_channel" := "old"]> ∅)
    (Py.strip ("agi_channel" ++ String ":" (" PJSIP/abc-0001" ++ String Py.nl "")))
  !! "agi_channel" = Some "PJSIP/abc-0001".
Proof.
  rewrite (proj1 (env_line_sets_key (<["agi_channel" := "old"]> ∅) "agi_channel"
                    (" PJSIP/abc-0001" ++ String Py.nl "") eq_refl)).
  reflexivity.
Defined.

End FastAGIInitFacts.

(** ** Reply lines, whatever they hold *)

Module ResultLineFacts.
Import FastAGI FastAGIFacts StringFacts ReFacts StripFacts.

Definition digits_of (line : string) : string := fst (span Py.is_digit line).

Definition response_of (line : string) : string :=
  fst (span not_nl (snd (span Py.is_space (snd (span Py.is_digit line))))).

(** The code is the number the digits in front of the stripped line
    spell; the response is what follows them and the blanks after
    them. *)
Lemma code_of_line l :
  code_of l
  = match Py.int (digits_of (Py.strip l)) with
    | Some code => Some (code, response_of (Py.strip l))
    | None => None
    end.
Proof. unfold code_of. rewrite search_re_code. reflexivity. Qed.

Definition no_int : exn := ValueError "invalid literal for int() with base 10: ''".

Lemma get_result_no_digits l rest out err :
  stops Py.is_digit (Py.strip l) = true ->
  get_result (Conn (Line l :: rest) out err) = (Raise no_int, Conn rest out err).
Proof.
  intros Hs. unfold get_result, bind, readline. cbn [inf outf outf_errno].
  rewrite search_re_code. cbn [Re.f_groups Re.group_or_empty Re.group Nat.eqb default].
  rewrite (span_stops _ _ Hs). reflexivity.
Qed.

Lemma get_result_eof out err :
  get_result (Conn [] out err) = (Raise no_int, Conn [] out err).
Proof. reflexivity. Qed.

(** X4: a reply line that does not start with a digit once its blanks
    are stripped makes [get_result] raise the ValueError of [int('')]:
    so does a blank line, and so does the end of the input, where
    [readline()] gives ['']; none of the conditions of the protocol is
    raised.  [execute] lets that ValueError through: on a connection the
    switch has closed, the command is written and ValueError comes
    out. *)
Theorem get_result_without_code (l : string) (rest : list rd) (out : list string)
    (err : option Z) (command : string) (args : list Py.pyval) :
  (stops Py.is_digit (Py.strip l) = true ->
   get_result (Conn (Line l :: rest) out err) = (Raise no_int, Conn rest out err))
  /\ get_result (Conn [] out err) = (Raise no_int, Conn [] out err)
  /\ fst (execute command args (Conn [] out None)) = Raise no_int.
Proof.
  split; [apply get_result_no_digits | split; [apply get_result_eof | reflexivity]].
Qed.

Lemma get_result_without_code_witness :
  get_result (Conn [Line ("Asterisk is shutting down" ++ String Py.nl "")] [] None)
  = (Raise no_int, Conn [] [] None).
Proof.
  exact (proj1 (get_result_without_code ("Asterisk is shutting down" ++ String Py.nl "")
                  [] [] None "NOOP" []) eq_refl).
Defined.

(** X5: a line whose code is 510 raises the invalid-command condition
    with, as detail, what follows the code and the blanks after it; one
    line is read. *)
Theorem get_result_invalid_command (l : string) (rest : list rd) (out : list string)
    (err : option Z) (digits blanks detail : string) :
  Py.strip l = digits ++ blanks ++ detail ->
  all_chars Py.is_digit digits = true -> Py.int digits = Some 510 ->
  all_chars Py.is_space blanks = true ->
  stops Py.is_digit (blanks ++ detail) = true ->
  stops Py.is_space detail = true ->
  all_chars not_nl detail = true ->
  get_result (Conn (Line l :: rest) out err)
  = (Raise (FastAGIInvalidCommand detail), Conn rest out err).
Proof.
  intros Hl Hd Hc Hb Hs1 Hs2 Hn.
  rewrite (get_result_unfold l rest out err 510 detail); [reflexivity|].
  rewrite code_of_line. unfold digits_of, response_of. rewrite Hl.
  rewrite (span_app _ digits (blanks ++ detail)) by assumption. cbn [fst snd].
  rewrite (span_app _ blanks detail) by assumption. cbn [fst snd].
  rewrite (span_all _ detail) by assumption. cbn [fst].
  now rewrite Hc.
Qed.

Lemma get_result_invalid_command_witness :
  get_result (Conn [Line ("510 Invalid or unknown command" ++ String Py.nl "")] [] None)
  = (Raise (FastAGIInvalidCommand "Invalid or unknown command"), Conn [] [] None).
Proof.
  apply (get_result_invalid_command _ [] [] None "510" " " "Invalid or unknown command");
    reflexivity.
Defined.

End ResultLineFacts.

(** ** Replies with a value, and the operations that read them *)

Module ReplyFacts.
Import FastAGI FastAGIFacts StringFacts ReFacts StripFacts ResultLineFacts.

Lemma all_chars_impl (p q : ascii -> bool) s :
  (forall c, p c = true -> q c = true) -> all_chars p s = true -> all_chars q s = true.
Proof.
  intros Hpq. induction s as [|c s IH]; [reflexivity|]. cbn [all_chars].
  intros H. apply andb_prop in H as [Hc Hs]. now rewrite (Hpq c Hc), IH.
Qed.

Lemma not_space_not_nl c : not_space c = true -> not_nl c = true.
Proof.
  unfold not_space, not_nl. destruct (Ascii.eqb_spec c Py.nl) as [->|]; [discriminate|].
  reflexivity.
Qed.

Lemma rstrip_not_space s : all_chars not_space s = true -> Py.rstrip s = s.
Proof.
  induction s as [|c s IH]; [reflexivity|]. cbn [all_chars]. intros H.
  apply andb_prop in H as [Hc Hs]. apply negb_true_iff in Hc.
  now rewrite rstrip_cons_keep, IH.
Qed.

(** The reply [200 result=r (v)] and the reply [200 result=r]. *)
Definition reply_data (r v : string) : string :=
  "200 result=" ++ r ++ " (" ++ v ++ ")".

Definition reply_plain (r : string) : string := "200 result=" ++ r.

Lemma strip_reply_data r v ws :
  all_chars Py.is_space ws = true ->
  Py.strip (reply_data r v ++ ws) = reply_data r v.
Proof.
  intros Hw. unfold reply_data.
  change ("200 result=" ++ r ++ " (" ++ v ++ ")")
    with (String "2" ("00 result=" ++ r ++ " (" ++ v ++ ")")).
  rewrite strip_blanks_after by (reflexivity || assumption).
  replace ("00 result=" ++ r ++ " (" ++ v ++ ")")
    with (("00 result=" ++ r ++ " (" ++ v) ++ ")")
    by (now rewrite !append_assoc).
  apply strip_kept; [reflexivity | reflexivity | discriminate].
Qed.

Lemma strip_reply_plain r0 r ws :
  all_chars not_space (String r0 r) = true -> all_chars Py.is_space ws = true ->
  Py.strip (reply_plain (String r0 r) ++ ws) = reply_plain (String r0 r).
Proof.
  intros Hr Hw. unfold reply_plain.
  change ("200 result=" ++ String r0 r) with (String "2" ("00 result=" ++ String r0 r)).
  rewrite strip_blanks_after by (reflexivity || assumption).
  apply strip_kept; [reflexivity | now apply rstrip_not_space | discriminate].
Qed.

(** What [get_result] reads off the two replies. *)
Lemma code_of_reply_data r0 r v ws :
  all_chars not_space (String r0 r) = true -> all_chars not_nl v = true ->
  all_chars Py.is_space ws = true ->
  code_of (reply_data (String r0 r) v ++ ws)
  = Some (200, "result=" ++ String r0 r ++ " (" ++ v ++ ")").
Proof.
  intros Hr Hv Hw. rewrite code_of_line, strip_reply_data by assumption.
  unfold digits_of, response_of, reply_data.
  rewrite (span_app _ "200" (" result=" ++ String r0 r ++ " (" ++ v ++ ")"))
    by reflexivity. cbn [fst snd].
  rewrite (span_app _ " " ("result=" ++ String r0 r ++ " (" ++ v ++ ")"))
    by reflexivity. cbn [fst snd].
  rewrite span_all; [reflexivity|].
  rewrite !all_chars_app, Hv, (all_chars_impl _ _ _ not_space_not_nl Hr). reflexivity.
Qed.

Lemma code_of_reply_plain r0 r ws :
  all_chars not_space (String r0 r) = true -> all_chars Py.is_space ws = true ->
  code_of (reply_plain (String r0 r) ++ ws) = Some (200, "result=" ++ String r0 r).
Proof.
  intros Hr Hw. rewrite code_of_line, strip_reply_plain by assumption.
  unfold digits_of, response_of, reply_plain.
  rewrite (span_app _ "200" (" result=" ++ String r0 r)) by reflexivity. cbn [fst snd].
  rewrite (span_app _ " " ("result=" ++ String r0 r)) by reflexivity. cbn [fst snd].
  rewrite span_all; [reflexivity|].
  rewrite !all_chars_app, (all_chars_impl _ _ _ not_space_not_nl Hr). reflexivity.
Qed.

Lemma get_result_reply_data r0 r v ws rest out err :
  all_chars not_space (String r0 r) = true -> all_chars not_nl v = true ->
  all_chars Py.is_space ws = true ->
  get_result (Conn (Line (reply_data (String r0 r) v ++ ws) :: rest) out err)
  = (scan_tokens [("result", String r0 r, v)] empty_result, Conn rest out err).
Proof.
  intros Hr Hv Hw.
  rewrite (get_result_unfold _ _ _ _ _ _ (code_of_reply_data r0 r v ws Hr Hv Hw)).
  cbn [Z.eqb Pos.eqb]. cbn [all_chars] in Hr. apply andb_prop in Hr as [Hr0 Hr].
  change ("result=" ++ String r0 r ++ " (" ++ v ++ ")")
    with (String "r" ("esult" ++ String "=" (String r0 (r ++ String " " (String "(" (v ++ ")")))))).
  now rewrite kv_tokens_data.
Qed.

Lemma get_result_reply_plain r0 r ws rest out err :
  all_chars not_space (String r0 r) = true ->
  all_chars Py.is_space ws = true ->
  get_result (Conn (Line (reply_plain (String r0 r) ++ ws) :: rest) out err)
  = (scan_tokens [("result", String r0 r, "")] empty_result, Conn rest out err).
Proof.
  intros Hr Hw.
  rewrite (get_result_unfold _ _ _ _ _ _ (code_of_reply_plain r0 r ws Hr Hw)).
  cbn [Z.eqb Pos.eqb]. cbn [all_chars] in Hr. apply andb_prop in Hr as [Hr0 Hr].
  change ("result=" ++ String r0 r)
    with (String "r" ("esult" ++ String "=" (String r0 r))).
  now rewrite kv_tokens_plain.
Qed.

End ReplyFacts.

(** ** The operations that read a reply *)

Module OpsFacts.
Import FastAGI FastAGIFacts FastAGIOps StringFacts ReFacts StripFacts ResultLineFacts ReplyFacts.

(** The line [send_command] writes. *)
Definition command_line (command : string) (args : list Py.pyval) : string :=
  Py.strip (Py.join " " (Py.strip command :: map Py.str args)) ++ String Py.nl "".

Lemma execute_on_reply command args lines out (o : outcome result) w' :
  get_result (Conn lines (out ++ [command_line command args]) None) = (o, w') ->
  is_broken_pipe o = false ->
  execute command args (Conn lines out None) = (o, w').
Proof.
  intros Hg Hb. rewrite execute_unfold. unfold bind, send_command, write_flush.
  cbn [inf outf outf_errno]. fold (command_line command args). rewrite Hg.
  unfold reclassify. destruct o as [a|e|]; try reflexivity.
  destruct e; try reflexivity. cbn in Hb. now rewrite Hb.
Qed.

Lemma scan_one r v :
  scan_tokens [("result", r, v)] empty_result
  = if String.eqb v "hangup" then
      Raise (FastAGIResultHangup "User hungup during execution")
    else if String.eqb r "-1" then
      Raise (FastAGIAppError "Error executing application, or hangup")
    else Ok (<["result" := (r, v)]> empty_result).
Proof. reflexivity. Qed.

(** The outcome of [execute] when the switch answers [200 result=r (v)]. *)
Lemma execute_reply_data command args r0 r v ws rest out :
  all_chars not_space (String r0 r) = true -> all_chars not_nl v = true ->
  all_chars Py.is_space ws = true ->
  execute command args (Conn (Line (reply_data (String r0 r) v ++ ws) :: rest) out None)
  = (scan_tokens [("result", String r0 r, v)] empty_result,
     Conn rest (out ++ [command_line command args]) None).
Proof.
  intros Hr Hv Hw. apply execute_on_reply.
  - now apply get_result_reply_data.
  - rewrite scan_one. destruct (String.eqb v "hangup"); [reflexivity|].
    destruct (String.eqb (String r0 r) "-1"); reflexivity.
Qed.

Lemma execute_reply_plain command args r0 r ws rest out :
  all_chars not_space (String r0 r) = true ->
  all_chars Py.is_space ws = true ->
  execute command args (Conn (Line (reply_plain (String r0 r) ++ ws) :: rest) out None)
  = (scan_tokens [("result", String r0 r, "")] empty_result,
     Conn rest (out ++ [command_line command args]) None).
Proof.
  intros Hr Hw. apply execute_on_reply.
  - now apply get_result_reply_plain.
  - rewrite scan_one. change (String.eqb "" "hangup") with false. cbv iota.
    destruct (String.eqb (String r0 r) "-1"); reflexivity.
Qed.

(** X6: [get_variable] returns what the switch puts in parentheses after
    [200 result=1], whatever it is, the word hangup included, blanks at
    the end of the line apart; for [200 result=0], the reply for a
    variable that is not set, it returns the empty string.  One line is
    read, one command written. *)
Theorem get_variable_reads_data (name v ws : string) (rest : list rd) (out : list string) :
  all_chars Py.is_space ws = true ->
  (all_chars not_nl v = true ->
   get_variable name (Conn (Line (reply_data "1" v ++ ws) :: rest) out None)
   = (Ok v, Conn rest (out ++ [command_line "GET VARIABLE" [Py.PStr (_quote (Py.PStr name))]])
               None))
  /\ get_variable name (Conn (Line (reply_plain "0" ++ ws) :: rest) out None)
     = (Ok "", Conn rest (out ++ [command_line "GET VARIABLE" [Py.PStr (_quote (Py.PStr name))]])
                 None).
Proof.
  intros Hw. split.
  - intros Hv. unfold get_variable, bind, try_except.
    rewrite (execute_reply_data _ _ "1" "" v ws rest out eq_refl Hv Hw), scan_one.
    destruct (String.eqb_spec v "hangup") as [->|Hne]; [reflexivity|].
    cbn [String.eqb Ascii.eqb Bool.eqb]. unfold result_data.
    now rewrite lookup_insert_eq.
  - unfold get_variable, bind, try_except.
    rewrite (execute_reply_plain _ _ "0" "" ws rest out eq_refl Hw), scan_one.
    cbn [String.eqb Ascii.eqb Bool.eqb]. unfold result_data.
    now rewrite lookup_insert_eq.
Qed.

Lemma get_variable_reads_data_witness :
  fst (get_variable "XIVO_DSTID"
         (Conn [Line (reply_data "1" "hello (world) x=1" ++ String Py.nl "")] [] None))
  = Ok "hello (world) x=1".
Proof.
  rewrite (proj1 (get_variable_reads_data "XIVO_DSTID" "hello (world) x=1"
                    (String Py.nl "") [] [] eq_refl) eq_refl).
  reflexivity.
Defined.

(** X7: [database_get] returns the value the switch puts in parentheses
    after [200 result=1], except when that value is the word hangup:
    then the result hangup is raised, and nothing tells the entry from a
    caller who hung up.  For [200 result=0] it raises FastAGIDBError. *)
Theorem database_get_reads_value (pformat : result -> string)
    (family key v ws : string) (rest : list rd) (out : list string) :
  all_chars Py.is_space ws = true ->
  let sent := command_line "DATABASE GET"
                [Py.PStr (_quote (Py.PStr family)); Py.PStr (_quote (Py.PStr key))] in
  (all_chars not_nl v = true -> v <> "hangup" ->
   database_get pformat family key (Conn (Line (reply_data "1" v ++ ws) :: rest) out None)
   = (Ok v, Conn rest (out ++ [sent]) None))
  /\ database_get pformat family key (Conn (Line (reply_data "1" "hangup" ++ ws) :: rest) out None)
     = (Raise (FastAGIResultHangup "User hungup during execution"),
        Conn rest (out ++ [sent]) None)
  /\ database_get pformat family key (Conn (Line (reply_plain "0" ++ ws) :: rest) out None)
     = (Raise (FastAGIDBError
                 ("Key not found in database: family=" ++ family ++ ", key=" ++ key)),
        Conn rest (out ++ [sent]) None).
Proof.
  intros Hw sent. split; [|split].
  - intros Hv Hne. unfold database_get, bind.
    rewrite (execute_reply_data _ _ "1" "" v ws rest out eq_refl Hv Hw), scan_one.
    apply String.eqb_neq in Hne. rewrite Hne.
    cbn [String.eqb Ascii.eqb Bool.eqb]. unfold result_pair.
    now rewrite lookup_insert_eq.
  - unfold database_get, bind.
    now rewrite (execute_reply_data _ _ "1" "" "hangup" ws rest out eq_refl eq_refl Hw).
  - unfold database_get, bind.
    rewrite (execute_reply_plain _ _ "0" "" ws rest out eq_refl Hw), scan_one.
    cbn [String.eqb Ascii.eqb Bool.eqb]. unfold result_pair.
    now rewrite lookup_insert_eq.
Qed.

Lemma database_get_reads_value_witness :
  fst (database_get (fun _ => "") "xivo" "dnd"
         (Conn [Line (reply_data "1" "enabled" ++ String Py.nl "")] [] None))
  = Ok "enabled".
Proof.
  rewrite (proj1 (database_get_reads_value (fun _ => "") "xivo" "dnd" "enabled"
                    (String Py.nl "") [] [] eq_refl)); [reflexivity | reflexivity | discriminate].
Defined.

(** *** The status of a channel *)

Lemma digit_not_space c : Py.is_digit c = true -> not_space c = true.
Proof. destruct c as [[] [] [] [] [] [] [] []]; try discriminate; reflexivity. Qed.

Lemma int_signed_digit d0 d : Py.is_digit d0 = true -> int_signed (String d0 d) = Py.int (String d0 d).
Proof. destruct d0 as [[] [] [] [] [] [] [] []]; try discriminate; reflexivity. Qed.

Lemma digit_not_minus d0 d : Py.is_digit d0 = true -> String.eqb (String d0 d) "-1" = false.
Proof. destruct d0 as [[] [] [] [] [] [] [] []]; try discriminate; reflexivity. Qed.

(** X8: [channel_status] returns the number of a reply [200 result=n];
    a reply [200 result=-1], which [execute] turns into an application
    error, gives -1; a hangup goes through: the result hangup of a reply
    with the data hangup, and the SIGPIPE hangup of a write on a broken
    pipe. *)
Theorem channel_status_outcomes (channel : string) (d0 : ascii) (d v ws : string) (n : Z)
    (rest : list rd) (out : list string) :
  all_chars Py.is_space ws = true ->
  let sent := command_line "CHANNEL STATUS" [Py.PStr channel] in
  (all_chars Py.is_digit (String d0 d) = true -> Py.int (String d0 d) = Some n ->
   channel_status channel (Conn (Line (reply_plain (String d0 d) ++ ws) :: rest) out None)
   = (Ok n, Conn rest (out ++ [sent]) None))
  /\ channel_status channel (Conn (Line (reply_plain "-1" ++ ws) :: rest) out None)
     = (Ok (-1), Conn rest (out ++ [sent]) None)
  /\ channel_status channel (Conn (Line (reply_data "1" "hangup" ++ ws) :: rest) out None)
     = (Raise (FastAGIResultHangup "User hungup during execution"),
        Conn rest (out ++ [sent]) None)
  /\ channel_status channel (Conn rest out (Some 32))
     = (Raise (FastAGISIGPIPEHangup "Received SIGPIPE"), Conn rest out (Some 32)).
Proof.
  intros Hw sent. split; [|split; [|split]].
  - intros Hd Hn. unfold channel_status, bind, try_except.
    rewrite (execute_reply_plain _ _ d0 d ws rest out
               (all_chars_impl _ _ _ digit_not_space Hd) Hw), scan_one.
    cbn [all_chars] in Hd. apply andb_prop in Hd as [Hd0 Hd].
    change (String.eqb "" "hangup") with false. cbv iota.
    rewrite (digit_not_minus d0 d Hd0). unfold result_value.
    rewrite lookup_insert_eq. unfold ret.
    now rewrite (int_signed_digit d0 d Hd0), Hn.
  - unfold channel_status, bind, try_except.
    now rewrite (execute_reply_plain _ _ "-" "1" ws rest out eq_refl Hw).
  - unfold channel_status, bind, try_except.
    now rewrite (execute_reply_data _ _ "1" "" "hangup" ws rest out eq_refl eq_refl Hw).
  - reflexivity.
Qed.

Lemma channel_status_outcomes_witness :
  fst (channel_status "" (Conn [Line (reply_plain "6" ++ String Py.nl "")] [] None)) = Ok 6.
Proof.
  rewrite (proj1 (channel_status_outcomes "" "6" "" "" (String Py.nl "") 6 [] [] eq_refl));
    reflexivity.
Defined.

(** *** The database of the switch, written *)

(** X9: [database_put] returns when the switch answers [200 result=r]
    with [r] other than 0 and -1.  When it answers 0 it raises
    FastAGIDBError, and the value in the text of the error is what the
    reply holds in parentheses, not the value that was to be stored: the
    name [value] is bound again when the result is unpacked. *)
Theorem database_put_reports_reply (family key value : string) (r0 : ascii)
    (r d ws : string) (rest : list rd) (out : list string) :
  all_chars Py.is_space ws = true ->
  let sent := command_line "DATABASE PUT"
                [Py.PStr (_quote (Py.PStr family)); Py.PStr (_quote (Py.PStr key));
                 Py.PStr (_quote (Py.PStr value))] in
  (all_chars not_space (String r0 r) = true ->
   String r0 r <> "0" -> String r0 r <> "-1" ->
   database_put family key value (Conn (Line (reply_plain (String r0 r) ++ ws) :: rest) out None)
   = (Ok tt, Conn rest (out ++ [sent]) None))
  /\ (all_chars not_nl d = true -> d <> "hangup" ->
      database_put family key value (Conn (Line (reply_data "0" d ++ ws) :: rest) out None)
      = (Raise (FastAGIDBError
                  ("Unable to put vaule in databale: family=" ++ family
                   ++ ", key=" ++ key ++ ", value=" ++ d)),
         Conn rest (out ++ [sent]) None))
  /\ database_put family key value (Conn (Line (reply_plain "0" ++ ws) :: rest) out None)
     = (Raise (FastAGIDBError
                 ("Unable to put vaule in databale: family=" ++ family
                  ++ ", key=" ++ key ++ ", value=")),
        Conn rest (out ++ [sent]) None).
Proof.
  intros Hw sent. split; [|split].
  - intros Hr H0 H1. unfold database_put, bind.
    rewrite (execute_reply_plain _ _ r0 r ws rest out Hr Hw), scan_one.
    change (String.eqb "" "hangup") with false. cbv iota.
    apply String.eqb_neq in H0, H1. rewrite H1. unfold result_pair.
    rewrite lookup_insert_eq. unfold ret. now rewrite H0.
  - intros Hd Hne. unfold database_put, bind.
    rewrite (execute_reply_data _ _ "0" "" d ws rest out eq_refl Hd Hw), scan_one.
    apply String.eqb_neq in Hne. rewrite Hne.
    cbn [String.eqb Ascii.eqb Bool.eqb]. unfold result_pair.
    now rewrite lookup_insert_eq.
  - unfold database_put, bind.
    rewrite (execute_reply_plain _ _ "0" "" ws rest out eq_refl Hw), scan_one.
    cbn [String.eqb Ascii.eqb Bool.eqb]. unfold result_pair.
    now rewrite lookup_insert_eq.
Qed.

Lemma database_put_reports_reply_witness :
  fst (database_put "xivo" "dnd" "enabled"
         (Conn [Line (reply_data "0" "busy" ++ String Py.nl "")] [] None))
  = Raise (FastAGIDBError "Unable to put vaule in databale: family=xivo, key=dnd, value=busy").
Proof.
  rewrite (proj1 (proj2 (database_put_reports_reply "xivo" "dnd" "enabled" "1" "" "busy"
                           (String Py.nl "") [] [] eq_refl)));
    [reflexivity | reflexivity | discriminate].
Defined.

(** *** An application of the dial plan *)

(** X10: [appexec] returns the result of the switch as it is written in
    the reply, a string; for the result -2 it raises FastAGIAppError with
    the name of the application, and for -1 the error is the one of
    [execute], which does not name it. *)
Theorem appexec_outcomes (application options : string) (r0 : ascii) (r ws : string)
    (rest : list rd) (out : list string) :
  all_chars Py.is_space ws = true ->
  let sent := command_line "EXEC"
                [Py.PStr application; Py.PStr (_quote (Py.PStr options))] in
  (all_chars not_space (String r0 r) = true ->
   String r0 r <> "-1" -> String r0 r <> "-2" ->
   appexec application options (Conn (Line (reply_plain (String r0 r) ++ ws) :: rest) out None)
   = (Ok (String r0 r), Conn rest (out ++ [sent]) None))
  /\ appexec application options (Conn (Line (reply_plain "-2" ++ ws) :: rest) out None)
     = (Raise (FastAGIAppError ("Unable to find application: " ++ application)),
        Conn rest (out ++ [sent]) None)
  /\ appexec application options (Conn (Line (reply_plain "-1" ++ ws) :: rest) out None)
     = (Raise (FastAGIAppError "Error executing application, or hangup"),
        Conn rest (out ++ [sent]) None).
Proof.
  intros Hw sent. split; [|split].
  - intros Hr H1 H2. unfold appexec, bind.
    rewrite (execute_reply_plain _ _ r0 r ws rest out Hr Hw), scan_one.
    change (String.eqb "" "hangup") with false. cbv iota.
    apply String.eqb_neq in H1, H2. rewrite H1. unfold result_value.
    rewrite lookup_insert_eq. unfold ret. now rewrite H2.
  - unfold appexec, bind.
    rewrite (execute_reply_plain _ _ "-" "2" ws rest out eq_refl Hw), scan_one.
    cbn [String.eqb Ascii.eqb Bool.eqb]. unfold result_value.
    now rewrite lookup_insert_eq.
  - unfold appexec, bind.
    now rewrite (execute_reply_plain _ _ "-" "1" ws rest out eq_refl Hw).
Qed.

Lemma appexec_outcomes_witness :
  fst (appexec "Playback" "beep"
         (Conn [Line (reply_plain "0" ++ String Py.nl "")] [] None))
  = Ok "0".
Proof.
  rewrite (proj1 (appexec_outcomes "Playback" "beep" "0" "" (String Py.nl "") [] [] eq_refl));
    [reflexivity | reflexivity | discriminate | discriminate].
Defined.

End OpsFacts.

(** ** What goes on the wire *)

Module WireFacts.
Import FastAGI FastAGIFacts QuoteFacts StringFacts ReFacts StripFacts OpsFacts.

(** The text [_quote] works on. *)
Definition text_of (v : Py.pyval) : string :=
  match v with
  | Py.PNone => ""
  | _ => Py.str v
  end.

Lemma quote_form v : _quote v = String Py.dquote (escape (text_of v) ++ String Py.dquote "").
Proof. unfold _quote. fold (text_of v). now rewrite replaces_escape. Qed.

Lemma escape_char_no_nl c : all_chars not_nl (escape_char c) = true.
Proof. destruct c as [[] [] [] [] [] [] [] []]; reflexivity. Qed.

Lemma escape_no_nl s : all_chars not_nl (escape s) = true.
Proof.
  induction s as [|c s IH]; [reflexivity|].
  cbn [escape]. now rewrite all_chars_app, escape_char_no_nl, IH.
Qed.

Lemma quote_no_nl v : all_chars not_nl (_quote v) = true.
Proof.
  rewrite quote_form. cbn [all_chars]. rewrite all_chars_app, escape_no_nl. reflexivity.
Qed.

Lemma strip_up_to_quote c s v :
  Py.is_space c = false ->
  Py.strip (String c (s ++ _quote v)) = String c (s ++ _quote v).
Proof.
  intros Hc. rewrite quote_form.
  replace (s ++ String Py.dquote (escape (text_of v) ++ String Py.dquote ""))
    with ((s ++ String Py.dquote (escape (text_of v))) ++ String Py.dquote "")
    by (now rewrite append_assoc, append_cons).
  now apply strip_framed.
Qed.

(** [get_result] reads and never writes. *)
Lemma get_result_keeps_outf w :
  outf (snd (get_result w)) = outf w /\ outf_errno (snd (get_result w)) = outf_errno w.
Proof.
  unfold get_result, bind, readline.
  destruct (inf w) as [|[l|e] rest]; cbn [inf outf outf_errno snd].
  - destruct (Re.search re_code (Py.strip "")) as [m|]; [|now split].
    destruct (Py.int _) as [code|]; [|now split].
    destruct (code =? 200); [now split|].
    destruct (code =? 510); [now split|].
    destruct (code =? 520); [|now split].
    unfold raise. destruct (read_usage _ (inf w)) as [[u|e|] r]; now split.
  - destruct (Re.search re_code (Py.strip l)) as [m|]; [|now split].
    destruct (Py.int _) as [code|]; [|now split].
    destruct (code =? 200); [now split|].
    destruct (code =? 510); [now split|].
    destruct (code =? 520); [|now split].
    unfold raise. cbn [inf outf outf_errno].
    destruct (read_usage _ rest) as [[u|e|] r]; now split.
  - now split.
Qed.

(** [execute] writes its command, once, whatever it reads. *)
Lemma execute_writes command args lines out :
  outf (snd (execute command args (Conn lines out None)))
  = (out ++ [command_line command args])%list.
Proof.
  rewrite execute_unfold. unfold bind, send_command, write_flush.
  cbn [inf outf outf_errno]. fold (command_line command args).
  set (w := Conn lines _ None).
  destruct (get_result_keeps_outf w) as [Ho _].
  destruct (get_result w) as [[a|e|] w']; cbn [snd] in *; unfold reclassify;
    try exact Ho.
  destruct e; try exact Ho. destruct (errno =? 32); exact Ho.
Qed.

(** X11: whatever the name and the value hold, newlines and quotes
    included, and whatever the switch answers, [set_variable] writes one
    line and [get_variable] writes one line: the verb and the quoted
    arguments with one blank between them, nothing removed by the strip
    of [send_command], and no newline before the one that ends the
    line. *)
Theorem variable_commands_are_one_line (name : string) (value : Py.pyval)
    (lines : list rd) (out : list string) :
  let set_line := "SET VARIABLE " ++ _quote (Py.PStr name) ++ " " ++ _quote value in
  let get_line := "GET VARIABLE " ++ _quote (Py.PStr name) in
  outf (snd (set_variable name value (Conn lines out None)))
  = (out ++ [(set_line ++ String Py.nl "")%string])%list
  /\ outf (snd (get_variable name (Conn lines out None)))
     = (out ++ [(get_line ++ String Py.nl "")%string])%list
  /\ all_chars not_nl set_line = true
  /\ all_chars not_nl get_line = true.
Proof.
  intros set_line get_line. split; [|split; [|split]].
  - unfold set_variable, bind.
    pose proof (execute_writes "SET VARIABLE"
                  [Py.PStr (_quote (Py.PStr name)); Py.PStr (_quote value)] lines out) as He.
    assert (Hl : command_line "SET VARIABLE"
                   [Py.PStr (_quote (Py.PStr name)); Py.PStr (_quote value)]
                 = set_line ++ String Py.nl "").
    { unfold command_line, set_line. cbn [map Py.join Py.str].
      change (Py.strip "SET VARIABLE") with "SET VARIABLE".
      change ("SET VARIABLE" ++ " " ++ _quote (Py.PStr name) ++ " " ++ _quote value)
        with (String "S" ("ET VARIABLE " ++ _quote (Py.PStr name) ++ " " ++ _quote value)).
      rewrite <- (append_assoc (_quote (Py.PStr name)) " " (_quote value)).
      rewrite <- (append_assoc "ET VARIABLE " (_quote (Py.PStr name) ++ " ") (_quote value)).
      rewrite strip_up_to_quote by reflexivity.
      apply (f_equal (fun x => x ++ String Py.nl "")).
      now rewrite !append_assoc. }
    rewrite Hl in He.
    destruct (execute _ _ _) as [[a|e|] w']; exact He.
  - unfold get_variable, bind, try_except.
    pose proof (execute_writes "GET VARIABLE" [Py.PStr (_quote (Py.PStr name))] lines out) as He.
    assert (Hl : command_line "GET VARIABLE" [Py.PStr (_quote (Py.PStr name))]
                 = get_line ++ String Py.nl "").
    { unfold command_line, get_line. cbn [map Py.join Py.str].
      change (Py.strip "GET VARIABLE") with "GET VARIABLE".
      change ("GET VARIABLE" ++ " " ++ _quote (Py.PStr name))
        with (String "G" ("ET VARIABLE " ++ _quote (Py.PStr name))).
      now rewrite strip_up_to_quote by reflexivity. }
    rewrite Hl in He.
    destruct (execute _ _ _) as [[a|e|] w']; cbn [snd] in *.
    + unfold result_data. destruct (a !! "result") as [[? ?]|]; exact He.
    + destruct e; exact He.
    + exact He.
  - subst set_line. rewrite !all_chars_app, !quote_no_nl. reflexivity.
  - subst get_line. rewrite !all_chars_app, !quote_no_nl. reflexivity.
Qed.

End WireFacts.

(** ** Which groups a match sets *)

Module GroupFacts.
Import Re ReFacts.

(** Every match of [r] sets a group whose number satisfies [P]. *)
Fixpoint sets (P : nat -> bool) (r : regex) : bool :=
  match r with
  | Group n a => P n || sets P a
  | Seq a b => sets P a || sets P b
  | Alt a b => sets P a && sets P b
  | _ => false
  end.

(** The captures hold a group whose number satisfies [P]. *)
Definition holds (P : nat -> bool) (c : captures) : bool :=
  existsb (fun g => P (fst g)) c.

(** A match that succeeds has called its continuation, with the groups it
    had and those it has set. *)
Lemma run_sets {A} (P : nat -> bool) (r : regex) :
  forall pos s c (k : nat -> string -> captures -> option A) x,
    run r pos s c k = Some x ->
    exists pos' s' c',
      k pos' s' c' = Some x
      /\ (holds P c || sets P r = true -> holds P c' = true).
Proof.
  induction r as [|p|a IHa b IHb|a IHa b IHb|a IHa|n a IHa| |]; intros pos s c k x Hr.
  - exists pos, s, c. split; [exact Hr|]. cbn [sets]. now rewrite orb_false_r.
  - rewrite run_chr in Hr. destruct s as [|ch s]; [discriminate|].
    destruct (p ch); [|discriminate].
    exists (S pos), s, c. split; [exact Hr|]. cbn [sets]. now rewrite orb_false_r.
  - rewrite run_seq in Hr.
    apply IHa in Hr as (pos1 & s1 & c1 & Hb & H1).
    apply IHb in Hb as (pos2 & s2 & c2 & Hk & H2).
    exists pos2, s2, c2. split; [exact Hk|]. cbn [sets]. intros H.
    apply H2. apply orb_true_iff.
    apply orb_true_iff in H as [H|H].
    + left. apply H1. now rewrite H.
    + apply orb_true_iff in H as [H|H].
      * left. apply H1. rewrite H. apply orb_true_r.
      * now right.
  - rewrite run_alt in Hr. cbn [sets].
    destruct (run a pos s c k) as [y|] eqn:Ha.
    + rewrite Hr in Ha. apply IHa in Ha as (pos1 & s1 & c1 & Hk & H1).
      exists pos1, s1, c1. split; [exact Hk|]. intros H. apply H1.
      apply orb_true_iff in H as [H|H]; [now rewrite H|].
      apply andb_prop in H as [H _]. rewrite H. apply orb_true_r.
    + apply IHb in Hr as (pos1 & s1 & c1 & Hk & H1).
      exists pos1, s1, c1. split; [exact Hk|]. intros H. apply H1.
      apply orb_true_iff in H as [H|H]; [now rewrite H|].
      apply andb_prop in H as [_ H]. rewrite H. apply orb_true_r.
  - rewrite run_star in Hr. cbn [sets]. revert Hr.
    generalize (S (String.length s)) as fuel. intros fuel. revert pos s c.
    induction fuel as [|fuel IHf]; intros pos s c Hr.
    + exists pos, s, c. split; [exact Hr|]. now rewrite orb_false_r.
    + cbn [star_fuel] in Hr.
      destruct (run a pos s c _) as [y|] eqn:Ha.
      * rewrite Hr in Ha. apply IHa in Ha as (pos1 & s1 & c1 & Hk & H1).
        destruct (pos <? pos1)%nat; [|discriminate].
        apply IHf in Hk as (pos2 & s2 & c2 & Hk & H2).
        exists pos2, s2, c2. split; [exact Hk|]. intros H.
        apply H2. rewrite orb_false_r in H |- *.
        apply H1. now rewrite H.
      * exists pos, s, c. split; [exact Hr|]. now rewrite orb_false_r.
  - rewrite run_group in Hr.
    apply IHa in Hr as (pos1 & s1 & c1 & Hk & H1).
    exists pos1, s1, ((n, substring 0 (pos1 - pos) s) :: c1). split; [exact Hk|].
    cbn [sets holds existsb fst]. intros H.
    apply orb_true_iff in H as [H|H].
    + fold (holds P c1). rewrite H1 by (now rewrite H). apply orb_true_r.
    + apply orb_true_iff in H as [H|H]; [now rewrite H|].
      fold (holds P c1). rewrite H1 by (rewrite H; apply orb_true_r). apply orb_true_r.
  - cbn [run] in Hr. destruct (pos =? 0)%nat; [|discriminate].
    exists pos, s, c. split; [exact Hr|]. cbn [sets]. now rewrite orb_false_r.
  - cbn [run] in Hr. cbn [sets].
    destruct s as [|ch [|ch' s]]; try discriminate.
    + exists pos, "", c. split; [exact Hr|]. now rewrite orb_false_r.
    + destruct (Ascii.eqb ch Py.nl); [|discriminate].
      exists pos, (String ch ""), c. split; [exact Hr|]. now rewrite orb_false_r.
Qed.

Lemma match_sets (P : nat -> bool) (r : regex) s m :
  sets P r = true -> match_ r s = Some m -> holds P (f_groups m) = true.
Proof.
  intros Hs Hm. unfold match_, match_at in Hm.
  apply (run_sets P) in Hm as (pos & s' & c & [= <-] & H).
  apply H. rewrite Hs. apply orb_true_r.
Qed.

Lemma holds_group (P : nat -> bool) c :
  holds P c = true -> exists n v, P n = true /\ group n c = Some v.
Proof.
  induction c as [|[m v] c IH]; [discriminate|].
  cbn [holds existsb fst]. intros H. apply orb_true_iff in H as [H|H].
  - exists m, v. split; [exact H|]. cbn [group]. now rewrite Nat.eqb_refl.
  - destruct (IH H) as (n & w & Hn & Hg).
    exists n. cbn [group]. destruct (m =? n)%nat; eauto.
Qed.

End GroupFacts.

(** ** The caller-ID object, built and applied *)

Module CallerIDObjectFacts.
Import Re CallerIDGrammar CallerID Channel GroupFacts.

Definition name_group (n : nat) : bool := (n =? 1)%nat || (n =? 2)%nat.

(** A display string that matches has a name, quoted or not. *)
Lemma parse_names callerid name num :
  parse callerid = Some (name, num) -> exists n, name = Some n.
Proof.
  unfold parse, CallerIDParse.parse.
  destruct (CALLERID_MATCHER callerid) as [m|] eqn:Hm; [|discriminate].
  apply (match_sets name_group) in Hm; [|reflexivity].
  apply holds_group in Hm as (n & v & Hn & Hg).
  destruct (group 1 (f_groups m)) as [n1|] eqn:H1.
  - intros [= <- _]. eauto.
  - assert (H2 : group 2 (f_groups m) = Some v).
    { unfold name_group in Hn. apply orb_true_iff in Hn as [Hn|Hn];
        apply Nat.eqb_eq in Hn; subst n; congruence. }
    rewrite H2.
    destruct (group 3 (f_groups m)); [intros [= <- _]; eauto|].
    destruct (CALLERIDNUM_MATCHER v); intros [= <- _]; eauto.
Qed.

(** X12: building a [CallerID] returns, or raises the UnicodeDecodeError
    of [encode] on a name that holds a byte from 128 on, at the place of
    the first such byte, and nothing else: a display string that matches
    always has a name, so [encode] is never called on [None].  An object
    that has a mode has a name, and the name has no such byte. *)
Theorem callerid_init_raises_only_on_encode (c : DB.cursor) (xtype : string)
    (typeval : Z) :
  match init c xtype typeval with
  | Ok self =>
      mode self <> None ->
      exists n, calleridname self = Some n /\ PyText.first_non_ascii n = None
  | Raise e =>
      exists res name num i,
        fetch c xtype typeval = Some res
        /\ parse (DB.cid_callerdisplay res) = Some (Some name, num)
        /\ PyText.first_non_ascii name = Some i
        /\ e = UnicodeDecodeError "ascii" name i (S i) "ordinal not in range(128)"
  | Loops => False
  end.
Proof.
  unfold init. destruct (fetch c xtype typeval) as [res|].
  - destruct (parse (DB.cid_callerdisplay res)) as [[name num]|] eqn:Hp.
    + destruct (parse_names _ _ _ Hp) as [n ->].
      unfold PyText.encode_utf8.
      destruct (PyText.first_non_ascii n) as [i|] eqn:Hi.
      * now exists res, n, num, i.
      * cbn. intros _. now exists n.
    + cbn. congruence.
  - cbn. congruence.
Qed.

(** X13: [CallerID.set] on a display string that does not match writes
    nothing and returns [None]; on one that matches it writes one
    variable and returns [True]: CALLERID(name) with the name when there
    is no number, else CALLERID(all) with the name between quotes and
    the number between angle brackets.  The name is never missing. *)
Theorem set_writes_one_variable (callerid : string) (ch : channel) :
  (parse callerid = None -> set callerid ch = (Ok None, ch))
  /\ (forall name num, parse callerid = Some (name, num) ->
      exists n,
        name = Some n
        /\ set callerid ch
           = let '(var, value) :=
               match num with
               | None => ("CALLERID(name)", n)
               | Some d => ("CALLERID(all)", format_all (Py.PStr n) (Py.PStr d))
               end in
             (Ok (Some true),
              Chan (<[var := value]> (vars ch)) (served ch ++ [SetVariable var value]))).
Proof.
  split.
  - intros Hp. unfold set. now rewrite Hp.
  - intros name num Hp. destruct (parse_names _ _ _ Hp) as [n ->].
    exists n. split; [reflexivity|]. unfold set. rewrite Hp.
    destruct num as [d|]; reflexivity.
Qed.

Lemma set_writes_one_variable_witness :
  served (snd (set "1001 <+15551234>" (Chan ∅ [])))
  = [SetVariable "CALLERID(all)"
       (format_all (Py.PStr "1001") (Py.PStr "+15551234"))].
Proof.
  destruct (proj2 (set_writes_one_variable "1001 <+15551234>" (Chan ∅ []))
              (Some "1001") (Some "+15551234") eq_refl) as (n & Hn & ->).
  injection Hn as <-. reflexivity.
Defined.

End CallerIDObjectFacts.

(** ** A queue and an incoming call, on a call leg *)

Module QueueFacts.
Import DB Channel DialActionFacts.

(** The four requests [DialAction.set_variables] makes for an event of a
    category that is marked. *)
Definition emitted (c : cursor) (event category : string) (categoryval : Z) : list call :=
  let self := DialAction.init c event category categoryval in
  let x := "XIVO_FWD_" ++ Py.upper (category ++ "_" ++ event) in
  [SetVariable (x ++ "_ACTION") (DialAction.action self);
   SetVariable (x ++ "_ISDA") "1";
   SetVariable (x ++ "_ACTIONARG1")
     (Py.replace "|" ";" (default "" (DialAction.actionarg1 self)));
   SetVariable (x ++ "_ACTIONARG2") (default "" (DialAction.actionarg2 self))].

(** What a list of [set_variable] requests leaves in the variables. *)
Definition apply_calls (l : list call) (m : gmap string string) : gmap string string :=
  fold_left (fun m c => match c with
                        | SetVariable n v => <[n := v]> m
                        | GetVariable _ => m
                        end) l m.

Lemma apply_calls_app l1 l2 m :
  apply_calls (l1 ++ l2) m = apply_calls l2 (apply_calls l1 m).
Proof. apply fold_left_app. Qed.

Lemma set_variables_marked c event category categoryval ch :
  existsb (String.eqb category) DialAction.category_no_isda = false ->
  DialAction.set_variables (DialAction.init c event category categoryval) ch
  = (Ok tt, Chan (apply_calls (emitted c event category categoryval) (vars ch))
                 (served ch ++ emitted c event category categoryval)).
Proof.
  intros Hin.
  assert (Hcat : DialAction.category (DialAction.init c event category categoryval) = category
                 /\ DialAction.event (DialAction.init c event category categoryval) = event).
  { unfold DialAction.init. destruct (DialAction.fetch _ _ _ _); split; reflexivity. }
  destruct Hcat as [Hcat Hev].
  unfold DialAction.set_variables, DialAction.set_agi_variables, bind.
  rewrite Hcat, Hev, Hin. rewrite truthy_replace, truthy_default.
  unfold agi_set_variable, Channel_Agi, Channel.set_variable, ret, emitted, apply_calls.
  cbn [negb vars served Py.str fold_left]. rewrite <- !app_assoc. reflexivity.
Qed.

Definition queue_events : list string :=
  ["congestion"; "busy"; "chanunavail"; "qwaittime"; "qwaitratio"; "noanswer"].

Definition reroute (c : cursor) (id : Z) : list call :=
  let action := DialAction.action (DialAction.init c "noanswer" "queue" id) in
  if String.eqb action "voicemail" || String.eqb action "sound"
  then [SetVariable "XIVO_QUEUELOG_EVENT" "REROUTEGUIDE"]
  else [].

(** X14: [Queue.set_dial_actions] makes four requests for each of the
    six events congestion, busy, chanunavail, qwaittime, qwaitratio and
    noanswer, in that order, the marker _ISDA among them whatever the
    action is, and then sets XIVO_QUEUELOG_EVENT to REROUTEGUIDE when the
    action on no answer is voicemail or sound, and only then: 24 requests
    or 25, and no variable read. *)
Theorem queue_set_dial_actions_requests (c : cursor) (self : Queue.t) (ch : channel) :
  let requests :=
    (flat_map (fun event => emitted c event "queue" (Queue.id self)) queue_events
     ++ reroute c (Queue.id self))%list in
  Queue.set_dial_actions c self ch
  = (Ok tt, Chan (apply_calls requests (vars ch)) (served ch ++ requests))
  /\ length requests
     = (24 + length (reroute c (Queue.id self)))%nat
  /\ (length (reroute c (Queue.id self)) <= 1)%nat.
Proof.
  intros requests. split; [|split].
  - unfold Queue.set_dial_actions. cbn [for_each]. unfold bind at 1.
    unfold bind at 1. rewrite set_variables_marked by reflexivity.
    do 4 (unfold bind at 1; rewrite set_variables_marked by reflexivity).
    unfold ret at 1. unfold bind at 1. rewrite set_variables_marked by reflexivity.
    cbn [vars served]. subst requests. unfold reroute, queue_events.
    cbn [existsb flat_map]. rewrite orb_false_r, app_nil_r.
    rewrite !apply_calls_app, !app_assoc.
    destruct (_ || _); rewrite ?app_nil_r; reflexivity.
  - subst requests. rewrite length_app. reflexivity.
  - unfold reroute. destruct (_ || _); cbn; lia.
Qed.

End QueueFacts.

Module RewriteCidFacts.
Import DB Channel CallerID CallerIDFacts.

Lemma rewrite_no_mode (self : CallerID.t) (force_rewrite : bool) (ch : channel) :
  Py.truthy (mode self) = false -> rewrite self force_rewrite ch = (Ok tt, ch).
Proof. intros Hm. unfold rewrite. now rewrite Hm. Qed.

Lemma forced_keeps_marker name num (m : gmap string string) :
  default "" (written name num true m !! marker) = default "" (m !! marker).
Proof.
  unfold written, marker. now rewrite !lookup_insert_ne by discriminate.
Qed.

(** X15: the rewrite of an incoming call is forced: it leaves the marker
    XIVO_CID_REWRITTEN as it finds it, whatever it does.  So on a call leg
    where the marker is not set, the rewrite of a queue that comes after
    the one of the incoming call is not held back: it writes the caller ID
    by its own rule and sets the marker. *)
Theorem did_rewrite_leaves_queue_rewrite (c : cursor) (did : DID.t) (queue : Queue.t)
    (ch : channel) (o : outcome unit) (ch1 : channel) :
  DID.rewrite_cid c did ch = (o, ch1) ->
  read marker ch1 = read marker ch
  /\ (read marker ch = "" ->
      forall rule name,
        init c "queue" (Queue.id queue) = Ok rule ->
        Py.truthy (mode rule) = true ->
        combine rule (name_of rule ch1) (number_of rule ch1) = Ok name ->
        Queue.rewrite_cid c queue ch1
        = (Ok tt,
           Chan (written name (number_of rule ch1) false (vars ch1))
                (served ch1 ++ reads ++ writes name (number_of rule ch1) false))).
Proof.
  intros Hd.
  assert (Hm : read marker ch1 = read marker ch).
  { unfold DID.rewrite_cid, bind, lift in Hd.
    destruct (init c "incall" (DID.id did)) as [rule|e|]; try (injection Hd as _ <-; reflexivity).
    destruct (Py.truthy (mode rule)) eqn:Ht.
    - rewrite rewrite_channel in Hd by exact Ht. cbn [orb] in Hd.
      destruct (combine rule _ _) as [name|e|]; injection Hd as _ <-; try reflexivity.
      unfold read. cbn [vars]. apply forced_keeps_marker.
    - rewrite rewrite_no_mode in Hd by exact Ht. injection Hd as _ <-. reflexivity. }
  split; [exact Hm|].
  intros Hu rule name Hi Ht Hc.
  unfold Queue.rewrite_cid, bind, lift. rewrite Hi.
  rewrite rewrite_channel by exact Ht. rewrite Hm, Hu, Hc. reflexivity.
Qed.

Definition sample_rules : cursor :=
  Cursor []
    [ {| cid_type := "incall"; cid_typeval := 3; cid_mode := Some "prepend";
         cid_callerdisplay := "Sales" |};
      {| cid_type := "queue"; cid_typeval := 8; cid_mode := Some "append";
         cid_callerdisplay := "Q8" |} ]
    [] [] [] [] [] [] 0.

Definition sample_incoming_leg : channel :=
  Chan (<["CALLERID(num)" := "5551234"]> (<["CALLERID(name)" := "Ann"]> ∅)) [].

Lemma did_rewrite_leaves_queue_rewrite_witness :
  let ch1 := snd (DID.rewrite_cid sample_rules (DID.Build 3) sample_incoming_leg) in
  read marker ch1 = ""
  /\ read marker (snd (Queue.rewrite_cid sample_rules (Queue.Build 8) ch1)) = "1".
Proof.
  intros ch1.
  pose proof (did_rewrite_leaves_queue_rewrite sample_rules (DID.Build 3) (Queue.Build 8)
                sample_incoming_leg (Ok tt) ch1 eq_refl) as [Hm Hq].
  split; [exact Hm|].
  rewrite (Hq eq_refl (CallerID.Build (Some "append") (Some "Q8") None) "Ann - Q8"
              eq_refl eq_refl eq_refl).
  reflexivity.
Defined.

(** X23: a rule whose mode is none of prepend, append and overwrite
    makes [rewrite] raise RuntimeError, with the [repr] of the mode at
    the end of its text, once it has read the marker, the name and the
    number, and before it writes anything: the caller ID and the marker
    are as they were. *)
Theorem rewrite_unknown_mode_writes_nothing (self : CallerID.t) (force_rewrite : bool)
    (ch : channel) (m : string) :
  mode self = Some m ->
  m <> "" -> m <> "prepend" -> m <> "append" -> m <> "overwrite" ->
  force_rewrite = true \/ read marker ch = "" ->
  rewrite self force_rewrite ch
  = (Raise (RuntimeError ("Unknown callerid mode: " ++ PyText.repr m)),
     Chan (vars ch) (served ch ++ reads)).
Proof.
  intros Hm Hne Hp Ha Ho Hallowed.
  assert (Ht : Py.truthy (mode self) = true).
  { rewrite Hm. cbn [Py.truthy]. apply negb_true_iff. now apply String.eqb_neq. }
  rewrite rewrite_channel by exact Ht.
  assert (Hgo : force_rewrite || String.eqb (read marker ch) "" = true).
  { destruct Hallowed as [-> | ->]; [reflexivity | apply orb_true_r]. }
  rewrite Hgo.
  assert (Hc : forall name num,
            combine self name num
            = Raise (RuntimeError ("Unknown callerid mode: " ++ PyText.repr m))).
  { intros name num. unfold combine. rewrite Hm.
    rewrite (bool_decide_eq_false_2 (Some m = Some "prepend")) by congruence.
    rewrite (bool_decide_eq_false_2 (Some m = Some "append")) by congruence.
    rewrite (bool_decide_eq_false_2 (Some m = Some "overwrite")) by congruence.
    reflexivity. }
  now rewrite Hc.
Qed.

Lemma rewrite_unknown_mode_writes_nothing_witness :
  rewrite (CallerID.Build (Some "replace") (Some "Sales") None) true sample_incoming_leg
  = (Raise (RuntimeError "Unknown callerid mode: 'replace'"),
     Chan (vars sample_incoming_leg) (served sample_incoming_leg ++ reads)).
Proof.
  apply (rewrite_unknown_mode_writes_nothing _ true sample_incoming_leg "replace");
    [reflexivity | discriminate | discriminate | discriminate | discriminate | now left].
Defined.

End RewriteCidFacts.

(** ** The diversion of a queue, on a call leg *)

Module CheckDiversionFacts.
Import Channel CheckDiversion.

Section WithQueue.
Variable ratio : Type.
Variable exceeds : Z -> Z -> ratio -> bool.
Variable find_queue : Z -> queue ratio + string.

(** The variable that counts the calls waiting in a queue, and the one
    that counts its agents logged in. *)
Definition waiting_count (q : queue ratio) : string :=
  "QUEUE_WAITING_COUNT(" ++ name ratio q ++ ")".

Definition logged_members (q : queue ratio) : string :=
  "QUEUE_MEMBER(" ++ name ratio q ++ ",logged)".

(** The call leg after the variables [asked] have been read and the
    diversion set. *)
Definition diverted (ch : channel) (asked : list string) (event dialaction : string)
    : outcome unit * channel :=
  (Ok tt,
   Chan (<["XIVO_FWD_TYPE" := "QUEUE_" ++ dialaction]>
           (<["XIVO_DIVERT_EVENT" := event]> (vars ch)))
        (served ch ++ map GetVariable asked
         ++ [SetVariable "XIVO_DIVERT_EVENT" event;
             SetVariable "XIVO_FWD_TYPE" ("QUEUE_" ++ dialaction)])).

(** The call leg after the variables [asked] have been read and [e]
    raised. *)
Definition broken (ch : channel) (asked : list string) (e : exn) : outcome unit * channel :=
  (Raise e, Chan (vars ch) (served ch ++ map GetVariable asked)).

Lemma int_variable_channel variable ch :
  int_variable variable ch
  = match py_int (read variable ch) with
    | Some n => (Ok n, Chan (vars ch) (served ch ++ [GetVariable variable]))
    | None => (Raise (FastAGIOps.int_error (read variable ch)),
               Chan (vars ch) (served ch ++ [GetVariable variable]))
    end.
Proof.
  unfold int_variable, bind, agi_get_variable, Channel_Agi, Channel.get_variable.
  destruct (py_int (read variable ch)); reflexivity.
Qed.

Lemma read_after_get variable ch l :
  read variable (Chan (vars ch) l) = read variable ch.
Proof. reflexivity. Qed.

(** X16: with the queue found and [w] calls waiting, [check_diversion]
    sets the two variables of the diversion, once each.  With no call
    waiting the diversion is cleared and neither the hold time nor the
    agents are asked for.  With calls waiting and a hold time above the
    wait time of the queue the event is DIVERT_HOLDTIME, and the agents
    are not asked for: the hold time comes first.  With calls waiting, no
    wait time, a wait ratio and no agent logged in the event is
    DIVERT_CA_RATIO, and no ratio is computed. *)
Theorem check_diversion_decides (ch : channel) (q : queue ratio) (xid w : Z) :
  py_int (read "XIVO_DSTID" ch) = Some xid ->
  find_queue xid = inl q ->
  py_int (read (waiting_count q) ch) = Some w ->
  (w = 0 ->
   check_diversion ratio exceeds find_queue ch
   = diverted ch ["XIVO_DSTID"; waiting_count q] "" "")
  /\ (forall queue_waittime holdtime,
        w <> 0 -> waittime ratio q = Some queue_waittime ->
        py_int (read "QUEUEHOLDTIME" ch) = Some holdtime ->
        queue_waittime < holdtime ->
        check_diversion ratio exceeds find_queue ch
        = diverted ch ["XIVO_DSTID"; waiting_count q; "QUEUEHOLDTIME"]
            "DIVERT_HOLDTIME" "QWAITTIME")
  /\ (forall queue_waitratio,
        w <> 0 -> waittime ratio q = None -> waitratio ratio q = Some queue_waitratio ->
        py_int (read (logged_members q) ch) = Some 0 ->
        check_diversion ratio exceeds find_queue ch
        = diverted ch ["XIVO_DSTID"; waiting_count q; logged_members q]
            "DIVERT_CA_RATIO" "QWAITRATIO").
Proof.
  intros Hx Hq Hw.
  assert (Hstart : forall k : Z -> M channel unit,
            bind (int_variable ("QUEUE_WAITING_COUNT(" ++ name ratio q ++ ")")) k
              (Chan (vars ch) (served ch ++ [GetVariable "XIVO_DSTID"]))
            = k w (Chan (vars ch)
                     ((served ch ++ [GetVariable "XIVO_DSTID"])
                      ++ [GetVariable (waiting_count q)]))).
  { intros k. unfold bind at 1. rewrite int_variable_channel, read_after_get.
    fold (waiting_count q). now rewrite Hw. }
  split; [|split].
  - intros ->. unfold check_diversion. unfold bind at 1.
    unfold agi_get_variable at 1, Channel_Agi at 1, Channel.get_variable at 1.
    unfold bind at 1. rewrite Hx, Hq. unfold ret at 1. rewrite Hstart.
    unfold _is_hold_time_overrun, _is_agent_ratio_overrun.
    destruct (waittime ratio q), (waitratio ratio q); cbn [Z.eqb];
      unfold bind, ret, _set_diversion, bind, agi_set_variable, Channel_Agi,
        Channel.set_variable, diverted;
      cbn [vars served Py.str map]; rewrite <- !app_assoc; reflexivity.
  - intros queue_waittime holdtime Hne Hwt Hh Hlt. unfold check_diversion. unfold bind at 1.
    unfold agi_get_variable at 1, Channel_Agi at 1, Channel.get_variable at 1.
    unfold bind at 1. rewrite Hx, Hq. unfold ret at 1. rewrite Hstart.
    unfold _is_hold_time_overrun. rewrite Hwt.
    apply Z.eqb_neq in Hne. rewrite Hne.
    unfold bind at 1. unfold bind at 1. rewrite int_variable_channel, read_after_get, Hh.
    unfold ret at 1. apply Z.ltb_lt in Hlt. rewrite Hlt.
    unfold _set_diversion, bind, agi_set_variable, Channel_Agi, Channel.set_variable, diverted.
    cbn [vars served Py.str map]. rewrite <- !app_assoc. reflexivity.
  - intros queue_waitratio Hne Hwt Hr Ha. unfold check_diversion. unfold bind at 1.
    unfold agi_get_variable at 1, Channel_Agi at 1, Channel.get_variable at 1.
    unfold bind at 1. rewrite Hx, Hq. unfold ret at 1. rewrite Hstart.
    unfold _is_hold_time_overrun. rewrite Hwt.
    unfold bind at 1. unfold ret at 1.
    unfold _is_agent_ratio_overrun. rewrite Hr.
    apply Z.eqb_neq in Hne. rewrite Hne.
    unfold bind at 1. unfold bind at 1. rewrite int_variable_channel, read_after_get.
    fold (logged_members q). rewrite Ha. cbn [Z.eqb]. unfold ret at 1.
    unfold _set_diversion, bind, agi_set_variable, Channel_Agi, Channel.set_variable, diverted.
    cbn [vars served Py.str map]. rewrite <- !app_assoc. reflexivity.
Qed.

(** X17: [check_diversion] breaks the dial plan when XIVO_DSTID is not a
    number, with the text of the ValueError of [int], which ends with the
    [repr] of what the variable holds, and when the queue is not found,
    with the text of that error; when the count of the calls waiting is
    not a number what it raises is the ValueError itself, and for a
    variable that is not set its text ends with two quotes.  In each case
    no variable is written.  The texts are those of strings [int] shows
    whole. *)
Theorem check_diversion_breaks (ch : channel) :
  (py_int (read "XIVO_DSTID" ch) = None ->
   FastAGIOps.shown_whole (read "XIVO_DSTID" ch) = true ->
   check_diversion ratio exceeds find_queue ch
   = broken ch ["XIVO_DSTID"]
       (FastAGIDialPlanBreak
          ("invalid literal for int() with base 10: "
           ++ PyText.repr (read "XIVO_DSTID" ch))))
  /\ (forall xid e,
        py_int (read "XIVO_DSTID" ch) = Some xid -> find_queue xid = inr e ->
        check_diversion ratio exceeds find_queue ch
        = broken ch ["XIVO_DSTID"] (FastAGIDialPlanBreak e))
  /\ (forall xid q,
        py_int (read "XIVO_DSTID" ch) = Some xid -> find_queue xid = inl q ->
        (py_int (read (waiting_count q) ch) = None ->
         FastAGIOps.shown_whole (read (waiting_count q) ch) = true ->
         check_diversion ratio exceeds find_queue ch
         = broken ch ["XIVO_DSTID"; waiting_count q]
             (ValueError ("invalid literal for int() with base 10: "
                          ++ PyText.repr (read (waiting_count q) ch))))
        /\ (vars ch !! waiting_count q = None ->
            check_diversion ratio exceeds find_queue ch
            = broken ch ["XIVO_DSTID"; waiting_count q]
                (ValueError "invalid literal for int() with base 10: ''"))).
Proof.
  split; [|split].
  - intros Hx _. unfold check_diversion, bind, agi_get_variable, Channel_Agi,
      Channel.get_variable. now rewrite Hx.
  - intros xid e Hx Hq. unfold check_diversion, bind, agi_get_variable, Channel_Agi,
      Channel.get_variable. now rewrite Hx, Hq.
  - intros xid q Hx Hq.
    assert (Hgo : py_int (read (waiting_count q) ch) = None ->
                  check_diversion ratio exceeds find_queue ch
                  = broken ch ["XIVO_DSTID"; waiting_count q]
                      (FastAGIOps.int_error (read (waiting_count q) ch))).
    { intros Hw. unfold check_diversion. unfold bind at 1.
      unfold agi_get_variable at 1, Channel_Agi at 1, Channel.get_variable at 1.
      unfold bind at 1. rewrite Hx, Hq. unfold ret at 1.
      unfold bind at 1. rewrite int_variable_channel, read_after_get.
      fold (waiting_count q). rewrite Hw. unfold broken. cbn [map vars served].
      now rewrite <- app_assoc. }
    split.
    + intros Hw _. now apply Hgo.
    + intros Hu.
      assert (Hr : read (waiting_count q) ch = "") by (unfold read; now rewrite Hu).
      rewrite Hgo by (now rewrite Hr). now rewrite Hr.
Qed.

End WithQueue.

Definition sample_support_queue : queue Z := Queue Z "support" (Some 30) None.

Definition sample_waiting_leg : channel :=
  Chan (<["QUEUEHOLDTIME" := "45"]>
          (<["QUEUE_WAITING_COUNT(support)" := "2"]> (<["XIVO_DSTID" := "8"]> ∅))) [].

Lemma check_diversion_decides_witness :
  vars (snd (check_diversion Z (fun _ _ _ => false) (fun _ => inl sample_support_queue) sample_waiting_leg))
  !! "XIVO_DIVERT_EVENT" = Some "DIVERT_HOLDTIME".
Proof.
  rewrite (proj1 (proj2 (check_diversion_decides Z (fun _ _ _ => false)
                           (fun _ => inl sample_support_queue) sample_waiting_leg sample_support_queue 8 2
                           eq_refl eq_refl eq_refl))
             30 45); [reflexivity | lia | reflexivity | reflexivity | lia].
Defined.

(** A call leg whose XIVO_DSTID is not a number. *)
Definition sample_named_leg : channel := Chan (<["XIVO_DSTID" := "support"]> ∅) [].

Lemma check_diversion_breaks_witness :
  fst (check_diversion Z (fun _ _ _ => false) (fun _ => inr "Unable to find queue (id: 8)")
         sample_waiting_leg)
  = Raise (FastAGIDialPlanBreak "Unable to find queue (id: 8)")
  /\ fst (check_diversion Z (fun _ _ _ => false) (fun _ => inl sample_support_queue)
            sample_named_leg)
     = Raise (FastAGIDialPlanBreak "invalid literal for int() with base 10: 'support'").
Proof.
  split.
  - rewrite (proj1 (proj2 (check_diversion_breaks Z (fun _ _ _ => false)
                             (fun _ => inr "Unable to find queue (id: 8)")
                             sample_waiting_leg))
               8 "Unable to find queue (id: 8)" eq_refl eq_refl).
    reflexivity.
  - rewrite (proj1 (check_diversion_breaks Z (fun _ _ _ => false)
                      (fun _ => inl sample_support_queue) sample_named_leg)
               eq_refl eq_refl).
    reflexivity.
Defined.

End CheckDiversionFacts.

(** ** The client of the tests and the daemon, end to end *)

Module ClientFacts.
Import FastAGI FastAGIInit AgidClient StringFacts ReFacts StripFacts FastAGIInitFacts ReplyFacts OpsFacts.

(** *** Bytes cut into lines *)

Lemma readlines_line l rest :
  all_chars not_nl l = true ->
  readlines (l ++ String Py.nl rest) = (l ++ String Py.nl "") :: readlines rest.
Proof.
  induction l as [|c l IH]; intros Hl; [reflexivity|].
  cbn [all_chars] in Hl. apply andb_prop in Hl as [Hc Hl].
  unfold not_nl in Hc. apply negb_true_iff in Hc.
  rewrite !append_cons. cbn [readlines]. rewrite Hc, (IH Hl). reflexivity.
Qed.

Lemma readlines_fragment l rest :
  all_chars not_nl l = true ->
  readlines (_send_fragment l ++ rest) = _send_fragment l :: readlines rest.
Proof.
  intros Hl. unfold _send_fragment. rewrite append_assoc.
  change (String Py.nl "" ++ rest) with (String Py.nl rest).
  now apply readlines_line.
Qed.

Lemma readlines_joined ls rest :
  ls <> [] -> forallb (all_chars not_nl) ls = true ->
  readlines (_send_fragment (Py.join (String Py.nl "") ls) ++ rest)
  = (map _send_fragment ls ++ readlines rest)%list.
Proof.
  induction ls as [|l ls IH]; intros Hne Hls; [congruence|].
  cbn [forallb] in Hls. apply andb_prop in Hls as [Hl Hls].
  destruct ls as [|l' ls].
  - cbn [Py.join map app]. now apply readlines_fragment.
  - change (Py.join (String Py.nl "") (l :: l' :: ls))
      with (l ++ String Py.nl "" ++ Py.join (String Py.nl "") (l' :: ls)).
    unfold _send_fragment at 1. rewrite !append_assoc.
    change (String Py.nl "" ++ ?x) with (String Py.nl x).
    rewrite readlines_line by exact Hl.
    rewrite <- append_assoc. fold (_send_fragment (Py.join (String Py.nl "") (l' :: ls))).
    rewrite IH by (congruence || exact Hls). reflexivity.
Qed.

(** *** Numbers in decimal *)

Definition digit_or_sign (c : ascii) : bool := Py.is_digit c || Ascii.eqb c "-".

Lemma string_of_uint_digits' d : all_chars digit_or_sign (NilEmpty.string_of_uint d) = true.
Proof. induction d; cbn [NilEmpty.string_of_uint all_chars]; try rewrite IHd; reflexivity. Qed.

Lemma string_of_uint_digits d : all_chars digit_or_sign (NilZero.string_of_uint d) = true.
Proof.
  destruct d; [reflexivity|..]; unfold NilZero.string_of_uint; apply string_of_uint_digits'.
Qed.

Lemma str_int_digits z : all_chars digit_or_sign (Py.str (Py.PInt z)) = true.
Proof.
  cbn [Py.str]. destruct (Z.to_int z) as [d|d]; cbn [NilZero.string_of_int all_chars];
    now rewrite string_of_uint_digits.
Qed.

Lemma digit_or_sign_no_colon c : digit_or_sign c = true -> negb (Ascii.eqb c ":") = true.
Proof. destruct c as [[] [] [] [] [] [] [] []]; try discriminate; reflexivity. Qed.

Lemma digit_or_sign_not_space c : digit_or_sign c = true -> not_space c = true.
Proof. destruct c as [[] [] [] [] [] [] [] []]; try discriminate; reflexivity. Qed.


(** *** One option, sent and read *)

Lemma strip_not_space s : all_chars not_space s = true -> Py.strip s = s.
Proof.
  intros Hs. unfold Py.strip.
  assert (Hl : Py.lstrip s = s).
  { destruct s as [|c s]; [reflexivity|]. cbn [all_chars] in Hs.
    apply andb_prop in Hs as [Hc _]. unfold not_space in Hc.
    apply negb_true_iff in Hc. cbn [Py.lstrip]. now rewrite Hc. }
  rewrite Hl. now apply rstrip_not_space.
Qed.

Lemma lstrip_blanks ws : all_chars Py.is_space ws = true -> Py.lstrip ws = "".
Proof.
  induction ws as [|c ws IH]; intros Hw; [reflexivity|].
  cbn [all_chars] in Hw. apply andb_prop in Hw as [Hc Hw].
  cbn [Py.lstrip]. rewrite Hc. now apply IH.
Qed.

Lemma strip_app_blanks s ws :
  all_chars Py.is_space ws = true -> Py.strip (s ++ ws) = Py.strip s.
Proof.
  intros Hw. induction s as [|c s IH].
  - change ("" ++ ws) with ws. unfold Py.strip. now rewrite lstrip_blanks.
  - destruct (Py.is_space c) eqn:Hc.
    + rewrite append_cons. unfold Py.strip in *. cbn [Py.lstrip]. now rewrite Hc.
    + now apply strip_blanks_after.
Qed.

Lemma strip_cons_not_blank c s : Py.is_space c = false -> Py.strip (String c s) <> "".
Proof.
  intros Hc. unfold Py.strip. cbn [Py.lstrip]. rewrite Hc.
  rewrite rstrip_cons_keep by exact Hc. discriminate.
Qed.

(** The line of an option [key: value], as it is sent. *)
Definition option_line (key value : string) : string :=
  _send_fragment (key ++ ": " ++ value).

Lemma option_line_shape key value :
  option_line key value = key ++ String ":" (String " " (value ++ String Py.nl "")).
Proof.
  unfold option_line, _send_fragment. rewrite append_assoc.
  reflexivity.
Qed.

Lemma add_env_option env key value :
  no_colon key = true -> all_chars not_space key = true -> key <> "" ->
  add_env env (Py.strip (option_line key value)) = <[key := Py.strip value]> env.
Proof.
  intros Hk Hs Hne. rewrite option_line_shape, add_env_key_data by exact Hk.
  rewrite (strip_not_space key Hs).
  apply String.eqb_neq in Hne. rewrite Hne. f_equal.
  unfold Py.strip at 1. cbn [Py.lstrip Py.is_space Ascii.eqb Bool.eqb orb].
  fold (Py.strip (value ++ String Py.nl "")).
  now apply strip_app_blanks.
Qed.

Lemma option_line_not_blank c key value :
  Py.is_space c = false -> blank (option_line (String c key) value) = false.
Proof.
  intros Hc. unfold blank. apply String.eqb_neq.
  rewrite option_line_shape, append_cons. now apply strip_cons_not_blank.
Qed.

(** *** The keys of the arguments *)

Lemma arg_key_no_colon x : no_colon (arg_key x) = true.
Proof.
  unfold no_colon, arg_key. rewrite all_chars_app.
  rewrite (all_chars_impl _ _ _ digit_or_sign_no_colon (str_int_digits x)). reflexivity.
Qed.

Lemma arg_key_not_space x : all_chars not_space (arg_key x) = true.
Proof.
  unfold arg_key. rewrite all_chars_app.
  rewrite (all_chars_impl _ _ _ digit_or_sign_not_space (str_int_digits x)). reflexivity.
Qed.

Lemma arg_key_head x : exists t, arg_key x = String "a" (String "g" (String "i" (String "_" (String "a" t)))).
Proof. eexists. reflexivity. Qed.

(** The environment with the arguments [args] put in from number [x]
    on. *)
Fixpoint put_args (env : gmap string string) (x : Z) (args : list string)
    : gmap string string :=
  match args with
  | [] => env
  | arg :: args' => put_args (<[arg_key x := arg]> env) (x + 1) args'
  end.

Lemma put_args_other env x args k :
  (forall j, (j < length args)%nat -> k <> arg_key (x + Z.of_nat j)) ->
  put_args env x args !! k = env !! k.
Proof.
  revert env x. induction args as [|a args IH]; intros env x Hk; [reflexivity|].
  cbn [put_args]. rewrite IH.
  - apply lookup_insert_ne. specialize (Hk 0%nat). cbn [length] in Hk.
    rewrite Z.add_0_r in Hk. intros He. apply Hk; [lia | now symmetry].
  - intros j Hj. replace (x + 1 + Z.of_nat j) with (x + Z.of_nat (S j)) by lia.
    apply Hk. cbn [length]. lia.
Qed.

Lemma put_args_lookup env x args j a :
  args !! j = Some a -> put_args env x args !! arg_key (x + Z.of_nat j) = Some a.
Proof.
  revert env x j. induction args as [|b args IH]; intros env x j Hj; [discriminate|].
  cbn [put_args]. destruct j as [|j].
  - injection Hj as ->. rewrite Z.add_0_r. rewrite put_args_other.
    + apply lookup_insert_eq.
    + intros j _ He. apply arg_key_inj in He. lia.
  - replace (x + Z.of_nat (S j)) with (x + 1 + Z.of_nat j) by lia.
    now apply IH.
Qed.

Lemma env_of_options args x env :
  env_of (map _send_fragment (arg_options x args)) env
  = put_args env x (map Py.strip args).
Proof.
  revert x env. induction args as [|a args IH]; intros x env; [reflexivity|].
  cbn [arg_options map]. unfold env_of in *. cbn [fold_left put_args].
  rewrite <- IH. f_equal.
  change (_send_fragment ("agi_arg_" ++ Py.str (Py.PInt x) ++ ": " ++ a))
    with (_send_fragment ("agi_arg_" ++ (Py.str (Py.PInt x) ++ (": " ++ a)))).
  rewrite <- (append_assoc "agi_arg_" (Py.str (Py.PInt x)) (": " ++ a)).
  fold (arg_key x). fold (option_line (arg_key x) a).
  apply add_env_option.
  - apply arg_key_no_colon.
  - apply arg_key_not_space.
  - destruct (arg_key_head x) as [t ->]. discriminate.
Qed.

Lemma options_not_blank args x :
  forallb (fun l => negb (blank l)) (map _send_fragment (arg_options x args)) = true.
Proof.
  revert x. induction args as [|a args IH]; intros x; [reflexivity|].
  cbn [arg_options map forallb]. rewrite IH, andb_true_r.
  apply negb_true_iff.
  change (_send_fragment ("agi_arg_" ++ Py.str (Py.PInt x) ++ ": " ++ a))
    with (option_line (String "a" ("gi_arg_" ++ Py.str (Py.PInt x))) a)
    || (rewrite <- (append_assoc "agi_arg_" (Py.str (Py.PInt x)) (": " ++ a));
        change (_send_fragment (("agi_arg_" ++ Py.str (Py.PInt x)) ++ ": " ++ a))
          with (option_line (String "a" ("gi_arg_" ++ Py.str (Py.PInt x))) a)).
  now apply option_line_not_blank.
Qed.

Lemma options_no_nl args x :
  forallb (all_chars not_nl) args = true ->
  forallb (all_chars not_nl) (arg_options x args) = true.
Proof.
  revert x. induction args as [|a args IH]; intros x Ha; [reflexivity|].
  cbn [forallb] in Ha. apply andb_prop in Ha as [Ha Hs].
  cbn [arg_options forallb]. rewrite (IH _ Hs), andb_true_r.
  rewrite !all_chars_app, Ha.
  rewrite (all_chars_impl _ _ _ not_space_not_nl
             (all_chars_impl _ _ _ digit_or_sign_not_space (str_int_digits x))).
  reflexivity.
Qed.


(** *** A request of the client, read by the daemon *)

(** The three lines every request starts with. *)
Definition head_lines (command : string) : list string :=
  [option_line "agi_network" "yes";
   option_line "agi_network_script" command;
   option_line "agi_request" ("agi://localhost/" ++ command)].

Definition head_env (command : string) : gmap string string :=
  <["agi_request" := Py.strip ("agi://localhost/" ++ command)]>
    (<["agi_network_script" := Py.strip command]>
       (<["agi_network" := Py.strip "yes"]> ∅)).

Lemma concat_cons f fs : String.concat "" (f :: fs) = f ++ String.concat "" fs.
Proof. destruct fs; [symmetry; apply append_nil_r | reflexivity]. Qed.

Lemma concat_app fs gs :
  String.concat "" (fs ++ gs) = String.concat "" fs ++ String.concat "" gs.
Proof.
  induction fs as [|f fs IH]; [reflexivity|].
  change ((f :: fs) ++ gs)%list with (f :: (fs ++ gs))%list.
  now rewrite !concat_cons, IH, append_assoc.
Qed.

Lemma readlines_fragments ls rest :
  forallb (all_chars not_nl) ls = true ->
  readlines (String.concat "" (map _send_fragment ls) ++ rest)
  = (map _send_fragment ls ++ readlines rest)%list.
Proof.
  induction ls as [|l ls IH]; intros Hls; [reflexivity|].
  cbn [forallb] in Hls. apply andb_prop in Hls as [Hl Hls].
  cbn [map]. rewrite concat_cons, append_assoc, readlines_fragment by exact Hl.
  now rewrite IH.
Qed.

Lemma joined_fragments ls :
  ls <> [] ->
  _send_fragment (Py.join (String Py.nl "") ls) = String.concat "" (map _send_fragment ls).
Proof.
  induction ls as [|l ls IH]; intros Hne; [congruence|].
  destruct ls as [|l' ls]; [reflexivity|].
  change (map _send_fragment (l :: l' :: ls))
    with (_send_fragment l :: map _send_fragment (l' :: ls)).
  rewrite concat_cons, <- IH by congruence.
  change (Py.join (String Py.nl "") (l :: l' :: ls))
    with (l ++ String Py.nl "" ++ Py.join (String Py.nl "") (l' :: ls)).
  unfold _send_fragment. now rewrite !append_assoc.
Qed.

Lemma sent_args args :
  String.concat ""
    match args with
    | [] => []
    | _ => [_send_fragment (Py.join (String Py.nl "") (arg_options 1 args))]
    end
  = String.concat "" (map _send_fragment (arg_options 1 args)).
Proof.
  destruct args as [|a args]; [reflexivity|].
  rewrite <- joined_fragments by (cbn [arg_options]; congruence). reflexivity.
Qed.

Lemma sent_kwargs kwargs :
  String.concat ""
    match kwargs with
    | [] => []
    | _ => [_send_fragment (Py.join (String Py.nl "") (kw_options kwargs))]
    end
  = String.concat "" (map _send_fragment (kw_options kwargs)).
Proof.
  destruct kwargs as [|a kwargs]; [reflexivity|].
  rewrite <- joined_fragments by (cbn [kw_options map]; congruence). reflexivity.
Qed.

(** The lines of a request, as the daemon reads them. *)
Lemma received_handler command args kwargs :
  all_chars not_nl command = true ->
  forallb (all_chars not_nl) args = true ->
  forallb (all_chars not_nl) (kw_options kwargs) = true ->
  readlines (String.concat "" (_send_handler command args kwargs))
  = (head_lines command ++ map _send_fragment (arg_options 1 args)
     ++ map _send_fragment (kw_options kwargs) ++ [_send_fragment ""])%list.
Proof.
  intros Hc Ha Hk. unfold _send_handler.
  rewrite !concat_app, sent_args, sent_kwargs.
  change (String.concat "" [_send_fragment "agi_network: yes";
                            _send_fragment ("agi_network_script: " ++ command);
                            _send_fragment ("agi_request: agi://localhost/" ++ command)])
    with (String.concat ""
            (map _send_fragment ["agi_network: yes"; "agi_network_script: " ++ command;
                                 "agi_request: agi://localhost/" ++ command])).
  rewrite readlines_fragments.
  2:{ cbn [forallb]. rewrite !all_chars_app, Hc. reflexivity. }
  rewrite readlines_fragments by (now apply options_no_nl).
  rewrite readlines_fragments by exact Hk.
  reflexivity.
Qed.

Lemma head_lines_env command : env_of (head_lines command) ∅ = head_env command.
Proof.
  unfold env_of, head_lines, head_env. cbn [fold_left].
  now rewrite !add_env_option by (reflexivity || discriminate).
Qed.

Lemma head_env_no_arg command x : head_env command !! arg_key x = None.
Proof.
  unfold head_env. destruct (arg_key_head x) as [t ->].
  now rewrite !lookup_insert_ne by discriminate.
Qed.

Lemma init_on_block block rest out err :
  forallb (fun l => negb (blank l)) block = true ->
  init (Conn (map Line (block ++ [_send_fragment ""]) ++ rest) out err)
  = (Ok (Session (env_of block ∅) (_get_agi_args (env_of block ∅))), Conn rest out err).
Proof.
  intros Hb. unfold init. cbn [inf outf outf_errno].
  rewrite map_app, <- app_assoc. cbn [map app].
  now rewrite get_agi_env_block.
Qed.

Lemma get_agi_args_put env args :
  (forall x, env !! arg_key x = None) ->
  _get_agi_args (put_args env 1 args) = args.
Proof.
  intros Hnone.
  assert (Hv : forall j v, args !! j = Some v ->
                           put_args env 1 args !! arg_key (1 + Z.of_nat j) = Some v)
    by (intros j v; apply put_args_lookup).
  unfold _get_agi_args. apply args_from_values.
  - exact Hv.
  - rewrite put_args_other; [apply Hnone|].
    intros j Hj He. apply arg_key_inj in He. lia.
  - pose proof (args_fit _ _ _ Hv). lia.
Qed.

(** *** Keyword options beside the arguments *)

Fixpoint starts_with (start s : string) : bool :=
  match start with
  | EmptyString => true
  | String a start' =>
      match s with
      | String b s' => Ascii.eqb a b && starts_with start' s'
      | EmptyString => false
      end
  end.

(** The keyword options that leave the arguments alone: key and value
    hold no newline, the key holds no colon and, stripped, does not start
    as the key of an argument does. *)
Definition plain_option (kv : string * string) : bool :=
  all_chars not_nl (fst kv) && all_chars not_nl (snd kv) && no_colon (fst kv)
  && negb (starts_with "agi_arg_" (Py.strip (fst kv))).

Lemma plain_option_not_arg kv x :
  plain_option kv = true -> Py.strip (fst kv) <> arg_key x.
Proof.
  unfold plain_option. intros H He.
  apply andb_prop in H as [_ H]. apply negb_true_iff in H.
  rewrite He in H.
  assert (Hp : starts_with "agi_arg_" (arg_key x) = true) by reflexivity.
  congruence.
Qed.

Lemma kw_line_not_blank k v : blank (option_line k v) = false.
Proof.
  unfold blank. apply String.eqb_neq.
  rewrite option_line_shape, strip_key_data.
  destruct (Py.lstrip k); discriminate.
Qed.

Lemma kw_options_not_blank kwargs :
  forallb (fun l => negb (blank l)) (map _send_fragment (kw_options kwargs)) = true.
Proof.
  induction kwargs as [|[k v] kwargs IH]; [reflexivity|].
  change (kw_options ((k, v) :: kwargs)) with ((k ++ ": " ++ v) :: kw_options kwargs).
  cbn [map forallb]. rewrite IH, andb_true_r.
  fold (option_line k v). now rewrite kw_line_not_blank.
Qed.

Lemma kw_options_no_nl kwargs :
  forallb plain_option kwargs = true ->
  forallb (all_chars not_nl) (kw_options kwargs) = true.
Proof.
  induction kwargs as [|[k v] kwargs IH]; intros H; [reflexivity|].
  cbn [forallb] in H. apply andb_prop in H as [Hkv H].
  change (kw_options ((k, v) :: kwargs)) with ((k ++ ": " ++ v) :: kw_options kwargs).
  cbn [forallb]. rewrite (IH H), andb_true_r.
  unfold plain_option in Hkv. cbn [fst snd] in Hkv.
  apply andb_prop in Hkv as [Hkv _]. apply andb_prop in Hkv as [Hkv _].
  apply andb_prop in Hkv as [Hk Hv].
  rewrite !all_chars_app, Hk, Hv. reflexivity.
Qed.

Lemma kw_options_keep_args kwargs env x :
  forallb plain_option kwargs = true ->
  env_of (map _send_fragment (kw_options kwargs)) env !! arg_key x = env !! arg_key x.
Proof.
  revert env. induction kwargs as [|[k v] kwargs IH]; intros env H; [reflexivity|].
  cbn [forallb] in H. apply andb_prop in H as [Hkv H].
  change (kw_options ((k, v) :: kwargs)) with ((k ++ ": " ++ v) :: kw_options kwargs).
  cbn [map]. unfold env_of in *. cbn [fold_left].
  rewrite (IH _ H). fold (option_line k v).
  rewrite option_line_shape, add_env_key_data.
  - destruct (String.eqb (Py.strip k) ""); [reflexivity|].
    apply lookup_insert_ne. apply (plain_option_not_arg (k, v) x Hkv).
  - unfold plain_option in Hkv. cbn [fst snd] in Hkv.
    apply andb_prop in Hkv as [Hkv _]. now apply andb_prop in Hkv as [_ Hc].
Qed.

Lemma get_agi_args_by_keys env args :
  (forall j v, args !! j = Some v -> env !! arg_key (1 + Z.of_nat j) = Some v) ->
  env !! arg_key (1 + Z.of_nat (length args)) = None ->
  _get_agi_args env = args.
Proof.
  intros Hv Hn. unfold _get_agi_args. apply args_from_values.
  - exact Hv.
  - exact Hn.
  - pose proof (args_fit _ _ _ Hv). lia.
Qed.

(** X18: the arguments a test gives [_send_handler] are the arguments
    the daemon has after [__init__], in the same order, each stripped of
    the blanks around it, as long as none holds a newline and the keyword
    options given with them leave the arguments alone: no newline, no
    colon in a key, and no key that starts as the key of an argument
    does.  The daemon has read the request to its end and no further.
    Without keyword options, agi_network_script holds the command. *)
Theorem handler_args_round_trip (command : string) (args : list string)
    (kwargs : list (string * string)) (rest : list rd) (out : list string)
    (err : option Z) :
  all_chars not_nl command = true ->
  forallb (all_chars not_nl) args = true ->
  forallb plain_option kwargs = true ->
  exists env,
    init (Conn (received (_send_handler command args kwargs) ++ rest) out err)
    = (Ok (Session env (map Py.strip args)), Conn rest out err)
    /\ (kwargs = [] -> env !! "agi_network_script" = Some (Py.strip command)).
Proof.
  intros Hc Ha Hk. unfold received.
  rewrite received_handler by (assumption || now apply kw_options_no_nl).
  rewrite !app_assoc.
  rewrite init_on_block.
  2:{ rewrite !forallb_app, options_not_blank, kw_options_not_blank, !andb_true_r.
      cbn [head_lines forallb].
      rewrite !option_line_not_blank by reflexivity. reflexivity. }
  unfold env_of at 1 2. rewrite !fold_left_app. fold (env_of (head_lines command) ∅).
  rewrite head_lines_env.
  fold (env_of (map _send_fragment (arg_options 1 args)) (head_env command)).
  rewrite env_of_options.
  fold (env_of (map _send_fragment (kw_options kwargs))
          (put_args (head_env command) 1 (map Py.strip args))).
  exists (env_of (map _send_fragment (kw_options kwargs))
            (put_args (head_env command) 1 (map Py.strip args))).
  split.
  - rewrite (get_agi_args_by_keys _ (map Py.strip args)); [reflexivity| |].
    + intros j v Hj. rewrite kw_options_keep_args by exact Hk.
      now apply put_args_lookup.
    + rewrite kw_options_keep_args by exact Hk.
      rewrite put_args_other; [apply head_env_no_arg|].
      intros j Hj He. apply arg_key_inj in He. lia.
  - intros ->. cbn [kw_options map env_of fold_left].
    rewrite put_args_other.
    + unfold head_env. rewrite lookup_insert_ne by discriminate. apply lookup_insert_eq.
    + intros j _. destruct (arg_key_head (1 + Z.of_nat j)) as [t ->]. discriminate.
Qed.

Lemma handler_args_round_trip_witness :
  exists env,
    init (Conn (received (_send_handler "agent_login" ["7"; " 1001 "; "default"]
                            [("agi_callington", "16")]) ++ []) [] None)
    = (Ok (Session env ["7"; "1001"; "default"]), Conn [] [] None)
    /\ ([("agi_callington", "16")] = [] ->
        env !! "agi_network_script" = Some "agent_login").
Proof.
  exact (handler_args_round_trip "agent_login" ["7"; " 1001 "; "default"]
           [("agi_callington", "16")] [] [] None eq_refl eq_refl eq_refl).
Defined.

(** X19: the request of the test for [callerid_extend], answered as the
    test client answers, ends in one line written by the daemon: SET
    VARIABLE with the name XIVO_SRCTON and the type of number the client
    gave, stripped of the blanks around it, both quoted. *)
Theorem callerid_extend_end_to_end (callington : string) (rest : list rd)
    (out : list string) :
  all_chars not_nl callington = true ->
  bind init (fun session => CalleridExtend.callerid_extend (env session))
    (Conn (received (_send_handler "callerid_extend" [] [("agi_callington", callington)])
           ++ Line (_send_result 1 None) :: rest) out None)
  = (Ok tt,
     Conn rest
       (out ++ [FastAGIFacts.set_command "XIVO_SRCTON" (Py.PStr (Py.strip callington))])
       None).
Proof.
  intros Hc. unfold received.
  rewrite received_handler.
  2: reflexivity. 2: reflexivity.
  2:{ cbn [kw_options map forallb fst snd]. rewrite !all_chars_app, Hc. reflexivity. }
  cbn [arg_options map kw_options fst snd]. rewrite app_nil_l.
  change [_send_fragment ("agi_callington" ++ ": " ++ callington); _send_fragment ""]
    with ([option_line "agi_callington" callington] ++ [_send_fragment ""])%list.
  rewrite app_assoc. unfold bind. rewrite init_on_block.
  2:{ rewrite forallb_app. cbn [head_lines forallb].
      fold (option_line "agi_callington" callington).
      rewrite !option_line_not_blank by reflexivity. reflexivity. }
  unfold env_of at 1. rewrite fold_left_app. fold (env_of (head_lines "callerid_extend") ∅).
  rewrite head_lines_env. cbn [fold_left env].
  fold (option_line "agi_callington" callington).
  rewrite add_env_option by (reflexivity || discriminate).
  unfold CalleridExtend.callerid_extend. rewrite lookup_insert_eq.
  apply FastAGIFacts.set_variable_acknowledged.
Qed.

Lemma callerid_extend_end_to_end_witness :
  outf (snd (bind init (fun session => CalleridExtend.callerid_extend (env session))
               (Conn (received (_send_handler "callerid_extend" []
                                  [("agi_callington", "16")])
                      ++ [Line (_send_result 1 None)]) [] None)))
  = ["SET VARIABLE " ++ String Py.dquote ("XIVO_SRCTON" ++ String Py.dquote
       (" " ++ String Py.dquote ("16" ++ String Py.dquote (String Py.nl ""))))].
Proof.
  rewrite (callerid_extend_end_to_end "16" [] [] eq_refl). reflexivity.
Defined.


(** X20: what the test client sends with [_send_result] for a variable
    is what [get_variable] returns, for every value without a newline:
    the empty value, for which the client leaves the parentheses out, and
    the word hangup included. *)
Theorem send_result_read_back (name v : string) (rest : list rd) (out : list string) :
  all_chars not_nl v = true ->
  get_variable name (Conn (Line (_send_result 1 (Some v)) :: rest) out None)
  = (Ok v,
     Conn rest (out ++ [command_line "GET VARIABLE" [Py.PStr (_quote (Py.PStr name))]]) None).
Proof.
  intros Hv. destruct v as [|c v].
  - change (_send_result 1 (Some "")) with (reply_plain "1" ++ String Py.nl "").
    unfold get_variable, bind, try_except.
    rewrite (execute_reply_plain _ _ "1" "" (String Py.nl "") rest out eq_refl eq_refl).
    rewrite scan_one. cbn [String.eqb Ascii.eqb Bool.eqb]. unfold result_data.
    now rewrite lookup_insert_eq.
  - change (_send_result 1 (Some (String c v)))
      with (reply_data "1" (String c v) ++ String Py.nl "").
    unfold get_variable, bind, try_except.
    rewrite (execute_reply_data _ _ "1" "" (String c v) (String Py.nl "") rest out
               eq_refl Hv eq_refl).
    rewrite scan_one.
    destruct (String.eqb_spec (String c v) "hangup") as [->|Hne]; [reflexivity|].
    cbn [String.eqb Ascii.eqb Bool.eqb]. unfold result_data.
    now rewrite lookup_insert_eq.
Qed.

Lemma send_result_read_back_witness :
  fst (get_variable "WAZO_USERUUID"
         (Conn [Line (_send_result 1 (Some "hangup"))] [] None))
  = Ok "hangup".
Proof.
  rewrite (send_result_read_back "WAZO_USERUUID" "hangup" [] [] eq_refl). reflexivity.
Defined.

End ClientFacts.

(** ** The voicemail box and its row *)

Module VMBoxFacts.
Import DB ToggleFacts.

Definition of_box (box : VMBox.t) (r : voicemail_row) : bool :=
  vm_uniqueid r =? VMBox.id box.

Definition set_commented (v : Z) (r : voicemail_row) : voicemail_row :=
  {| vm_uniqueid := vm_uniqueid r; vm_commented := v |}.

Lemma updated_rows_of_box box v rows :
  List.filter (of_box box) (map (fun r => if of_box box r then set_commented v r else r) rows)
  = map (set_commented v) (List.filter (of_box box) rows).
Proof.
  induction rows as [|r rows IH]; [reflexivity|].
  cbn [map List.filter]. destruct (of_box box r) eqn:Hr.
  - unfold of_box in *. cbn [set_commented vm_uniqueid]. rewrite Hr.
    cbn [map]. now rewrite <- IH.
  - rewrite Hr. exact IH.
Qed.

Lemma updated_rows_of_others box v rows :
  List.filter (fun r => negb (of_box box r))
    (map (fun r => if of_box box r then set_commented v r else r) rows)
  = List.filter (fun r => negb (of_box box r)) rows.
Proof.
  induction rows as [|r rows IH]; [reflexivity|].
  cbn [map List.filter]. destruct (of_box box r) eqn:Hr.
  - unfold of_box in *. cbn [set_commented vm_uniqueid]. rewrite Hr. exact IH.
  - rewrite Hr. cbn [negb]. now rewrite IH.
Qed.

(** X21: when the box has one row, [VMBox.toggle_enable] returns, and
    then the object and the database agree: the row of the box holds the
    flag the object holds, the rows of the other boxes are as they were,
    and the box still has one row.  Called without an argument on a flag
    that is 0 or 1, it turns the flag over; called with one, it stores 0
    to enable and 1 to disable. *)
Theorem toggle_enable_row_follows_object (enabled : option bool) (box : VMBox.t)
    (c : cursor) :
  voicemail_rows c (VMBox.id box) = 1 ->
  exists box' c',
    VMBox.toggle_enable enabled (box, c) = (Ok tt, (box', c'))
    /\ VMBox.id box' = VMBox.id box
    /\ VMBox.commented box'
       = match enabled with
         | None => if VMBox.commented box =? 0 then 1 else 0
         | Some b => if b then 0 else 1
         end
    /\ (forall r, In r (voicemail c') -> vm_uniqueid r = VMBox.id box ->
                  vm_commented r = VMBox.commented box')
    /\ List.filter (fun r => negb (of_box box r)) (voicemail c')
       = List.filter (fun r => negb (of_box box r)) (voicemail c)
    /\ voicemail_rows c' (VMBox.id box') = 1.
Proof.
  intros Hone. rewrite toggle_enable_unfold. cbv zeta.
  set (v := match enabled with
            | None => VMBox.int_not (VMBox.commented box)
            | Some b => if b then 0 else 1
            end).
  rewrite rowcount_update_voicemail. fold (voicemail_rows c (VMBox.id box)).
  rewrite Hone. cbn [Z.eqb Pos.eqb negb].
  eexists. eexists. split; [reflexivity|].
  cbn [VMBox.id VMBox.commented]. split; [reflexivity|]. split; [reflexivity|].
  assert (Hrows : voicemail (update_voicemail (fun r => vm_uniqueid r =? VMBox.id box)
                               (fun r => {| vm_uniqueid := vm_uniqueid r; vm_commented := v |}) c)
                  = map (fun r => if of_box box r then set_commented v r else r) (voicemail c))
    by reflexivity.
  rewrite Hrows. split; [|split].
  - intros r Hr Hid. apply in_map_iff in Hr as (r0 & <- & _).
    destruct (of_box box r0) eqn:H0; [reflexivity|].
    unfold of_box in H0. apply Z.eqb_neq in H0. contradiction.
  - apply updated_rows_of_others.
  - unfold voicemail_rows. rewrite Hrows.
    fold (of_box box). rewrite updated_rows_of_box, length_map. exact Hone.
Qed.

Definition sample_boxes : cursor :=
  Cursor [] [] []
    [ {| vm_uniqueid := 4; vm_commented := 0 |}; {| vm_uniqueid := 5; vm_commented := 1 |} ]
    [] [] [] [] 0.

Lemma toggle_enable_row_follows_object_witness :
  exists box' c',
    VMBox.toggle_enable None (VMBox.Build 5 1, sample_boxes) = (Ok tt, (box', c'))
    /\ VMBox.commented box' = 0
    /\ voicemail c' = [ {| vm_uniqueid := 4; vm_commented := 0 |};
                        {| vm_uniqueid := 5; vm_commented := 0 |} ].
Proof.
  destruct (toggle_enable_row_follows_object None (VMBox.Build 5 1) sample_boxes eq_refl)
    as (box' & c' & Ht & _).
  exists box', c'. split; [exact Ht|].
  injection Ht as <- <-. split; reflexivity.
Defined.

End VMBoxFacts.

(** ** A schedule that is commented out *)

Module ScheduleCommentedFacts.
Import DB ScheduleDataMapper.

Lemma no_row_when_commented (c : cursor) path path_id :
  (forall p s,
     In p (schedule_path c) -> sp_path p = path -> sp_pathid p = path_id ->
     In s (schedule c) -> s_id s = sp_schedule_id p -> s_commented s <> 0) ->
  select_schedule c path path_id = [].
Proof.
  unfold select_schedule. generalize (schedule_path c) as ps.
  assert (Hnone : forall id ss,
            (forall s, In s ss -> s_id s = id -> s_commented s <> 0) ->
            List.filter (fun s => (s_id s =? id) && (s_commented s =? 0)) ss = []).
  { intros id ss. induction ss as [|s ss IHs]; intros Hs; [reflexivity|].
    cbn [List.filter]. rewrite IHs by (intros s' Hs'; apply Hs; now right).
    destruct (Z.eqb_spec (s_id s) id) as [He|]; [|reflexivity].
    assert (Hne : (s_commented s =? 0) = false)
      by (apply Z.eqb_neq, Hs; [now left | exact He]).
    now rewrite Hne. }
  intros ps. induction ps as [|p ps IH]; intros Hc; [reflexivity|].
  cbn [flat_map]. rewrite IH by (intros p' s Hp'; apply Hc; now right).
  rewrite app_nil_r.
  destruct (String.eqb_spec (sp_path p) path) as [Hpath|]; [|reflexivity].
  destruct (Z.eqb_spec (sp_pathid p) path_id) as [Hid|]; [|reflexivity].
  cbn [andb]. apply Hnone. intros s Hs He.
  apply (Hc p s); [now left | exact Hpath | exact Hid | exact Hs | exact He].
Qed.

Section WithBuilder.
Variables hours_t weekdays_t days_t months_t : Type.
Variable decode_hours : option string -> outcome hours_t.
Variable decode_weekdays : option string -> outcome weekdays_t.
Variable decode_days : option string -> outcome days_t.
Variable decode_months : option string -> outcome months_t.

(** X22: a path whose own schedules are all commented out gets the
    schedule that is always open, as a path with no schedule does,
    whatever the schedules of the other paths are and whatever its stored
    periods hold: to comment a schedule out opens the path, it does not
    close it. *)
Theorem commented_schedule_is_always_open (c : cursor) (path : string) (path_id : Z) :
  (forall p s,
     In p (schedule_path c) -> sp_path p = path -> sp_pathid p = path_id ->
     In s (schedule c) -> s_id s = sp_schedule_id p -> s_commented s <> 0) ->
  get_from_path decode_hours decode_weekdays decode_days decode_months c path path_id
  = Ok AlwaysOpenedSchedule.
Proof.
  intros Hc. unfold get_from_path. now rewrite no_row_when_commented.
Qed.

End WithBuilder.

(** Two paths: the schedule of the incoming call is commented out, the
    one of the queue is not. *)
Definition two_paths : cursor :=
  Cursor [] [] [] []
    [ {| sp_path := "incall"; sp_pathid := 3; sp_schedule_id := 1 |};
      {| sp_path := "queue"; sp_pathid := 3; sp_schedule_id := 2 |} ]
    [ {| s_id := 1; s_timezone := Some "Europe/Paris"; s_fallback_action := Some "endcall:hangup";
         s_fallback_actionid := None; s_fallback_actionargs := None; s_commented := 1 |};
      {| s_id := 2; s_timezone := Some "Europe/Paris"; s_fallback_action := Some "endcall:hangup";
         s_fallback_actionid := None; s_fallback_actionargs := None; s_commented := 0 |} ]
    [ {| st_schedule_id := 1; st_mode := "opened"; st_hours := Some "08:00-18:00";
         st_weekdays := None; st_monthdays := None; st_months := None;
         st_action := None; st_actionid := None; st_actionargs := None |} ]
    [] 0.

Lemma commented_schedule_is_always_open_witness :
  get_from_path ScheduleFacts.sample_decode ScheduleFacts.sample_decode
    ScheduleFacts.sample_decode ScheduleFacts.sample_decode two_paths "incall" 3
  = Ok AlwaysOpenedSchedule.
Proof.
  apply commented_schedule_is_always_open.
  intros p s [<-|[<-|[]]] Hpath Hid [<-|[<-|[]]] He; try discriminate.
Defined.

End ScheduleCommentedFacts.
